(* ===== verification/_CoqProject ===== *)
-Q . S2P
Prelude.v
Pandas.v
RsiEngine.v
PyNum.v
Classify.v
YahooProvider.v
Screener.v
Stats.v
AvData.v
AlphaVantage.v
Render.v
Stylesheet.v
ScanMachine.v
Page.v
