(* ===== verification/Prelude.v ===== *)
(** * A verification development of the RSI Forex screener (rsi-blue3)

    ** The program

    src/apprsi.py is a Streamlit page.  For each of 10 Forex pairs and
    each of four timeframes (fetched as ["H1"], ["H4"], ["D1"], ["W1"],
    shown as ["H1"], ["H4"], ["Daily"], ["Weekly"]) it fetches a price
    frame from Yahoo Finance ([fetch_forex_data], through
    [get_yahoo_symbol]), computes a 10-period RSI on the OHLC4 typical
    price ([calculate_rsi]), stores it in a row dict, and advances a
    progress bar; it then renders the grid as an HTML table whose cells
    are printed by [format_rsi] and coloured by [get_rsi_class], and shows
    per-timeframe counts of oversold and overbought values.
    src/app.py is a second data source, [get_data_alphavantage]: it reads
    an API key from the secrets, sends one HTTP request, and normalizes
    the JSON series into an ascending frame of 60 to 200 rows.  The page
    does not call it (app.py's loop is a comment).

    ** Files, in dependency order

    - Prelude.v (this file): floats as [pyfloat := option Q] (an exact
      rational, NaN = [None]) and their equivalence [pyfloat_eq];
      [iloc_last], [tail_n] ([Series.iloc[-1]], [DataFrame.tail]);
      lemmas on [StronglySorted] and on distinct elements; Python dicts
      as insertion-ordered association lists ([dict_get], [dict_set],
      [dict_of_pairs] for [dict(pairs)]); transition sequences ([star],
      [nsteps], [irred], uniqueness of the end of a deterministic
      relation); the hint databases [pyq] and [pyrw] and the tactics
      [qbool], [qcase].
    - Pandas.v: the pandas calls of [calculate_rsi]: OHLC4, [diff],
      [where], [dropna], and [ewm(span, adjust=False).mean()] as the
      weighted/old_wt/nobs loop of pandas' kernel ([ewm_mean]), with the
      lemma that on NaN-free input it is the textbook recurrence
      ([ewm_ref]) that the RSI specification uses.
    - RsiEngine.v: [calculate_rsi] (apprsi.py 98-115), statement by
      statement, and the abstract [rsi_spec] = 100 G / (G + L).
    - PyNum.v: [format_rsi] ([f"{v:.2f}"], rounding half to even) and
      [to_numeric_str] ([pd.to_numeric] on a decimal string, white
      space around it skipped as pandas' [xstrtod] does).
    - Classify.v: [get_rsi_class] (apprsi.py 134-138).
    - YahooProvider.v: [get_yahoo_symbol], [params], [fetch_forex_data]
      (117-130); the yfinance call is the class [YahooFinance], so every
      theorem holds for every answer the network could give.
    - Screener.v: the scan loop (148-167) with explicit state: the result
      list and the trace of effects (status line, each fetch, each
      progress value, the final clears) in program order, and its
      specification [expected_row], [pair_events].
    - Stats.v: the statistics loop (193-207); a [TypeError] is [None].
    - AvData.v: JSON values and [response.json()] ([json_load], objects
      become dicts), Python truthiness and [or], [dict.get], and
      [pd.to_datetime] as pandas 2 runs it: the format guessed from the
      first index string, every string parsed exactly in it; [strftime]
      prints a timestamp back.
    - AlphaVantage.v: [get_data_alphavantage] (app.py 7-99): the secrets
      and [requests.get] are the class [AlphaVantageEnv]; the [try] body
      runs in the error monad [exc]; the result is the frame (or [None])
      and the list of effects (the request, each [st.error]/[st.warning]).
    - Render.v: the HTML table (apprsi.py 172-190), built by appending
      as the code does, with [str.strip] on byte strings and the label
      fallbacks; Python's [str] of a float is a section variable.
    - Stylesheet.v: the [<style>] literal of lines 18-96 byte for byte
      ([css_text]), a reader of its CSS rules, a reader of the class
      attributes of HTML ([html_classes]) and the laws by which the
      classes of a concatenation compose ([classes_law]).
    - ScanMachine.v: the same scan loop as a transition system, one
      statement group per step ([step], executable as [step_fn]), with
      the invariant [scan_inv] stated against the specification.
    - Page.v: the whole module-level script (lines 10-216) as a writer of
      UI effects with uncaught exceptions ([script], [bind]): it composes
      the scan, the table and the statistics, with the texts of the
      header, legend, headings, success message, guide and footer.

    ** What is proved (claim ids C1-C29 name the theorems)

    - The RSI (RsiEngine.v): [calculate_rsi] refines [rsi_spec] on every
      input (C2); its values lie in [[0, 100]] (C1); it is NaN exactly on
      a missing frame, a period below 1, or at most [period] rows (C3);
      it is 100, 0 and 50 on increasing, decreasing and flat prices
      (C4-C6).
    - The scan (Screener.v, Classify.v, YahooProvider.v, Stats.v,
      PyNum.v): the grid and the effect trace of a scan against their
      specification (C7, C8); the classes partition the values with
      inclusive thresholds (C9); a cell is NaN exactly when its own fetch
      failed (C10); [fetch_forex_data] (C11); the progress bar strictly
      increases to 1 (C13); the statistics count the coloured cells and
      never raise on a scan's grid (C14, C15); printing and re-reading an
      RSI loses at most 1/200 (C16).
    - AlphaVantage (AlphaVantage.v): a returned frame has 60 to 200 rows
      in ascending order (C17), the newest ones (C18), with valid and
      strictly increasing timestamps although nothing de-duplicates
      (C19); the choice of warning (C20); one request per call with a
      key, and exactly one message per failure (C21).
    - The table (Render.v): the HTML of a scan shows each pair's RSI in
      its column with its class and two-decimal text (C22); rendering
      raises exactly when a string sits in a timeframe column (C23); row
      labels are never empty or padded (C24).
    - The loop as a machine (ScanMachine.v): every maximal run ends in the
      specified grid and effects (C25); at every step the rows so far and
      the open row are those the specification gives (C26, by rule
      induction on the steps); every cell is eventually fetched (C27).
    - The page (Page.v, Stylesheet.v): for every network answer the
      script runs to its end and shows exactly the expected effects
      (C28); the table comes after the last scan effect (C29); every
      class the shown HTML uses, the computed cells' included, has a rule
      in the stylesheet (C12).

    ** Bounds and fuel

    No definition needs fuel: every loop of the code runs over a finite
    list (bars, pairs, timeframes, JSON fields) and is a structural
    [Fixpoint] or [fold_left]; the sort is Stdlib's [Mergesort].  Python
    integers are unbounded and are [Z] or [nat]; counts of rows are
    [nat].  Floats are exact rationals: the theorems state the exact
    semantics of the arithmetic and say nothing about rounding of binary
    floating point (the one place rounding is visible, [f"{v:.2f}"], is
    modelled exactly on the rational value).

    ** Not modelled

    The clock value of [datetime.now()] (an argument of [run_page]: it
    is input, not logic); Streamlit's and the browser's rendering of the
    markdown, HTML and metrics (the CSS is read only for which classes
    its rules name); the rate limit of app.py,
    which exists only as a comment (lines 101-108), so there is no code
    to model.  [pd.to_numeric] is modelled with the grammar of pandas'
    [xstrtod] (white space, sign, digits, decimal point, exponent, white
    space) and the length-0 test of [maybe_convert_numeric] (an empty
    string, list or dict is NaN); pandas also reads the strings ["inf"]
    and ["nan"], which have no rational to stand for them and raise in
    the model, and raises on a number beyond the double range, which the
    model reads as its exact rational.  [pd.to_datetime] is modelled as
    pandas 2 (from 2.0) runs it, for the two index formats AlphaVantage
    sends; pandas 1 parsed each string on its own, and both read other
    formats through dateutil, which raise in the model.  From
    [pd.DataFrame.from_dict] the model keeps the dict-of-dicts case
    (a key with an empty dict gives no row, an empty series an empty
    frame); a series whose first value is not a dict, which pandas
    turns into a frame without the four columns, raises at once in the
    model where pandas raises a [KeyError] at [df['Open']], except when
    every such value is empty (pandas then reports an empty series).
    [sort_index] is a stable merge sort where pandas sorts without a
    stability guarantee; the rows of a returned frame have distinct
    timestamps (C19), so the order is the same. *)

From Stdlib Require Import String Arith QArith Lqa Lia List Bool Morphisms Setoid Sorted Permutation.
Import ListNotations.

(** ** Python floats

    A Python (or numpy) float is modelled as an exact rational, and NaN as
    the absence of a value: [pyfloat := option Q].  Rounding is not
    modelled; every theorem is about the exact-arithmetic semantics of the
    code. *)

Declare Scope py_scope.
Delimit Scope py_scope with py.

Abbreviation pyfloat := (option Q).
Abbreviation NaN := (@None Q).

(** [x < y] on floats, as a boolean (Stdlib only has [Qle_bool] and
    [Qeq_bool]). *)
Definition Qltb (x y : Q) : bool := negb (Qle_bool y x).

Notation "x <? y" := (Qltb x y) (at level 70, no associativity) : py_scope.
Notation "x <=? y" := (Qle_bool x y) (at level 70, no associativity) : py_scope.
Notation "x ==? y" := (Qeq_bool x y) (at level 70, no associativity) : py_scope.

#[local] Open Scope Q_scope.

Lemma Qltb_iff (x y : Q) : Qltb x y = true <-> x < y.
Proof.
  unfold Qltb. rewrite negb_true_iff. split; intros H.
  - apply Qnot_le_lt. intros Hle. apply Qle_bool_iff in Hle. congruence.
  - destruct (Qle_bool y x) eqn:E; [|reflexivity].
    apply Qle_bool_iff in E. lra.
Qed.

Lemma Qltb_false (x y : Q) : Qltb x y = false <-> y <= x.
Proof.
  unfold Qltb. rewrite negb_false_iff. apply Qle_bool_iff.
Qed.

Lemma Qeq_bool_false (x y : Q) : Qeq_bool x y = false <-> ~ x == y.
Proof.
  rewrite <- Qeq_bool_iff. destruct (Qeq_bool x y); split; congruence.
Qed.

(** [qbool] turns every boolean comparison of rationals in the context
    into the proposition it decides. *)
Ltac qbool :=
  repeat match goal with
  | H : Qltb _ _ = true |- _ => apply Qltb_iff in H
  | H : Qltb _ _ = false |- _ => apply Qltb_false in H
  | H : Qle_bool _ _ = true |- _ => apply Qle_bool_iff in H
  | H : Qle_bool _ _ = false |- _ =>
      apply Bool.not_true_iff_false in H; rewrite Qle_bool_iff in H
  | H : Qeq_bool _ _ = true |- _ => apply Qeq_bool_iff in H
  | H : Qeq_bool _ _ = false |- _ => apply Qeq_bool_false in H
  end.

(** [qcase b] splits on a boolean comparison of the goal and reflects it. *)
Ltac qcase b := let E := fresh "E" in destruct b eqn:E; qbool.

#[export] Instance Qltb_proper : Proper (Qeq ==> Qeq ==> eq) Qltb.
Proof. intros x x' Hx y y' Hy. unfold Qltb. now rewrite Hx, Hy. Qed.

#[export] Instance Qeq_bool_proper : Proper (Qeq ==> Qeq ==> eq) Qeq_bool.
Proof.
  intros x x' Hx y y' Hy. destruct (Qeq_bool x' y') eqn:E.
  - apply Qeq_bool_iff. apply Qeq_bool_iff in E. now rewrite Hx, Hy.
  - apply Qeq_bool_false. apply Qeq_bool_false in E. now rewrite Hx, Hy.
Qed.

(** Natural numbers as floats ([float(n)]). *)
Lemma inject_nat_lt (m n : nat) : (m < n)%nat <-> inject_Z (Z.of_nat m) < inject_Z (Z.of_nat n).
Proof. rewrite <- Zlt_Qlt. lia. Qed.

Lemma inject_nat_pos (n : nat) : (0 < n)%nat -> 0 < inject_Z (Z.of_nat n).
Proof. intros H. change 0 with (inject_Z (Z.of_nat 0)). now apply inject_nat_lt. Qed.

(** ** Equality of floats up to the representation of rationals

    Two [Q] values denote the same float when they are [Qeq]; the model's
    results are compared with [pyfloat_eq] (NaN equals only NaN here,
    unlike Python's [==], which is what [pd.isna] tests rely on). *)

Definition pyfloat_eq (a b : pyfloat) : Prop :=
  match a, b with
  | Some x, Some y => x == y
  | None, None => True
  | _, _ => False
  end.

#[export] Instance pyfloat_eq_equiv : Equivalence pyfloat_eq.
Proof.
  split.
  - intros [x|]; simpl; [reflexivity | exact I].
  - intros [x|] [y|]; simpl; auto. intros H; now symmetry.
  - intros [x|] [y|] [z|]; simpl; try tauto. intros H1 H2; now rewrite H1.
Qed.

Lemma pyfloat_eq_NaN_r (a : pyfloat) : pyfloat_eq a NaN -> a = NaN.
Proof. destruct a; simpl; tauto. Qed.

Create HintDb pyq.
Create Rewrite HintDb pyrw.

(** ** Python list helpers *)

(** [s.iloc[-1]]: the last element, [None] (an [IndexError]) on an empty
    sequence. *)
Definition iloc_last {A} (l : list A) : option A :=
  match rev l with [] => None | x :: _ => Some x end.

(** [df.tail(n)]: the last [n] rows (all of them when there are fewer). *)
Definition tail_n {A} (n : nat) (l : list A) : list A :=
  skipn (length l - n) l.

Lemma iloc_last_snoc {A} (l : list A) (x : A) : iloc_last (l ++ [x]) = Some x.
Proof. unfold iloc_last. now rewrite rev_app_distr. Qed.

Lemma iloc_last_cons2 {A} (x y : A) (l : list A) :
  iloc_last (x :: y :: l) = iloc_last (y :: l).
Proof.
  unfold iloc_last. simpl. now destruct (rev l).
Qed.

Lemma iloc_last_cons {A} (x : A) (l : list A) :
  iloc_last (x :: l) = match l with [] => Some x | _ => iloc_last l end.
Proof. destruct l; [reflexivity | apply iloc_last_cons2]. Qed.

(** A relation lifted to options: both absent, or both present and related. *)
Definition opt_rel {A B} (R : A -> B -> Prop) (o1 : option A) (o2 : option B) : Prop :=
  match o1, o2 with
  | Some a, Some b => R a b
  | None, None => True
  | _, _ => False
  end.

Lemma Forall2_iloc_last {A B} (R : A -> B -> Prop) l1 l2 :
  Forall2 R l1 l2 -> opt_rel R (iloc_last l1) (iloc_last l2).
Proof.
  induction 1 as [|a b l1 l2 Hab H IH]; [exact I|].
  rewrite !iloc_last_cons. destruct H; [exact Hab | exact IH].
Qed.

Lemma length_tail_n {A} (n : nat) (l : list A) :
  length (tail_n n l) = Nat.min n (length l).
Proof. unfold tail_n. rewrite length_skipn. lia. Qed.

Lemma tail_n_suffix {A} (n : nat) (l : list A) :
  exists pre, l = pre ++ tail_n n l /\ length pre = (length l - n)%nat.
Proof.
  exists (firstn (length l - n) l). split.
  - unfold tail_n. now rewrite firstn_skipn.
  - rewrite length_firstn. lia.
Qed.

#[export] Hint Rewrite @iloc_last_snoc @length_tail_n : pyrw.

(** ** Distinct elements *)

Lemma NoDup_map_filter {A B} (g : A -> B) (f : A -> bool) (l : list A) :
  NoDup (map g l) -> NoDup (map g (filter f l)).
Proof.
  induction l as [|a r IH]; intros Hnd; cbn in *; [constructor|]. inversion Hnd as [|? ? Hn Hnd']; subst.
  destruct (f a); cbn; [constructor|]; auto.
  intros Hin. apply Hn. apply in_map_iff in Hin as (x & <- & Hx). apply filter_In in Hx as [Hx _].
  now apply in_map.
Qed.

Lemma Forall2_In_r {A B} (R : A -> B -> Prop) (l1 : list A) (l2 : list B) (y : B) :
  Forall2 R l1 l2 -> In y l2 -> exists x, In x l1 /\ R x y.
Proof.
  induction 1 as [|x y' l1 l2 Hxy _ IH]; [contradiction|]. intros [<-|Hy]; [now exists x; split; [left|]|].
  destruct (IH Hy) as (x' & Hx' & Hr). now exists x'; split; [right|].
Qed.

(** Distinct keys carry over a relation that determines them back. *)
Lemma Forall2_NoDup_map {A B C D} (R : A -> B -> Prop) (f : A -> C) (g : B -> D) (l1 : list A) (l2 : list B) :
  (forall x1 x2 y1 y2, R x1 y1 -> R x2 y2 -> g y1 = g y2 -> f x1 = f x2) ->
  Forall2 R l1 l2 -> NoDup (map f l1) -> NoDup (map g l2).
Proof.
  intros Hinj. induction 1 as [|x y l1 l2 Hxy Hr IH]; cbn; intros Hnd; [constructor|].
  inversion Hnd as [|? ? Hn Hnd']; subst. constructor; [|auto].
  intros Hin. apply in_map_iff in Hin as (y' & Hg & Hy'). destruct (Forall2_In_r _ _ _ _ Hr Hy') as (x' & Hx' & Hr').
  apply Hn. rewrite (Hinj x x' y y' Hxy Hr' (eq_sym Hg)). now apply in_map.
Qed.

(** ** Sorted lists *)

Section Sorting.
Context {A : Type}.

Lemma StronglySorted_impl (R S : A -> A -> Prop) (l : list A) :
  (forall x y, R x y -> S x y) -> StronglySorted R l -> StronglySorted S l.
Proof.
  intros H. induction 1; constructor; [assumption|].
  eapply Forall_impl; [|eassumption]. auto.
Qed.

Lemma StronglySorted_app_l (R : A -> A -> Prop) (l1 l2 : list A) :
  StronglySorted R (l1 ++ l2) -> forall x y, In x l1 -> In y l2 -> R x y.
Proof.
  induction l1 as [|a r IH]; simpl; [tauto|]. intros Hs x y [<-|Hx] Hy.
  - apply StronglySorted_inv in Hs as [_ Hf]. rewrite Forall_forall in Hf. apply Hf, in_or_app. auto.
  - apply StronglySorted_inv in Hs as [Hs _]. eauto.
Qed.

Lemma StronglySorted_app_r (R : A -> A -> Prop) (l1 l2 : list A) :
  StronglySorted R (l1 ++ l2) -> StronglySorted R l2.
Proof. induction l1; simpl; [auto|]. intros Hs. apply StronglySorted_inv in Hs as [Hs _]. auto. Qed.

(** A sorted list whose keys are distinct is sorted strictly. *)
Lemma StronglySorted_strict (key : A -> Z) (l : list A) :
  StronglySorted (fun x y => (key x <= key y)%Z) l -> NoDup (map key l) ->
  StronglySorted (fun x y => (key x < key y)%Z) l.
Proof.
  induction 1 as [|a l Hs IH Hf]; intros Hnd; constructor; inversion Hnd as [|? ? Hn Hnd']; subst; auto.
  rewrite Forall_forall in Hf |- *. intros y Hy. specialize (Hf y Hy).
  assert (key a <> key y) by (intros E; apply Hn; rewrite E; now apply in_map). lia.
Qed.
End Sorting.

(** ** Strings *)

Lemma existsb_eqb_In (c : string) (l : list string) : existsb (String.eqb c) l = true -> In c l.
Proof. rewrite existsb_exists. intros (x & Hin & E). apply String.eqb_eq in E. now subst. Qed.

Lemma string_app_assoc (a b c : string) : ((a ++ b) ++ c)%string = (a ++ (b ++ c))%string.
Proof. induction a as [|x r IH]; simpl; congruence. Qed.

Lemma string_app_nil_r (a : string) : (a ++ "")%string = a.
Proof. induction a as [|x r IH]; simpl; congruence. Qed.

(** ** Python dicts

    A Python [dict] keeps its keys in insertion order: [d[k] = v] replaces
    the value in place when [k] is present and appends the pair otherwise.
    It is modelled as an association list with that update. *)

Section PyDict.
Context {V : Type}.

Definition pydict := list (string * V).

Fixpoint dict_get (k : string) (d : pydict) : option V :=
  match d with
  | [] => None
  | (k', v) :: r => if String.eqb k k' then Some v else dict_get k r
  end.

Fixpoint dict_set (k : string) (v : V) (d : pydict) : pydict :=
  match d with
  | [] => [(k, v)]
  | (k', v') :: r =>
      if String.eqb k k' then (k, v) :: r else (k', v') :: dict_set k v r
  end.

Lemma dict_get_set_eq k v d : dict_get k (dict_set k v d) = Some v.
Proof.
  induction d as [|[k' v'] r IH]; simpl.
  - now rewrite String.eqb_refl.
  - destruct (String.eqb k k') eqn:E; simpl; rewrite ?String.eqb_refl, ?E; auto.
Qed.

Lemma dict_get_set_ne k k' v d :
  k <> k' -> dict_get k' (dict_set k v d) = dict_get k' d.
Proof.
  intros Hne. induction d as [|[k0 v0] r IH]; simpl.
  - apply String.eqb_neq in Hne. rewrite String.eqb_sym, Hne. reflexivity.
  - destruct (String.eqb k k0) eqn:E; simpl.
    + apply String.eqb_eq in E; subst k0.
      apply String.eqb_neq in Hne. now rewrite String.eqb_sym, Hne.
    + now rewrite IH.
Qed.

(** Setting a fresh key appends it: the key order is insertion order. *)
Lemma dict_set_fresh k v d :
  dict_get k d = None -> dict_set k v d = d ++ [(k, v)].
Proof.
  induction d as [|[k' v'] r IH]; simpl; intros H; [reflexivity|].
  destruct (String.eqb k k'); [discriminate|]. now rewrite IH.
Qed.

Lemma dict_get_None_iff k d : dict_get k d = None <-> ~ In k (map fst d).
Proof.
  induction d as [|[k' v'] r IH]; simpl; [tauto|].
  destruct (String.eqb k k') eqn:E.
  - apply String.eqb_eq in E. subst. split; [discriminate|tauto].
  - apply String.eqb_neq in E. rewrite IH. split; [intros H [->|Hin]; tauto|tauto].
Qed.

Lemma dict_get_In_NoDup k v d : NoDup (map fst d) -> In (k, v) d -> dict_get k d = Some v.
Proof.
  induction d as [|[k' v'] r IH]; simpl; [tauto|]. intros Hnd Hin.
  apply NoDup_cons_iff in Hnd as [Hk' Hnd]. destruct Hin as [[= -> ->]|Hin].
  - now rewrite String.eqb_refl.
  - assert (k <> k') by (intros ->; apply Hk', (in_map fst _ _ Hin)).
    apply String.eqb_neq in H. rewrite H. auto.
Qed.

Lemma dict_keys_set_present k v d :
  dict_get k d <> None -> map fst (dict_set k v d) = map fst d.
Proof.
  induction d as [|[k' v'] r IH]; simpl; intros H; [congruence|].
  destruct (String.eqb k k') eqn:E; simpl.
  - apply String.eqb_eq in E. now subst.
  - f_equal. now apply IH.
Qed.

(** Assignment keeps the keys distinct. *)
Lemma dict_set_NoDup k v d : NoDup (map fst d) -> NoDup (map fst (dict_set k v d)).
Proof.
  intros Hnd. destruct (dict_get k d) as [v'|] eqn:E.
  - rewrite dict_keys_set_present by congruence. exact Hnd.
  - rewrite dict_set_fresh, map_app by exact E. cbn. apply NoDup_app; auto using NoDup_cons, NoDup_nil.
    intros x Hx [<-|[]]. now apply dict_get_None_iff in E.
Qed.

(** [dict(pairs)]: the pairs assigned in order. *)
Definition dict_of_pairs (kvs : list (string * V)) : pydict :=
  fold_left (fun d kv => dict_set (fst kv) (snd kv) d) kvs [].

Lemma dict_of_pairs_NoDup kvs : NoDup (map fst (dict_of_pairs kvs)).
Proof.
  unfold dict_of_pairs. cut (forall d : pydict, NoDup (map fst d) ->
    NoDup (map fst (fold_left (fun d kv => dict_set (fst kv) (snd kv) d) kvs d))).
  { intros H. apply H, NoDup_nil. }
  induction kvs as [|kv r IH]; intros d Hd; cbn [fold_left]; [exact Hd|apply IH, dict_set_NoDup, Hd].
Qed.
(** A value read from [dict(pairs)] is one of the pairs. *)
Lemma dict_of_pairs_get k v kvs : dict_get k (dict_of_pairs kvs) = Some v -> In (k, v) kvs.
Proof.
  unfold dict_of_pairs.
  cut (forall d : pydict, dict_get k (fold_left (fun d kv => dict_set (fst kv) (snd kv) d) kvs d) = Some v ->
         dict_get k d = Some v \/ In (k, v) kvs).
  { intros H Hg. destruct (H [] Hg) as [Hd|Hin]; [discriminate Hd|exact Hin]. }
  induction kvs as [|[k' v'] r IH]; intros d Hg; cbn [fold_left fst snd] in Hg; [now left|].
  destruct (IH _ Hg) as [Hs|Hin]; [|right; now right].
  destruct (String.eqb_spec k' k) as [->|Hne].
  - rewrite dict_get_set_eq in Hs. injection Hs as ->. right. now left.
  - rewrite dict_get_set_ne in Hs by exact Hne. now left.
Qed.
End PyDict.

Arguments pydict : clear implicits.

#[export] Hint Rewrite @dict_get_set_eq : pyrw.

(** ** Transition sequences

    Zero or more steps of a transition relation, exactly [n] steps, and
    states with no successor; for a deterministic relation a final state
    reached from a state is unique. *)

Section Sequences.
Context {A : Type} (R : A -> A -> Prop).

Inductive star : A -> A -> Prop :=
| star_refl a : star a a
| star_step a b c : R a b -> star b c -> star a c.

Inductive nsteps : nat -> A -> A -> Prop :=
| nsteps_O a : nsteps 0 a a
| nsteps_S n a b c : R a b -> nsteps n b c -> nsteps (S n) a c.

Definition irred (a : A) : Prop := forall b, ~ R a b.

Lemma star_trans a b c : star a b -> star b c -> star a c.
Proof. induction 1; eauto using star. Qed.

Lemma star_one a b : R a b -> star a b.
Proof. eauto using star. Qed.

Lemma nsteps_star n a b : nsteps n a b -> star a b.
Proof. induction 1; eauto using star. Qed.

Hypothesis R_functional : forall a b c, R a b -> R a c -> b = c.

Lemma star_star_inv a b : star a b -> forall c, star a c -> star b c \/ star c b.
Proof.
  induction 1 as [a|a b1 b R1 S1 IH]; intros c Hc; [auto|].
  inversion Hc as [|a' b2 c' R2 S2]; subst; [right; eauto using star|].
  rewrite (R_functional _ _ _ R1 R2) in IH. auto.
Qed.

Lemma finseq_unique a b b' : star a b -> irred b -> star a b' -> irred b' -> b = b'.
Proof.
  intros S1 I1 S2 I2. destruct (star_star_inv _ _ S1 _ S2) as [H|H];
    inversion H; subst; auto; [elim (I1 _ H0)|elim (I2 _ H0)].
Qed.

End Sequences.

#[export] Hint Constructors star nsteps : core.
