(* ===== verification/Pandas.v ===== *)
(** * Pandas.v: the pandas operations the screener's code calls

    The series operations of [calculate_rsi] (src/apprsi.py, lines 101-109):
    OHLC rows, elementwise float arithmetic with NaN propagation,
    [Series.diff], [Series.where], [Series.dropna] and [Series.ewm(span,
    adjust=False, min_periods).mean()].  ([DataFrame.tail] is [tail_n] of
    Prelude.v; the frame building of the AlphaVantage path is in
    AlphaVantage.v.)

    [ewm_mean] transcribes the loop pandas runs for an exponentially
    weighted mean with [adjust=False] and [ignore_na=False] (the
    [ewm] kernel of pandas/_libs/window/aggregations.pyx), NaN handling
    included; [ewm_run_eq_ref] shows that on a series without NaN it is
    the textbook recurrence [y0 = x0], [y(t+1) = (1-a) y(t) + a x(t+1)],
    the form in which RsiEngine.v states the specification of the RSI. *)

From Stdlib Require Import String Arith QArith Lqa Lia List Bool Morphisms Setoid.
From S2P Require Import Prelude.
Import ListNotations.
#[local] Open Scope Q_scope.

(** ** Data *)

(** One row of an OHLC frame: the four price columns the code reads. *)
Record bar := mkBar { Open : pyfloat; High : pyfloat; Low : pyfloat; Close : pyfloat }.

Definition frame := list bar.
Definition series := list pyfloat.

(** ** Elementwise float arithmetic (NaN propagates) *)

Definition fadd (a b : pyfloat) : pyfloat :=
  match a, b with Some x, Some y => Some (x + y) | _, _ => NaN end.

Definition fsub (a b : pyfloat) : pyfloat :=
  match a, b with Some x, Some y => Some (x - y) | _, _ => NaN end.

Definition fdiv_const (a : pyfloat) (c : Q) : pyfloat := option_map (fun x => x / c) a.

Definition fneg (a : pyfloat) : pyfloat := option_map Qopp a.

(** [(prices['Open'] + prices['High'] + prices['Low'] + prices['Close']) / 4],
    one row at a time; Python's [+] associates to the left. *)
Definition ohlc4_of (b : bar) : pyfloat :=
  fdiv_const (fadd (fadd (fadd (Open b) (High b)) (Low b)) (Close b)) 4.

Definition ohlc4 (p : frame) : series := map ohlc4_of p.

(** [s.diff()]: NaN first, then [s[i] - s[i-1]]. *)
Fixpoint diff_from (prev : pyfloat) (s : series) : series :=
  match s with
  | [] => []
  | x :: r => fsub x prev :: diff_from x r
  end.

Definition diff (s : series) : series :=
  match s with
  | [] => []
  | x :: r => NaN :: diff_from x r
  end.

(** [s.where(cond, other)]: keep [s[i]] where the condition holds,
    [other] elsewhere; a comparison with NaN is false, so NaN becomes
    [other]. *)
Definition series_where (cond : Q -> bool) (other : Q) (s : series) : series :=
  map (fun v => match v with
                | Some x => if cond x then Some x else Some other
                | None => Some other
                end) s.

Definition series_neg (s : series) : series := map fneg s.

(** [s.dropna()] *)
Fixpoint dropna (s : series) : list Q :=
  match s with
  | [] => []
  | Some x :: r => x :: dropna r
  | None :: r => dropna r
  end.

(** ** [Series.ewm(span=..., adjust=False, min_periods=...).mean()]

    The running state of the pandas kernel: the current weighted mean
    ([weighted], NaN before the first observation), the weight [old_wt]
    of the past, and the number [nobs] of observations seen. *)
Record ewm_acc := mkEwm { weighted : pyfloat; old_wt : Q; nobs : nat }.

(** One iteration of the kernel's loop with [new_wt = alpha],
    [old_wt_factor = 1 - alpha], [adjust=False] (the past weight is reset
    to 1 after each observation) and [ignore_na=False] (a NaN still decays
    the past weight). *)
Definition ewm_update (alpha : Q) (a : ewm_acc) (cur : pyfloat) : ewm_acc :=
  let nobs' := (nobs a + match cur with Some _ => 1 | None => 0 end)%nat in
  match weighted a, cur with
  | Some w, Some c =>
      let ow := old_wt a * (1 - alpha) in
      let w' := if negb (Qeq_bool w c) then (ow * w + alpha * c) / (ow + alpha) else w in
      mkEwm (Some w') 1 nobs'
  | Some w, None => mkEwm (Some w) (old_wt a * (1 - alpha)) nobs'
  | None, Some c => mkEwm (Some c) (old_wt a) nobs'
  | None, None => mkEwm NaN (old_wt a) nobs'
  end.

(** [output[i] = weighted if nobs >= minp else NaN] *)
Definition ewm_out (minp : nat) (a : ewm_acc) : pyfloat :=
  if Nat.leb minp (nobs a) then weighted a else NaN.

Fixpoint ewm_go (alpha : Q) (minp : nat) (a : ewm_acc) (s : series) : series :=
  match s with
  | [] => []
  | cur :: r => let a' := ewm_update alpha a cur in ewm_out minp a' :: ewm_go alpha minp a' r
  end.

Definition ewm_run (alpha : Q) (minp : nat) (s : series) : series :=
  match s with
  | [] => []
  | x0 :: r =>
      let a0 := mkEwm x0 1 (match x0 with Some _ => 1 | None => 0 end) in
      ewm_out minp a0 :: ewm_go alpha minp a0 r
  end.

(** The span convention: [com = (span - 1) / 2], [alpha = 1 / (1 + com)]. *)
Definition ewm_com (span : Z) : Q := (inject_Z span - 1) / 2.
Definition ewm_alpha (span : Z) : Q := 1 / (1 + ewm_com span).

(** [None] is the [ValueError] pandas raises for [span < 1];
    [min_periods] is raised to at least 1. *)
Definition ewm_mean (span min_periods : Z) (s : series) : option series :=
  if (span <? 1)%Z then None
  else Some (ewm_run (ewm_alpha span) (Z.to_nat (Z.max min_periods 1)) s).

(** ** The reference recurrence *)

Definition ewm_rec (alpha : Q) (y x : Q) : Q := (1 - alpha) * y + alpha * x.

(** Textbook exponential smoothing seeded with the first value. *)
Definition ewm_ref (alpha : Q) (x0 : Q) (xs : list Q) : Q :=
  fold_left (ewm_rec alpha) xs x0.

(** Its running outputs, gated by [minp] as pandas gates them. *)
Fixpoint ewm_ref_go (alpha : Q) (minp n : nat) (y : Q) (xs : list Q) : series :=
  match xs with
  | [] => []
  | x :: r =>
      let y' := ewm_rec alpha y x in
      (if Nat.leb minp (S n) then Some y' else NaN) :: ewm_ref_go alpha minp (S n) y' r
  end.

Definition ewm_ref_run (alpha : Q) (minp : nat) (x0 : Q) (xs : list Q) : series :=
  (if Nat.leb minp 1 then Some x0 else NaN) :: ewm_ref_go alpha minp 1 x0 xs.

(** ** Lemmas *)

Lemma length_diff (s : series) : length (diff s) = length s.
Proof.
  destruct s as [|x r]; simpl; [reflexivity|]. f_equal.
  revert x; induction r as [|y r IH]; intros x; simpl; auto.
Qed.

Lemma length_ewm_go alpha minp a s : length (ewm_go alpha minp a s) = length s.
Proof. revert a; induction s; simpl; auto. Qed.

Lemma length_dropna_map_some (l : list Q) : dropna (map Some l) = l.
Proof. induction l; simpl; congruence. Qed.

Lemma alpha_span (span : Z) : (1 <= span)%Z -> ewm_alpha span == 2 / (inject_Z span + 1).
Proof.
  intros H. unfold ewm_alpha, ewm_com. assert (1 <= inject_Z span) by (change 1 with (inject_Z 1); now rewrite <- Zle_Qle).
  field. lra.
Qed.

Lemma alpha_bounds (span : Z) : (1 <= span)%Z -> 0 < ewm_alpha span /\ ewm_alpha span <= 1.
Proof.
  intros H. rewrite alpha_span by exact H.
  assert (1 <= inject_Z span) by (change 1 with (inject_Z 1); now rewrite <- Zle_Qle).
  split.
  - apply Qlt_shift_div_l; lra.
  - apply Qle_shift_div_r; lra.
Qed.

#[export] Instance ewm_rec_proper alpha : Proper (Qeq ==> Qeq ==> Qeq) (ewm_rec alpha).
Proof. intros y y' Hy x x' Hx. unfold ewm_rec. now rewrite Hy, Hx. Qed.

(** The kernel's update on an observation, with the past weight reset to
    1, is one step of the recurrence. *)
Lemma ewm_update_obs alpha w c n :
  exists w', ewm_update alpha (mkEwm (Some w) 1 n) (Some c) = mkEwm (Some w') 1 (S n)
             /\ w' == ewm_rec alpha w c.
Proof.
  eexists. split.
  - unfold ewm_update. simpl. replace (n + 1)%nat with (S n) by lia. reflexivity.
  - unfold ewm_rec. qcase (Qeq_bool w c); simpl.
    + rewrite <- E. ring.
    + field_simplify (1 * (1 - alpha) + alpha). field.
Qed.

Lemma ewm_go_nan_free alpha minp n w y xs :
  w == y ->
  Forall2 pyfloat_eq (ewm_go alpha minp (mkEwm (Some w) 1 n) (map Some xs))
                     (ewm_ref_go alpha minp n y xs).
Proof.
  revert n w y. induction xs as [|x r IH]; intros n w y Hwy; simpl; constructor.
  all: destruct (ewm_update_obs alpha w x n) as (w' & -> & Hw').
  - unfold ewm_out. simpl. destruct (Nat.leb minp (S n)); simpl; [|exact I].
    now rewrite Hw', Hwy.
  - apply IH. now rewrite Hw', Hwy.
Qed.

Lemma ewm_run_eq_ref alpha minp x0 xs :
  Forall2 pyfloat_eq (ewm_run alpha minp (map Some (x0 :: xs))) (ewm_ref_run alpha minp x0 xs).
Proof.
  simpl. constructor.
  - unfold ewm_out. simpl. now destruct (Nat.leb minp 1).
  - now apply ewm_go_nan_free.
Qed.

Lemma ewm_ref_go_last alpha minp n y xs :
  iloc_last ((if Nat.leb minp n then Some y else NaN) :: ewm_ref_go alpha minp n y xs)
  = Some (if Nat.leb minp (n + length xs) then Some (ewm_ref alpha y xs) else NaN).
Proof.
  revert n y. induction xs as [|x r IH]; intros n y.
  - simpl. now rewrite Nat.add_0_r.
  - simpl ewm_ref_go. rewrite iloc_last_cons2, IH. simpl length.
    now replace (S n + length r)%nat with (n + S (length r))%nat by lia.
Qed.

(** The last output of the pandas kernel on a series without NaN, once
    [min_periods] observations have been seen, is the recurrence's value. *)
Lemma ewm_run_last_nan_free alpha minp x0 xs :
  (minp <= S (length xs))%nat ->
  opt_rel pyfloat_eq (iloc_last (ewm_run alpha minp (map Some (x0 :: xs))))
                     (Some (Some (ewm_ref alpha x0 xs))).
Proof.
  intros H. pose proof (Forall2_iloc_last _ _ _ (ewm_run_eq_ref alpha minp x0 xs)) as R.
  unfold ewm_ref_run in R. rewrite ewm_ref_go_last in R.
  replace (Nat.leb minp (1 + length xs)) with true in R by (symmetry; apply Nat.leb_le; lia).
  exact R.
Qed.
