(* ===== verification/RsiEngine.v ===== *)
(** * RsiEngine.v: [calculate_rsi] (src/apprsi.py, lines 98-115)

    [calculate_rsi] is transcribed statement by statement over the pandas
    model of Pandas.v: the length gate, OHLC4, [diff], the two [where]s,
    the [dropna] gate, the two [ewm] means, the emptiness and NaN checks,
    the degenerate [avg_loss == 0] rule and [100 - 100 / (1 + rs)].  The
    [try]/[except Exception] wrapper returns NaN; the only exception the
    model can raise is pandas' [ValueError] for [span < 1].

    [rsi_spec] is the abstract specification: the RSI is
    [100 G / (G + L)] over the exponentially smoothed gains [G] and losses
    [L] of the OHLC4 deltas (50 when both are zero, 100 when only the gain
    is), NaN when the period is below 1 or the frame has at most [period]
    rows.  [calculate_rsi_refines] proves that the code computes it. *)

From Stdlib Require Import String Arith QArith Lqa Lia List Bool Morphisms Setoid Sorted.
From S2P Require Import Prelude Pandas.
Import ListNotations.
#[local] Open Scope Q_scope.

(** ** The code *)

Definition is_empty {A} (l : list A) : bool := match l with [] => true | _ => false end.

Definition calculate_rsi (prices : option frame) (period : Z) : pyfloat :=
  match prices with
  | None => NaN
  | Some p =>
      if (Z.of_nat (length p) <? period + 1)%Z then NaN else
      let ohlc := ohlc4 p in
      let delta := diff ohlc in
      let gains := series_where (fun d => Qltb 0 d) 0 delta in
      let losses := series_neg (series_where (fun d => Qltb d 0) 0 delta) in
      if ((Z.of_nat (length (dropna gains)) <? period)%Z
          || (Z.of_nat (length (dropna losses)) <? period)%Z)%bool then NaN else
      match ewm_mean period period gains with
      | None => NaN
      | Some avg_gains =>
          match ewm_mean period period losses with
          | None => NaN
          | Some avg_losses =>
              if (is_empty avg_losses || is_empty avg_gains)%bool then NaN else
              match iloc_last avg_losses, iloc_last avg_gains with
              | Some (Some last_avg_loss), Some (Some last_avg_gain) =>
                  if Qeq_bool last_avg_loss 0
                  then Some (if Qltb 0 last_avg_gain then 100 else 50)
                  else let rs := last_avg_gain / last_avg_loss in
                       Some (100 - 100 / (1 + rs))
              | _, _ => NaN
              end
          end
      end
  end.

(** ** The abstract specification *)

(** The gain and the loss the two [where]s give a delta. *)
Definition gain_of (d : pyfloat) : Q :=
  match d with Some x => if Qltb 0 x then x else 0 | None => 0 end.

Definition loss_of (d : pyfloat) : Q :=
  match d with Some x => - (if Qltb x 0 then x else 0) | None => - 0 end.

(** Exponential smoothing of a whole list, seeded with its first element. *)
Definition smoothed (period : Z) (xs : list Q) : Q :=
  match xs with [] => 0 | x0 :: r => ewm_ref (ewm_alpha period) x0 r end.

Definition rsi_of_averages (g l : Q) : Q :=
  if Qeq_bool l 0 then (if Qltb 0 g then 100 else 50) else 100 * g / (g + l).

Definition rsi_spec (prices : option frame) (period : Z) : pyfloat :=
  match prices with
  | None => NaN
  | Some p =>
      if ((period <? 1)%Z || (Z.of_nat (length p) <? period + 1)%Z)%bool then NaN
      else let d := diff (ohlc4 p) in
           Some (rsi_of_averages (smoothed period (map gain_of d)) (smoothed period (map loss_of d)))
  end.

(** ** Lemmas on the series *)

Lemma gains_nan_free (s : series) :
  series_where (fun d => Qltb 0 d) 0 s = map Some (map gain_of s).
Proof. induction s as [|[x|] r IH]; simpl; rewrite ?IH; [reflexivity| |reflexivity]. now destruct (Qltb 0 x). Qed.

Lemma losses_nan_free (s : series) :
  series_neg (series_where (fun d => Qltb d 0) 0 s) = map Some (map loss_of s).
Proof. induction s as [|[x|] r IH]; simpl; rewrite ?IH; [reflexivity| |reflexivity]. now destruct (Qltb x 0). Qed.

Lemma gain_of_nonneg d : 0 <= gain_of d.
Proof. destruct d as [x|]; simpl; [qcase (Qltb 0 x)|]; lra. Qed.

Lemma loss_of_nonneg d : 0 <= loss_of d.
Proof. destruct d as [x|]; simpl; [qcase (Qltb x 0)|]; lra. Qed.

#[export] Hint Resolve gain_of_nonneg loss_of_nonneg : pyq.

Lemma ewm_rec_nonneg alpha y x :
  0 <= alpha <= 1 -> 0 <= y -> 0 <= x -> 0 <= ewm_rec alpha y x.
Proof.
  intros Ha Hy Hx. unfold ewm_rec.
  assert (0 <= (1 - alpha) * y) by (apply Qmult_le_0_compat; lra).
  assert (0 <= alpha * x) by (apply Qmult_le_0_compat; lra).
  lra.
Qed.

Lemma ewm_ref_nonneg alpha y xs :
  0 <= alpha <= 1 -> 0 <= y -> Forall (Qle 0) xs -> 0 <= ewm_ref alpha y xs.
Proof.
  intros Ha. unfold ewm_ref. revert y.
  induction xs as [|x r IH]; intros y Hy Hxs; simpl; [exact Hy|].
  inversion Hxs; subst. apply IH; [apply ewm_rec_nonneg|]; auto.
Qed.

Lemma smoothed_nonneg period (f : pyfloat -> Q) (s : series) :
  (1 <= period)%Z -> (forall d, 0 <= f d) -> 0 <= smoothed period (map f s).
Proof.
  intros Hp Hf. destruct s as [|d r]; simpl; [lra|].
  pose proof (alpha_bounds period Hp).
  apply ewm_ref_nonneg; [lra|apply Hf|]. apply Forall_forall. intros x Hx.
  apply in_map_iff in Hx as (d' & <- & _). apply Hf.
Qed.

(** [100 - 100 / (1 + g / l)] is [100 g / (g + l)] for [l > 0]. *)
Lemma rsi_formula (g l : Q) : 0 <= g -> 0 < l -> 100 - 100 / (1 + g / l) == 100 * g / (g + l).
Proof. intros Hg Hl. field. split; lra. Qed.

Lemma rsi_of_averages_bounds g l :
  0 <= g -> 0 <= l -> 0 <= rsi_of_averages g l <= 100.
Proof.
  intros Hg Hl. unfold rsi_of_averages. qcase (Qeq_bool l 0); [qcase (Qltb 0 g); lra|].
  assert (0 < g + l) by (apply Qnot_eq_sym in E; pose proof (Qle_lt_or_eq _ _ Hl) as [H|H]; [lra|contradiction]).
  split.
  - apply Qle_shift_div_l; [exact H|]. lra.
  - apply Qle_shift_div_r; [exact H|]. lra.
Qed.

Lemma ewm_mean_last period (xs : list Q) :
  (1 <= period)%Z -> (Z.to_nat period <= length xs)%nat -> xs <> [] ->
  exists avg, ewm_mean period period (map Some xs) = Some avg /\ is_empty avg = false
    /\ opt_rel pyfloat_eq (iloc_last avg) (Some (Some (smoothed period xs))).
Proof.
  intros Hp Hn Hne. unfold ewm_mean.
  replace (period <? 1)%Z with false by (symmetry; apply Z.ltb_ge; lia).
  eexists. split; [reflexivity|].
  destruct xs as [|x0 r]; [contradiction|]. split; [reflexivity|].
  apply ewm_run_last_nan_free. simpl in Hn. lia.
Qed.

(** The last statements of [calculate_rsi], on averages equal to the
    specification's. *)
Lemma rsi_final_step l g L G :
  l == L -> g == G -> 0 <= G -> 0 <= L ->
  pyfloat_eq (if Qeq_bool l 0 then Some (if Qltb 0 g then 100 else 50)
              else Some (100 - 100 / (1 + g / l)))
             (Some (rsi_of_averages G L)).
Proof.
  intros Hl Hg HG HL. unfold rsi_of_averages. rewrite Hl.
  destruct (Qeq_bool L 0) eqn:E; simpl.
  - now rewrite Hg.
  - qbool. rewrite Hl, Hg. apply rsi_formula; [exact HG|].
    apply Qnot_eq_sym in E. destruct (Qle_lt_or_eq _ _ HL); [assumption|contradiction].
Qed.

Lemma length_dropna_gains_losses (p : frame) :
  length (dropna (series_where (fun d => Qltb 0 d) 0 (diff (ohlc4 p)))) = length p
  /\ length (dropna (series_neg (series_where (fun d => Qltb d 0) 0 (diff (ohlc4 p))))) = length p.
Proof.
  rewrite gains_nan_free, losses_nan_free, !length_dropna_map_some, !length_map,
    length_diff. unfold ohlc4. rewrite length_map. auto.
Qed.

(** ** The refinement theorem *)

Lemma calculate_rsi_eq_spec (prices : option frame) (period : Z) :
  pyfloat_eq (calculate_rsi prices period) (rsi_spec prices period).
Proof.
  destruct prices as [p|]; simpl; [|exact I].
  destruct (Z.of_nat (length p) <? period + 1)%Z eqn:Hlen;
    [now rewrite orb_true_r|rewrite orb_false_r; apply Z.ltb_ge in Hlen].
  destruct (length_dropna_gains_losses p) as [-> ->].
  replace (Z.of_nat (length p) <? period)%Z with false by (symmetry; apply Z.ltb_ge; lia).
  simpl orb. rewrite gains_nan_free, losses_nan_free.
  destruct (period <? 1)%Z eqn:Hp; [unfold ewm_mean; now rewrite Hp|apply Z.ltb_ge in Hp].
  assert (Hn : forall f : pyfloat -> Q, (Z.to_nat period <= length (map f (diff (ohlc4 p))))%nat)
    by (intros f; rewrite length_map, length_diff; unfold ohlc4; rewrite length_map; lia).
  assert (Hne : forall f : pyfloat -> Q, map f (diff (ohlc4 p)) <> [])
    by (intros f Hnil; apply (f_equal (@length Q)) in Hnil;
        rewrite length_map, length_diff in Hnil; unfold ohlc4 in Hnil; rewrite length_map in Hnil;
        simpl in Hnil; lia).
  destruct (ewm_mean_last period _ Hp (Hn gain_of) (Hne gain_of)) as (ag & -> & Eg & Rg).
  destruct (ewm_mean_last period _ Hp (Hn loss_of) (Hne loss_of)) as (al & -> & El & Rl).
  rewrite Eg, El. simpl orb.
  destruct (iloc_last al) as [[l|]|]; [|contradiction|contradiction].
  destruct (iloc_last ag) as [[g|]|]; [|contradiction|contradiction].
  apply rsi_final_step; try assumption; apply smoothed_nonneg; auto with pyq.
Qed.

(** C2: on every input, [calculate_rsi] returns what [rsi_spec] says:
    NaN for a missing frame, a period below 1 (pandas' [ValueError],
    caught) or at most [period] rows, and otherwise
    [100 G / (G + L)] over the smoothed gains and losses, with the
    degenerate rule when [L = 0]. *)
Theorem calculate_rsi_refines (prices : option frame) (period : Z) :
  pyfloat_eq (calculate_rsi prices period) (rsi_spec prices period).
Proof. intros; apply calculate_rsi_eq_spec; assumption. Qed.

(** ** Consequences of the refinement *)

Lemma rsi_spec_bounds prices period r :
  rsi_spec prices period = Some r -> 0 <= r <= 100.
Proof.
  destruct prices as [p|]; simpl; [|discriminate].
  destruct (period <? 1)%Z eqn:Hp; simpl; [discriminate|apply Z.ltb_ge in Hp].
  destruct (_ <? _)%Z; [discriminate|]. intros [= <-].
  apply rsi_of_averages_bounds; apply smoothed_nonneg; auto with pyq.
Qed.

Lemma rsi_spec_NaN_iff prices period :
  rsi_spec prices period = NaN <->
  match prices with
  | None => True
  | Some p => (period < 1)%Z \/ (Z.of_nat (length p) < period + 1)%Z
  end.
Proof.
  destruct prices as [p|]; simpl; [|tauto].
  destruct (period <? 1)%Z eqn:Hp, (Z.of_nat (length p) <? period + 1)%Z eqn:Hl; simpl;
    rewrite ?Z.ltb_lt, ?Z.ltb_ge in *; split; (discriminate || lia || tauto).
Qed.

(** C1: every number [calculate_rsi] returns lies in [0, 100]. *)
Theorem calculate_rsi_bounds (prices : option frame) (period : Z) (r : Q) :
  calculate_rsi prices period = Some r -> 0 <= r <= 100.
Proof.
  intros H. pose proof (calculate_rsi_eq_spec prices period) as R. rewrite H in R.
  destruct (rsi_spec prices period) as [r'|] eqn:E; [|contradiction].
  simpl in R. rewrite R. exact (rsi_spec_bounds _ _ _ E).
Qed.

Lemma calculate_rsi_NaN_cases (prices : option frame) (period : Z) :
  calculate_rsi prices period = NaN <->
  match prices with
  | None => True
  | Some p => (period < 1)%Z \/ (Z.of_nat (length p) < period + 1)%Z
  end.
Proof.
  rewrite <- rsi_spec_NaN_iff. pose proof (calculate_rsi_eq_spec prices period) as R.
  split; intros H.
  - rewrite H in R. destruct (rsi_spec prices period); [contradiction|reflexivity].
  - rewrite H in R. now apply pyfloat_eq_NaN_r.
Qed.

(** C3: [calculate_rsi] returns NaN exactly when the frame is missing,
    the period is below 1, or the frame has at most [period] rows; NaN
    prices inside the frame never make the result NaN. *)
Theorem calculate_rsi_NaN_iff (prices : option frame) (period : Z) :
  calculate_rsi prices period = NaN <->
  match prices with
  | None => True
  | Some p => (period < 1)%Z \/ (Z.of_nat (length p) < period + 1)%Z
  end.
Proof. intros; apply calculate_rsi_NaN_cases; assumption. Qed.

(** ** Monotone and flat price series *)

(** Consecutive differences of a list of typical prices. *)
Fixpoint deltas (t : Q) (ts : list Q) : list Q :=
  match ts with [] => [] | u :: r => (u - t) :: deltas u r end.

Lemma diff_map_some t ts : diff (map Some (t :: ts)) = NaN :: map Some (deltas t ts).
Proof. simpl. f_equal. revert t; induction ts as [|u r IH]; intros t; simpl; [|rewrite IH]; reflexivity. Qed.

Lemma deltas_sorted (R : Q -> Q -> Prop) (P : Q -> Prop) t ts :
  (forall a b, R a b -> P (b - a)) -> Sorted R (t :: ts) -> Forall P (deltas t ts).
Proof.
  intros HR. revert t. induction ts as [|u r IH]; intros t Hs; simpl; constructor.
  - apply Sorted_inv in Hs as [_ Hd]. inversion Hd; subst. now apply HR.
  - apply IH. now apply Sorted_inv in Hs as [Hs _].
Qed.

Lemma ewm_ref_zero alpha y xs :
  y == 0 -> Forall (fun x => x == 0) xs -> ewm_ref alpha y xs == 0.
Proof.
  unfold ewm_ref. revert y. induction xs as [|x r IH]; intros y Hy Hxs; simpl; [exact Hy|].
  inversion Hxs; subst. apply IH; [|assumption]. unfold ewm_rec. rewrite Hy, H1. ring.
Qed.

Lemma ewm_ref_pos alpha y xs :
  0 < alpha <= 1 -> 0 <= y -> Forall (Qlt 0) xs -> xs <> [] -> 0 < ewm_ref alpha y xs.
Proof.
  intros Ha. unfold ewm_ref. revert y.
  induction xs as [|x r IH]; intros y Hy Hxs Hne; [contradiction|]. inversion Hxs; subst. simpl.
  assert (0 < ewm_rec alpha y x).
  { unfold ewm_rec. assert (0 <= (1 - alpha) * y) by (apply Qmult_le_0_compat; lra).
    assert (0 < alpha * x) by (apply Qmult_lt_0_compat; lra). lra. }
  destruct r as [|x' r]; [exact H|]. apply IH; [lra|assumption|discriminate].
Qed.

(** The specification on a frame whose typical prices are all defined. *)
Lemma rsi_spec_typical p period t ts :
  (1 <= period)%Z -> (period + 1 <= Z.of_nat (length p))%Z -> ohlc4 p = map Some (t :: ts) ->
  rsi_spec (Some p) period =
  Some (rsi_of_averages (ewm_ref (ewm_alpha period) 0 (map (fun d => gain_of (Some d)) (deltas t ts)))
                        (ewm_ref (ewm_alpha period) (- 0) (map (fun d => loss_of (Some d)) (deltas t ts)))).
Proof.
  intros Hp Hl Ho. simpl.
  replace (period <? 1)%Z with false by (symmetry; apply Z.ltb_ge; lia).
  replace (Z.of_nat (length p) <? period + 1)%Z with false by (symmetry; apply Z.ltb_ge; lia).
  rewrite Ho, diff_map_some. simpl. now rewrite !map_map.
Qed.

(** The shared step of the three scenarios: [calculate_rsi] is the
    specification's value, computed from the typical prices. *)
Lemma calculate_rsi_typical p period t ts :
  (1 <= period)%Z -> (period + 1 <= Z.of_nat (length p))%Z -> ohlc4 p = map Some (t :: ts) ->
  pyfloat_eq (calculate_rsi (Some p) period)
  (Some (rsi_of_averages (ewm_ref (ewm_alpha period) 0 (map (fun d => gain_of (Some d)) (deltas t ts)))
                         (ewm_ref (ewm_alpha period) (- 0) (map (fun d => loss_of (Some d)) (deltas t ts))))).
Proof. intros Hp Hl Ho. rewrite <- (rsi_spec_typical p period t ts Hp Hl Ho). apply calculate_rsi_eq_spec. Qed.

Lemma ohlc4_length p ts : ohlc4 p = map Some ts -> length p = length ts.
Proof. intros H. apply (f_equal (@length _)) in H. unfold ohlc4 in H. now rewrite !length_map in H. Qed.

Lemma rsi_of_averages_gain_only g l : 0 < g -> l == 0 -> rsi_of_averages g l == 100.
Proof.
  intros Hg Hl. unfold rsi_of_averages.
  replace (Qeq_bool l 0) with true by (symmetry; now apply Qeq_bool_iff).
  replace (Qltb 0 g) with true by (symmetry; now apply Qltb_iff). reflexivity.
Qed.

Lemma rsi_of_averages_loss_only g l : g == 0 -> 0 < l -> rsi_of_averages g l == 0.
Proof.
  intros Hg Hl. unfold rsi_of_averages.
  replace (Qeq_bool l 0) with false by (symmetry; apply Qeq_bool_false; lra).
  rewrite Hg. field. lra.
Qed.

Lemma rsi_of_averages_flat g l : g == 0 -> l == 0 -> rsi_of_averages g l == 50.
Proof.
  intros Hg Hl. unfold rsi_of_averages.
  replace (Qeq_bool l 0) with true by (symmetry; now apply Qeq_bool_iff).
  replace (Qltb 0 g) with false by (symmetry; apply Qltb_false; lra). reflexivity.
Qed.

(** The sign of each gain and loss follows from the order of the typical
    prices. *)
Lemma deltas_map_sorted (R : Q -> Q -> Prop) (P : Q -> Prop) (f : Q -> Q) t ts :
  (forall a b, R a b -> P (f (b - a))) -> Sorted R (t :: ts) ->
  Forall P (map f (deltas t ts)).
Proof. intros HR Hs. apply Forall_map. now apply (deltas_sorted R). Qed.

Ltac sign_of_delta :=
  intros a b Hab; simpl;
  first [ replace (Qltb 0 (b - a)) with true by (symmetry; apply Qltb_iff; lra)
        | replace (Qltb 0 (b - a)) with false by (symmetry; apply Qltb_false; lra) ];
  first [ replace (Qltb (b - a) 0) with true by (symmetry; apply Qltb_iff; lra)
        | replace (Qltb (b - a) 0) with false by (symmetry; apply Qltb_false; lra)
        | idtac ];
  lra.

(** C4: on a frame whose typical prices strictly increase, the RSI is
    100 (no loss, a positive smoothed gain). *)
Theorem calculate_rsi_increasing (p : frame) (period : Z) (ts : list Q) :
  (1 <= period)%Z -> (period + 1 <= Z.of_nat (length p))%Z ->
  ohlc4 p = map Some ts -> Sorted Qlt ts ->
  pyfloat_eq (calculate_rsi (Some p) period) (Some 100).
Proof.
  intros Hp Hl Ho Hs. pose proof (ohlc4_length _ _ Ho) as Hlen. pose proof (alpha_bounds period Hp).
  destruct ts as [|t ts]; [simpl in Hlen; lia|].
  rewrite (calculate_rsi_typical p period t ts Hp Hl Ho). simpl.
  apply rsi_of_averages_gain_only.
  - apply ewm_ref_pos; [lra|lra| |].
    + apply (deltas_map_sorted Qlt); [sign_of_delta|exact Hs].
    + destruct ts; simpl in *; [lia|discriminate].
  - apply ewm_ref_zero; [reflexivity|]. apply (deltas_map_sorted Qlt); [sign_of_delta|exact Hs].
Qed.

(** C5: on a frame whose typical prices strictly decrease, the RSI is 0
    (no gain, a positive smoothed loss). *)
Theorem calculate_rsi_decreasing (p : frame) (period : Z) (ts : list Q) :
  (1 <= period)%Z -> (period + 1 <= Z.of_nat (length p))%Z ->
  ohlc4 p = map Some ts -> Sorted (fun a b : Q => b < a) ts ->
  pyfloat_eq (calculate_rsi (Some p) period) (Some 0).
Proof.
  intros Hp Hl Ho Hs. pose proof (ohlc4_length _ _ Ho) as Hlen. pose proof (alpha_bounds period Hp).
  destruct ts as [|t ts]; [simpl in Hlen; lia|].
  rewrite (calculate_rsi_typical p period t ts Hp Hl Ho). simpl.
  apply rsi_of_averages_loss_only.
  - apply ewm_ref_zero; [reflexivity|]. apply (deltas_map_sorted (fun a b : Q => b < a)); [sign_of_delta|exact Hs].
  - apply ewm_ref_pos; [lra|lra| |].
    + apply (deltas_map_sorted (fun a b : Q => b < a)); [sign_of_delta|exact Hs].
    + destruct ts; simpl in *; [lia|discriminate].
Qed.

(** C6: on a frame whose typical prices are all equal, the RSI is 50
    (no gain and no loss). *)
Theorem calculate_rsi_flat (p : frame) (period : Z) (ts : list Q) :
  (1 <= period)%Z -> (period + 1 <= Z.of_nat (length p))%Z ->
  ohlc4 p = map Some ts -> Sorted Qeq ts ->
  pyfloat_eq (calculate_rsi (Some p) period) (Some 50).
Proof.
  intros Hp Hl Ho Hs. pose proof (ohlc4_length _ _ Ho) as Hlen.
  destruct ts as [|t ts]; [simpl in Hlen; lia|].
  rewrite (calculate_rsi_typical p period t ts Hp Hl Ho). simpl.
  apply rsi_of_averages_flat; (apply ewm_ref_zero; [reflexivity|]);
    apply (deltas_map_sorted Qeq); [sign_of_delta|exact Hs|sign_of_delta|exact Hs].
Qed.

(** ** Witnesses on concrete frames *)

(** A bar whose four prices are [q]: its typical price is [q]. *)
Definition flat_bar (q : Q) : bar := mkBar (Some q) (Some q) (Some q) (Some q).

Definition fx_up : frame := map flat_bar [1; 2; 3; 4; 5; 6; 7; 8; 9; 10; 11; 12].
Definition fx_down : frame := map flat_bar [12; 11; 10; 9; 8; 7; 6; 5; 4; 3; 2; 1].
Definition fx_flat : frame := map flat_bar [3; 3; 3; 3; 3; 3; 3; 3; 3; 3; 3].
(** A zig-zag frame with a NaN close in the middle. *)
Definition fx_mixed : frame :=
  map flat_bar [10; 11; 10#2; 12; 11] ++ [mkBar (Some 11) (Some 12) (Some 10) NaN]
  ++ map flat_bar [13; 12; 14; 13; 15; 12].

Lemma calculate_rsi_bounds_witness :
  exists r, calculate_rsi (Some fx_mixed) 10 = Some r /\ 0 <= r <= 100.
Proof.
  eexists. split; [vm_compute; reflexivity|].
  apply (calculate_rsi_bounds (Some fx_mixed) 10). vm_compute. reflexivity.
Defined.

Lemma calculate_rsi_increasing_witness :
  pyfloat_eq (calculate_rsi (Some fx_up) 10) (Some 100).
Proof.
  apply (calculate_rsi_increasing fx_up 10 (map (fun z => (4 * z) # 4) [1; 2; 3; 4; 5; 6; 7; 8; 9; 10; 11; 12]%Z));
    [lia | simpl; lia | vm_compute; reflexivity | repeat constructor].
Defined.

Lemma calculate_rsi_decreasing_witness :
  pyfloat_eq (calculate_rsi (Some fx_down) 10) (Some 0).
Proof.
  apply (calculate_rsi_decreasing fx_down 10 (map (fun z => (4 * z) # 4) [12; 11; 10; 9; 8; 7; 6; 5; 4; 3; 2; 1]%Z));
    [lia | simpl; lia | vm_compute; reflexivity | repeat constructor].
Defined.

Lemma calculate_rsi_flat_witness :
  pyfloat_eq (calculate_rsi (Some fx_flat) 10) (Some 50).
Proof.
  apply (calculate_rsi_flat fx_flat 10 (repeat (12 # 4) 11));
    [lia | simpl; lia | vm_compute; reflexivity | repeat constructor].
Defined.
