(* ===== verification/PyNum.v ===== *)
(** * PyNum.v: numbers to strings and back

    [string_of_nat] is Python's [str(n)] for a natural number;
    [format_rsi] (src/apprsi.py, line 132) prints an RSI with
    [f"{value:.2f}"], rounding half to even on the exact value as Python
    does, and NaN as ["N/A"]; [to_numeric_str] is [pd.to_numeric] on one
    string of a price column (src/app.py, line 76) for the decimal
    syntax of pandas' [xstrtod],
    [ws [+-]digits[.digits][(e|E)[+-]digits] ws].

    [format_rsi_roundtrip] proves that reading a printed RSI back gives
    the value rounded to two decimals, within [1/200] of it;
    [to_numeric_str_padded] that white space around a number changes
    nothing. *)

From Stdlib Require Import String Ascii Arith ZArith QArith Qround Qabs Lqa Lia List Bool.
From Stdlib Require Import DecimalString Decimal DecimalNat.
From S2P Require Import Prelude.
Import ListNotations.
#[local] Open Scope Z_scope.

(** ** Printing *)

(** [str(n)] *)
Definition string_of_nat (n : nat) : string := NilEmpty.string_of_uint (Nat.to_uint n).

(** Round half to even, the rounding of Python's float formatting. *)
Definition round_half_even (q : Q) : Z :=
  let f := Qfloor q in
  let r := (q - inject_Z f)%Q in
  if Qltb r (1#2) then f
  else if Qltb (1#2) r then f + 1
  else if Z.even f then f else f + 1.

(** The two digits after the point, zero-padded. *)
Definition two_digits (n : nat) : string :=
  if (n <? 10)%nat then ("0" ++ string_of_nat n)%string else string_of_nat n.

(** [f"{x:.2f}"] *)
Definition format_2f (x : Q) : string :=
  let n := round_half_even (Qabs x * 100) in
  ((if Qltb x 0 then "-" else "") ++ string_of_nat (Z.to_nat (n / 100)) ++ "."
     ++ two_digits (Z.to_nat (n mod 100)))%string.

(** [format_rsi(value)] *)
Definition format_rsi (value : pyfloat) : string :=
  match value with None => "N/A"%string | Some v => format_2f v end.

(** ** Parsing *)

Definition digit_value (c : ascii) : option nat :=
  let n := nat_of_ascii c in
  if (48 <=? n)%nat && (n <=? 57)%nat then Some (n - 48)%nat else None.

Fixpoint take_digits (l : list ascii) : list nat * list ascii :=
  match l with
  | [] => ([], [])
  | c :: r =>
      match digit_value c with
      | Some d => let '(ds, rest) := take_digits r in (d :: ds, rest)
      | None => ([], l)
      end
  end.

Definition digits_to_Z (ds : list nat) : Z := fold_left (fun acc d => acc * 10 + Z.of_nat d) ds 0.

Definition take_sign (l : list ascii) : Z * list ascii :=
  match l with
  | c :: r => if Ascii.eqb c "-" then (-1, r) else if Ascii.eqb c "+" then (1, r) else (1, l)
  | [] => (1, l)
  end.

Definition pow10 (e : Z) : Q :=
  if e >=? 0 then inject_Z (10 ^ e) else (1 / inject_Z (10 ^ (- e)))%Q.

(** The optional exponent, and what follows it. *)
Definition take_exponent (l : list ascii) : option (Z * list ascii) :=
  match l with
  | c :: r =>
      if (Ascii.eqb c "e" || Ascii.eqb c "E")%bool then
        let '(es, r1) := take_sign r in
        let '(eds, r2) := take_digits r1 in
        match eds with [] => None | _ => Some (es * digits_to_Z eds, r2) end
      else Some (0, l)
  | [] => Some (0, [])
  end.

(** C's [isspace]: tab to carriage return, and space. *)
Definition c_isspace (c : ascii) : bool :=
  let n := nat_of_ascii c in ((9 <=? n) && (n <=? 13))%nat || (n =? 32)%nat.

Fixpoint skip_ws (l : list ascii) : list ascii :=
  match l with
  | c :: r => if c_isspace c then skip_ws r else l
  | [] => []
  end.

(** [pd.to_numeric] on one string, pandas' [xstrtod] grammar: white
    space, an optional sign, digits with an optional decimal point (at
    least one digit in all), an optional exponent with digits, white
    space, and nothing else; [None] is the [ValueError] it raises. *)
Definition to_numeric_str (s : string) : option Q :=
  let '(sg, l1) := take_sign (skip_ws (list_ascii_of_string s)) in
  let '(ip, l2) := take_digits l1 in
  let '(fp, l3) := match l2 with
                   | c :: r => if Ascii.eqb c "." then take_digits r else ([], l2)
                   | [] => ([], [])
                   end in
  match ip ++ fp with
  | [] => None
  | _ =>
      match take_exponent l3 with
      | Some (e, rest) =>
          match skip_ws rest with
          | [] => Some (inject_Z (sg * digits_to_Z (ip ++ fp)) * pow10 (e - Z.of_nat (length fp)))%Q
          | _ => None
          end
      | None => None
      end
  end.

(** ** Lemmas on digits *)

Lemma list_ascii_app (s1 s2 : string) :
  list_ascii_of_string (s1 ++ s2) = list_ascii_of_string s1 ++ list_ascii_of_string s2.
Proof. induction s1 as [|c r IH]; simpl; congruence. Qed.

(** The digits a [uint] prints. *)
Fixpoint uint_digits (d : uint) : list nat :=
  match d with
  | Nil => []
  | D0 r => 0%nat :: uint_digits r | D1 r => 1%nat :: uint_digits r
  | D2 r => 2%nat :: uint_digits r | D3 r => 3%nat :: uint_digits r
  | D4 r => 4%nat :: uint_digits r | D5 r => 5%nat :: uint_digits r
  | D6 r => 6%nat :: uint_digits r | D7 r => 7%nat :: uint_digits r
  | D8 r => 8%nat :: uint_digits r | D9 r => 9%nat :: uint_digits r
  end.

Definition no_digit_first (l : list ascii) : Prop :=
  match l with [] => True | c :: _ => digit_value c = None end.

Lemma take_digits_uint (d : uint) (rest : list ascii) :
  no_digit_first rest ->
  take_digits (list_ascii_of_string (NilEmpty.string_of_uint d) ++ rest) = (uint_digits d, rest).
Proof.
  intros Hr. induction d; simpl; try (rewrite IHd; reflexivity).
  destruct rest as [|c r]; simpl in *; [reflexivity|]. now rewrite Hr.
Qed.

Lemma digits_to_Z_acc (ds : list nat) (acc : Z) :
  fold_left (fun a d => a * 10 + Z.of_nat d) ds acc = acc * 10 ^ Z.of_nat (length ds) + digits_to_Z ds.
Proof.
  revert acc. induction ds as [|d r IH]; intros acc; [simpl; unfold digits_to_Z; simpl; lia|].
  change (digits_to_Z (d :: r)) with (fold_left (fun a d => a * 10 + Z.of_nat d) r (Z.of_nat d)).
  cbn [length fold_left]. rewrite (IH (acc * 10 + Z.of_nat d)), (IH (Z.of_nat d)).
  rewrite Nat2Z.inj_succ, Z.pow_succ_r by lia. lia.
Qed.

Lemma digits_to_Z_app (ds1 ds2 : list nat) :
  digits_to_Z (ds1 ++ ds2) = digits_to_Z ds1 * 10 ^ Z.of_nat (length ds2) + digits_to_Z ds2.
Proof. unfold digits_to_Z at 1. rewrite fold_left_app. apply digits_to_Z_acc. Qed.

Lemma digits_to_Z_uint_acc (d : uint) (acc : nat) :
  fold_left (fun a x => a * 10 + Z.of_nat x) (uint_digits d) (Z.of_nat acc)
  = Z.of_nat (Nat.of_uint_acc d acc).
Proof.
  revert acc. induction d; intros acc; simpl; try rewrite <- IHd; try reflexivity;
    rewrite Nat.tail_mul_spec; f_equal; lia.
Qed.

Lemma digits_to_Z_string_of_nat (n : nat) :
  digits_to_Z (uint_digits (Nat.to_uint n)) = Z.of_nat n.
Proof.
  unfold digits_to_Z. change 0 with (Z.of_nat 0). rewrite digits_to_Z_uint_acc.
  change (Nat.of_uint_acc (Nat.to_uint n) 0) with (Nat.of_uint (Nat.to_uint n)).
  now rewrite Unsigned.of_to.
Qed.

Lemma to_uint_not_nil (n : nat) : Nat.to_uint n <> Nil.
Proof.
  intros H. pose proof (Unsigned.of_to n) as E. rewrite H in E. simpl in E. subst n. discriminate H.
Qed.

(** A printed number does not start with white space. *)
Lemma skip_ws_uint (d : uint) (rest : list ascii) :
  d <> Nil ->
  skip_ws (list_ascii_of_string (NilEmpty.string_of_uint d) ++ rest)
  = list_ascii_of_string (NilEmpty.string_of_uint d) ++ rest.
Proof. intros Hd. destruct d; [contradiction| ..]; reflexivity. Qed.

(** A printed number does not start with a sign. *)
Lemma take_sign_uint (d : uint) (rest : list ascii) :
  d <> Nil ->
  take_sign (list_ascii_of_string (NilEmpty.string_of_uint d) ++ rest)
  = (1, list_ascii_of_string (NilEmpty.string_of_uint d) ++ rest).
Proof. intros Hd. destruct d; [contradiction| ..]; reflexivity. Qed.

Definition two_digits_ok (n : nat) : bool :=
  match take_digits (list_ascii_of_string (two_digits n)) with
  | (ds, []) => (digits_to_Z ds =? Z.of_nat n) && (length ds =? 2)%nat
  | _ => false
  end.

Lemma two_digits_all : forallb two_digits_ok (seq 0 100) = true.
Proof. vm_compute. reflexivity. Qed.

Lemma two_digits_spec (n : nat) : (n < 100)%nat ->
  exists ds, take_digits (list_ascii_of_string (two_digits n)) = (ds, [])
             /\ digits_to_Z ds = Z.of_nat n /\ length ds = 2%nat.
Proof.
  intros Hn. pose proof (proj1 (forallb_forall _ _) two_digits_all n) as H.
  assert (Hin : In n (seq 0 100)) by (apply in_seq; lia). specialize (H Hin).
  unfold two_digits_ok in H. destruct (take_digits _) as [ds [|c r]]; [|discriminate].
  apply andb_true_iff in H as [H1 H2]. apply Z.eqb_eq in H1. apply Nat.eqb_eq in H2. eauto.
Qed.

(** ** Rounding *)

Lemma round_half_even_close (q : Q) :
  (- (1#2) <= inject_Z (round_half_even q) - q <= 1#2)%Q.
Proof.
  unfold round_half_even. pose proof (Qfloor_le q). pose proof (Qlt_floor q).
  rewrite inject_Z_plus in *. change (inject_Z 1) with 1%Q in *.
  qcase (Qltb (q - inject_Z (Qfloor q)) (1#2)); [lra|].
  qcase (Qltb (1#2) (q - inject_Z (Qfloor q))); [rewrite inject_Z_plus; change (inject_Z 1) with 1%Q; lra|].
  destruct (Z.even (Qfloor q)); rewrite ?inject_Z_plus; change (inject_Z 1) with 1%Q; lra.
Qed.

Lemma round_half_even_nonneg (q : Q) : (0 <= q)%Q -> 0 <= round_half_even q.
Proof.
  intros Hq. pose proof (round_half_even_close q) as [H _].
  assert (inject_Z (-1) < inject_Z (round_half_even q))%Q by (change (inject_Z (-1)) with (-1)%Q; lra).
  rewrite <- Zlt_Qlt in H0. lia.
Qed.

(** ** Reading a formatted number back *)

Lemma to_numeric_2f (neg : bool) (a b : nat) : (b < 100)%nat ->
  to_numeric_str ((if neg then "-" else "") ++ string_of_nat a ++ "." ++ two_digits b)%string
  = Some (inject_Z ((if neg then -1 else 1) * (Z.of_nat a * 100 + Z.of_nat b)) * pow10 (-2))%Q.
Proof.
  intros Hb. destruct (two_digits_spec b Hb) as (ds & Hds & Hv & Hl).
  unfold to_numeric_str. unfold string_of_nat.
  rewrite !list_ascii_app.
  replace (list_ascii_of_string (if neg then "-" else "")) with (if neg then ["-"%char] else [])
    by now destruct neg.
  assert (Hw : forall rest, skip_ws ((if neg then ["-"%char] else [])
                 ++ list_ascii_of_string (NilEmpty.string_of_uint (Nat.to_uint a)) ++ rest)
               = (if neg then ["-"%char] else [])
                 ++ list_ascii_of_string (NilEmpty.string_of_uint (Nat.to_uint a)) ++ rest).
  { intros rest. destruct neg; [reflexivity|]. apply skip_ws_uint, to_uint_not_nil. }
  rewrite Hw.
  assert (Hs : take_sign ((if neg then ["-"%char] else []) ++ list_ascii_of_string
             (NilEmpty.string_of_uint (Nat.to_uint a)) ++ list_ascii_of_string "." ++
             list_ascii_of_string (two_digits b))
           = (if neg then -1 else 1, list_ascii_of_string (NilEmpty.string_of_uint (Nat.to_uint a)) ++
               list_ascii_of_string "." ++ list_ascii_of_string (two_digits b))).
  { destruct neg; [reflexivity|]. apply take_sign_uint, to_uint_not_nil. }
  rewrite Hs. rewrite take_digits_uint by reflexivity. simpl (list_ascii_of_string ".").
  replace (["."%char] ++ list_ascii_of_string (two_digits b))
    with ("."%char :: list_ascii_of_string (two_digits b)) by reflexivity.
  cbv iota beta. rewrite Ascii.eqb_refl, Hds.
  destruct (uint_digits (Nat.to_uint a) ++ ds) as [|d r] eqn:E.
  { apply (f_equal (@length nat)) in E. rewrite length_app, Hl in E. simpl in E. lia. }
  rewrite <- E. simpl take_exponent. f_equal.
  rewrite digits_to_Z_app, digits_to_Z_string_of_nat, Hv, Hl. reflexivity.
Qed.

(** C16: reading back with [pd.to_numeric] the string [format_rsi]
    prints for a number [x] gives [x] rounded half to even to two
    decimals, within [1/200] of [x]. *)
Theorem format_rsi_roundtrip (x : Q) :
  exists q, to_numeric_str (format_rsi (Some x)) = Some q
    /\ (q == ((if Qltb x 0 then -1 else 1) * inject_Z (round_half_even (Qabs x * 100))) / 100)%Q
    /\ (Qabs (q - x) <= 1#200)%Q.
Proof.
  set (n := round_half_even (Qabs x * 100)).
  assert (Hn : 0 <= n) by (apply round_half_even_nonneg; pose proof (Qabs_nonneg x); lra).
  pose proof (Z.mod_pos_bound n 100 ltac:(lia)) as Hm.
  pose proof (Z.div_mod n 100 ltac:(lia)) as Hdm.
  assert (Hq : 0 <= n / 100) by (apply Z.div_pos; lia).
  unfold format_rsi, format_2f. fold n.
  rewrite (to_numeric_2f (Qltb x 0)) by lia.
  eexists. split; [reflexivity|].
  rewrite !Z2Nat.id by lia.
  replace (n / 100 * 100 + n mod 100) with n by lia.
  change (pow10 (-2)) with (1 # 100).
  assert (Hc := round_half_even_close (Qabs x * 100)). fold n in Hc.
  qcase (Qltb x 0).
  - rewrite Qabs_neg in Hc by lra. rewrite inject_Z_mult. change (inject_Z (-1)) with (-1)%Q.
    split; [field|]. apply (proj2 (Qabs_Qle_condition _ _)). split; lra.
  - rewrite Qabs_pos in Hc by lra. rewrite Z.mul_1_l.
    split; [field|]. apply (proj2 (Qabs_Qle_condition _ _)). split; lra.
Qed.

(** ** Printed numbers contain no [=] *)

(** [s] has no [=] character. *)
Definition no_eq (s : string) : Prop := ~ In "="%char (list_ascii_of_string s).

Lemma no_eq_app (s1 s2 : string) : no_eq s1 -> no_eq s2 -> no_eq (s1 ++ s2).
Proof. unfold no_eq. rewrite list_ascii_app, in_app_iff. tauto. Qed.

Lemma no_eq_uint (d : Decimal.uint) : no_eq (NilEmpty.string_of_uint d).
Proof. unfold no_eq. induction d; cbn; [tauto| ..]; intros [H|H]; [discriminate H|auto| discriminate H|auto|..]; auto; discriminate H. Qed.

Lemma format_rsi_no_eq (v : pyfloat) : no_eq (format_rsi v).
Proof.
  destruct v as [x|]; [|unfold no_eq; cbn; intuition discriminate].
  unfold format_rsi, format_2f, two_digits, string_of_nat.
  repeat apply no_eq_app; try apply no_eq_uint; [destruct (Qltb x 0)|unfold no_eq; cbn; intuition discriminate|];
    try (unfold no_eq; cbn; intuition discriminate).
  destruct (_ <? _)%nat; [apply no_eq_app; [unfold no_eq; cbn; intuition discriminate|]|]; apply no_eq_uint.
Qed.


(** ** White space around a number

    [xstrtod] skips white space before the number and after it; the
    parser's stages carry a white-space suffix through unchanged, so
    padding a string changes nothing pandas reads from it. *)

Lemma space_not_syntax (c : ascii) : c_isspace c = true ->
  Ascii.eqb c "-" = false /\ Ascii.eqb c "+" = false /\ Ascii.eqb c "." = false
  /\ (Ascii.eqb c "e" || Ascii.eqb c "E")%bool = false /\ digit_value c = None.
Proof.
  intros H. destruct c as [[] [] [] [] [] [] [] []]; vm_compute in H;
    try discriminate H; repeat split.
Qed.

Lemma skip_ws_spaces (w : list ascii) : forallb c_isspace w = true -> skip_ws w = [].
Proof.
  induction w as [|c w IH]; intros H; [reflexivity|].
  simpl in H |- *. apply andb_prop in H as [Hc Hw]. rewrite Hc. auto.
Qed.

Lemma skip_ws_app_nonempty (l w : list ascii) :
  skip_ws l <> [] -> skip_ws (l ++ w) = skip_ws l ++ w.
Proof.
  induction l as [|c l IH]; simpl; [congruence|].
  destruct (c_isspace c); [exact IH|reflexivity].
Qed.

Section Padding.
Variable w : list ascii.
Hypothesis Hw : forallb c_isspace w = true.

Lemma pad_head : w = [] \/ exists c r, w = c :: r /\ c_isspace c = true.
Proof.
  destruct w as [|c r]; [now left|right]. simpl in Hw. apply andb_prop in Hw as [Hc _].
  eauto.
Qed.

Lemma skip_ws_prefix (l : list ascii) : skip_ws (w ++ l) = skip_ws l.
Proof.
  clear - Hw. induction w as [|c r IH]; [reflexivity|].
  simpl in Hw |- *. apply andb_prop in Hw as [-> Hr]. auto.
Qed.

Lemma skip_ws_suffix (l : list ascii) :
  skip_ws (l ++ w) = [] <-> skip_ws l = [].
Proof.
  induction l as [|c l IH]; simpl.
  - rewrite skip_ws_spaces by exact Hw. tauto.
  - destruct (c_isspace c); [exact IH|]. split; discriminate.
Qed.

Lemma take_sign_suffix (l : list ascii) :
  take_sign (l ++ w) = let '(s, r) := take_sign l in (s, r ++ w).
Proof.
  destruct l as [|c l]; simpl.
  - destruct pad_head as [->|(c & r & -> & Hc)]; [reflexivity|].
    simpl. destruct (space_not_syntax c Hc) as (-> & -> & _). reflexivity.
  - destruct (Ascii.eqb c "-"), (Ascii.eqb c "+"); reflexivity.
Qed.

Lemma take_digits_suffix (l : list ascii) :
  take_digits (l ++ w) = let '(ds, r) := take_digits l in (ds, r ++ w).
Proof.
  induction l as [|c l IH]; simpl.
  - destruct pad_head as [->|(c & r & -> & Hc)]; [reflexivity|].
    simpl. destruct (space_not_syntax c Hc) as (_ & _ & _ & _ & ->). reflexivity.
  - destruct (digit_value c); [|reflexivity].
    rewrite IH. destruct (take_digits l). reflexivity.
Qed.

Lemma take_exponent_suffix (l : list ascii) :
  take_exponent (l ++ w) = option_map (fun '(e, r) => (e, r ++ w)) (take_exponent l).
Proof.
  destruct l as [|c l]; simpl.
  - destruct pad_head as [->|(c & r & -> & Hc)]; [reflexivity|].
    simpl. destruct (space_not_syntax c Hc) as (_ & _ & _ & -> & _). reflexivity.
  - destruct (Ascii.eqb c "e" || Ascii.eqb c "E")%bool; [|reflexivity].
    rewrite take_sign_suffix. destruct (take_sign l) as [es r1].
    rewrite take_digits_suffix. destruct (take_digits r1) as [[|d ds] r2]; reflexivity.
Qed.

Lemma take_fraction_suffix (l : list ascii) :
  match l ++ w with
  | c :: r => if Ascii.eqb c "." then take_digits r else ([], l ++ w)
  | [] => ([], [])
  end
  = let '(fp, l3) := match l with
                     | c :: r => if Ascii.eqb c "." then take_digits r else ([], l)
                     | [] => ([], [])
                     end in (fp, l3 ++ w).
Proof.
  destruct l as [|c l]; simpl.
  - destruct pad_head as [->|(c & r & -> & Hc)]; [reflexivity|].
    simpl. destruct (space_not_syntax c Hc) as (_ & _ & -> & _). reflexivity.
  - destruct (Ascii.eqb c "."); [apply take_digits_suffix|reflexivity].
Qed.

(** Reading a number whose text is padded with white space on both
    sides gives what the bare text gives. *)
Theorem to_numeric_str_padded (s : string) :
  to_numeric_str (string_of_list_ascii w ++ s ++ string_of_list_ascii w) = to_numeric_str s.
Proof.
  unfold to_numeric_str. rewrite !list_ascii_app, !list_ascii_of_string_of_list_ascii.
  rewrite skip_ws_prefix.
  destruct (skip_ws (list_ascii_of_string s)) as [|c l] eqn:E.
  { now rewrite (proj2 (skip_ws_suffix _) E). }
  rewrite skip_ws_app_nonempty, E by congruence.
  rewrite take_sign_suffix. destruct (take_sign (c :: l)) as [sg l1].
  rewrite take_digits_suffix. destruct (take_digits l1) as [ip l2].
  rewrite take_fraction_suffix.
  destruct (match l2 with c :: r => _ | [] => _ end) as [fp l3].
  destruct (ip ++ fp)%list; [reflexivity|].
  rewrite take_exponent_suffix. destruct (take_exponent l3) as [[e rest]|]; [|reflexivity].
  simpl. destruct (skip_ws rest) eqn:E2.
  - now rewrite (proj2 (skip_ws_suffix _) E2).
  - rewrite skip_ws_app_nonempty, E2 by congruence. reflexivity.
Qed.
End Padding.
