(* ===== verification/Classify.v ===== *)
(** * Classify.v: the decision rule on RSI values (src/apprsi.py, lines 132-138)

    [get_rsi_class] maps an RSI value to the CSS class of its table cell:
    NaN is neutral, [<= 20] is oversold, [>= 80] is overbought, anything
    else neutral ([format_rsi], the printing of the same cell, is in
    PyNum.v).  The theorems show
    that the three classes partition the values, with both thresholds
    inclusive. *)

From Stdlib Require Import String Arith QArith Lqa Lia List Bool.
From S2P Require Import Prelude.
Import ListNotations.
#[local] Open Scope Q_scope.

Definition oversold_cell : string := "oversold-cell".
Definition overbought_cell : string := "overbought-cell".
Definition neutral_cell : string := "neutral-cell".

Definition get_rsi_class (value : pyfloat) : string :=
  match value with
  | None => neutral_cell
  | Some v =>
      if Qle_bool v 20 then oversold_cell
      else if Qle_bool 80 v then overbought_cell
      else neutral_cell
  end.

(** C9: a value is classified oversold exactly when it is a number at
    most 20 (20 included), overbought exactly when it is a number of at
    least 80 (80 included), and neutral otherwise (NaN included). *)
Theorem get_rsi_class_spec (v : pyfloat) :
  (get_rsi_class v = oversold_cell <-> exists x, v = Some x /\ x <= 20)
  /\ (get_rsi_class v = overbought_cell <-> exists x, v = Some x /\ 80 <= x)
  /\ (get_rsi_class v = neutral_cell <-> v = NaN \/ exists x, v = Some x /\ 20 < x < 80).
Proof.
  destruct v as [x|]; simpl.
  - qcase (Qle_bool x 20); [|qcase (Qle_bool 80 x)]; unfold oversold_cell, overbought_cell, neutral_cell;
      repeat split; intros H; try discriminate; try reflexivity;
      repeat match goal with
             | H : exists _, _ |- _ => destruct H as (? & [= <-] & ?)
             | H : _ \/ _ |- _ => destruct H
             | H : Some _ = None |- _ => discriminate
             end; try lra; eauto; try (right; eexists; split; [reflexivity|lra]).
  - unfold oversold_cell, overbought_cell, neutral_cell. repeat split; intros H;
      try discriminate; auto; destruct H as [? [? _]] || destruct H as [_|[? [? _]]]; discriminate.
Qed.
