(* ===== verification/YahooProvider.v ===== *)
(** * YahooProvider.v: the Yahoo Finance data source (src/apprsi.py, lines 117-130)

    [get_yahoo_symbol] turns a pair ["EUR/USD"] into the ticker
    ["EURUSD=X"]; [fetch_forex_data] maps a timeframe key to the
    [period]/[interval] of the [params] dict, calls
    [yf.Ticker(symbol).history(...)] and rejects a frame with fewer than
    15 rows.  The network call is the class [YahooFinance]: [history]
    returns the frame, or [None] when the call raises (the [except]
    branch).  The theorems hold for every instance. *)

From Stdlib Require Import String Ascii Arith QArith Lia List Bool.
From S2P Require Import Prelude Pandas.
Import ListNotations.
#[local] Open Scope string_scope.

(** ** The interface to yfinance *)

(** [yf.Ticker(symbol).history(period=..., interval=..., auto_adjust=True,
    prepost=False)]; [None] models an exception. *)
Class YahooFinance := { history : string -> string -> string -> option frame }.

(** ** [get_yahoo_symbol] *)

(** Python's [s.replace(c, new)] for a one-character [c]. *)
Fixpoint replace_char (c : ascii) (new s : string) : string :=
  match s with
  | EmptyString => EmptyString
  | String a r => if Ascii.eqb a c then new ++ replace_char c new r else String a (replace_char c new r)
  end.

Definition get_yahoo_symbol (pair : string) : string := replace_char "/" "" pair ++ "=X".

(** ** [fetch_forex_data] *)

(** The [params] dict literal: timeframe key to (period, interval). *)
Definition params : pydict (string * string) :=
  [("H1", ("5d", "1h")); ("H4", ("1mo", "4h")); ("D1", ("3mo", "1d")); ("W1", ("2y", "1wk"))].

Definition min_rows : nat := 15.

Definition fetch_forex_data `{YahooFinance} (symbol timeframe_key : string) : option frame :=
  let yahoo_symbol := get_yahoo_symbol symbol in
  match dict_get timeframe_key params with
  | None => None
  | Some (period, interval) =>
      match history yahoo_symbol period interval with
      | None => None
      | Some data =>
          if (match data with [] => true | _ => false end || Nat.ltb (length data) min_rows)%bool
          then None else Some data
      end
  end.

(** ** Properties *)

Lemma replace_char_app c new s1 s2 :
  replace_char c new (s1 ++ s2) = replace_char c new s1 ++ replace_char c new s2.
Proof.
  induction s1 as [|a r IH]; simpl; [reflexivity|].
  destruct (Ascii.eqb a c); rewrite IH; [symmetry; apply string_app_assoc|reflexivity].
Qed.

(** A string without [c] is left alone. *)
Lemma replace_char_absent c new s :
  (forall i, String.get i s <> Some c) -> replace_char c new s = s.
Proof.
  induction s as [|a r IH]; intros H; simpl; [reflexivity|].
  destruct (Ascii.eqb a c) eqn:E.
  - apply Ascii.eqb_eq in E. subst. now specialize (H 0%nat).
  - f_equal. apply IH. intros i. exact (H (S i)).
Qed.

(** The ticker of ["BASE/QUOTE"] is ["BASEQUOTE=X"] when neither
    code contains a slash. *)
Theorem get_yahoo_symbol_pair (base quote : string) :
  (forall i, String.get i base <> Some "/"%char) ->
  (forall i, String.get i quote <> Some "/"%char) ->
  get_yahoo_symbol (base ++ "/" ++ quote) = base ++ quote ++ "=X".
Proof.
  intros Hb Hq. unfold get_yahoo_symbol.
  rewrite !replace_char_app, (replace_char_absent _ _ base Hb), (replace_char_absent _ _ quote Hq).
  simpl. now rewrite string_app_assoc.
Qed.

Section Fetch.
Context `{YahooFinance}.

Lemma fetch_forex_data_Some_iff (symbol tf : string) (data : frame) :
  fetch_forex_data symbol tf = Some data <->
  exists period interval,
    dict_get tf params = Some (period, interval)
    /\ history (get_yahoo_symbol symbol) period interval = Some data
    /\ (min_rows <= length data)%nat.
Proof.
  unfold fetch_forex_data. split.
  - destruct (dict_get tf params) as [[period interval]|] eqn:Ep; [|discriminate].
    destruct (history _ period interval) as [d|] eqn:Eh; [|discriminate].
    destruct d as [|b d]; simpl; [discriminate|].
    destruct (Nat.ltb (S (length d)) min_rows) eqn:E; [discriminate|].
    intros [= <-]. apply Nat.ltb_ge in E. exists period, interval. auto.
  - intros (period & interval & -> & -> & Hlen).
    destruct data as [|b d]; [unfold min_rows in Hlen; simpl in Hlen; lia|].
    simpl. replace (Nat.ltb (S (length d)) min_rows) with false
      by (symmetry; apply Nat.ltb_ge; exact Hlen). reflexivity.
Qed.

(** C11: [fetch_forex_data] returns a frame only for a key of [params],
    only the frame [history] returned for that key's period and
    interval, and only when it has at least 15 rows. *)
Theorem fetch_forex_data_spec (symbol tf : string) (data : frame) :
  fetch_forex_data symbol tf = Some data <->
  exists period interval,
    dict_get tf params = Some (period, interval)
    /\ history (get_yahoo_symbol symbol) period interval = Some data
    /\ (min_rows <= length data)%nat.
Proof. intros; apply fetch_forex_data_Some_iff; assumption. Qed.

(** A timeframe key outside [params] never reaches the network. *)
Lemma fetch_forex_data_unknown (symbol tf : string) :
  dict_get tf params = None -> fetch_forex_data symbol tf = None.
Proof. unfold fetch_forex_data. now intros ->. Qed.
End Fetch.

Lemma get_yahoo_symbol_pair_witness :
  get_yahoo_symbol ("EUR" ++ "/" ++ "USD") = "EUR" ++ "USD" ++ "=X".
Proof.
  apply get_yahoo_symbol_pair; intros [|[|[|i]]]; simpl; discriminate.
Defined.
