(* ===== verification/Screener.v ===== *)
(** * Screener.v: the scan loop of the page (src/apprsi.py, lines 148-167)

    For each configured pair (in order), the loop shows a status line,
    fetches and scores every timeframe of [zip(timeframes_fetch_keys,
    timeframes_display)] into a row dict that starts with ['Devises'],
    appends the row to [results] and advances the progress bar to
    [(i + 1) / total_pairs]; after the loop the bar and the status line
    are cleared.  [scan_pair] is one iteration with explicit state: the
    result list and the trace of observable effects (status text, each
    call of [fetch_forex_data], each progress value), in program order.

    The theorems give the grid (one row per pair, in order, every cell the
    RSI of that cell's own fetch), the trace (status, fetches, progress
    for each pair in turn) and the isolation property (a cell is NaN
    exactly when its own fetch failed). *)

From Stdlib Require Import String Arith QArith Lqa Lia List Bool Sorted.
From S2P Require Import Prelude Pandas RsiEngine PyNum YahooProvider.
Import ListNotations.

(** ** Data *)

(** A value of a row dict: the pair's name or an RSI. *)
Inductive value := VStr (s : string) | VFloat (f : pyfloat).

Definition row := pydict value.

(** The observable effects of the loop. *)
Inductive event :=
| EvStatus (text : string)
| EvFetch (symbol timeframe_key : string)
| EvProgress (fraction : Q)
| EvProgressEmpty
| EvStatusEmpty.

Record scan_state := mkScan { results : list row; trace : list event }.

Definition forex_pairs : list string :=
  ["EUR/USD"; "USD/JPY"; "GBP/USD"; "USD/CHF"; "AUD/USD"; "USD/CAD"; "NZD/USD";
   "EUR/JPY"; "GBP/JPY"; "EUR/GBP"]%string.
Definition timeframes_display : list string := ["H1"; "H4"; "Daily"; "Weekly"]%string.
Definition timeframes_fetch_keys : list string := ["H1"; "H4"; "D1"; "W1"]%string.

(** [f"Analysing: {pair_name} ({i+1}/{total_pairs})"] *)
Definition status_line (pair_name : string) (i total : nat) : string :=
  ("Analysing: " ++ pair_name ++ " (" ++ string_of_nat (i + 1) ++ "/" ++ string_of_nat total ++ ")")%string.

(** [(i + 1) / total_pairs] *)
Definition progress_fraction (i total : nat) : Q :=
  inject_Z (Z.of_nat (i + 1)) / inject_Z (Z.of_nat total).

(** [enumerate(xs)] *)
Definition enumerate {A} (xs : list A) : list (nat * A) := combine (seq 0 (length xs)) xs.

Section Scan.
Context `{YahooFinance}.

(** One pass of the inner loop: fetch, score with [period=10], store. *)
Definition scan_cell (pair_name : string) (st : row * list event) (tf : string * string)
  : row * list event :=
  let '(row_data, evs) := st in
  let '(tf_key, tf_display_name) := tf in
  let data_ohlc := fetch_forex_data pair_name tf_key in
  let rsi_value := calculate_rsi data_ohlc 10 in
  (dict_set tf_display_name (VFloat rsi_value) row_data, evs ++ [EvFetch pair_name tf_key]).

(** One pass of the outer loop. *)
Definition scan_pair (tfs : list (string * string)) (total : nat) (st : scan_state)
  (ip : nat * string) : scan_state :=
  let '(i, pair_name) := ip in
  let evs := trace st ++ [EvStatus (status_line pair_name i total)] in
  let '(row_data, evs') := fold_left (scan_cell pair_name) tfs ([("Devises"%string, VStr pair_name)], evs) in
  mkScan (results st ++ [row_data]) (evs' ++ [EvProgress (progress_fraction i total)]).

Definition scan (pairs keys display : list string) : scan_state :=
  let st := fold_left (scan_pair (combine keys display) (length pairs)) (enumerate pairs) (mkScan [] []) in
  mkScan (results st) (trace st ++ [EvProgressEmpty; EvStatusEmpty]).

Definition run_screener : scan_state := scan forex_pairs timeframes_fetch_keys timeframes_display.

(** ** The specification of the grid and of the trace *)

Definition expected_row (tfs : list (string * string)) (pair_name : string) : row :=
  ("Devises"%string, VStr pair_name)
    :: map (fun '(k, d) => (d, VFloat (calculate_rsi (fetch_forex_data pair_name k) 10))) tfs.

Definition pair_events (tfs : list (string * string)) (total : nat) (ip : nat * string) : list event :=
  let '(i, pair_name) := ip in
  EvStatus (status_line pair_name i total) :: map (fun '(k, _) => EvFetch pair_name k) tfs
    ++ [EvProgress (progress_fraction i total)].

(** ** Lemmas *)

Lemma scan_cells_fold pair_name tfs (r : row) evs :
  NoDup (map snd tfs) -> (forall d, In d (map snd tfs) -> ~ In d (map fst r)) ->
  fold_left (scan_cell pair_name) tfs (r, evs)
  = (r ++ tl (expected_row tfs pair_name), evs ++ map (fun '(k, _) => EvFetch pair_name k) tfs).
Proof.
  revert r evs. induction tfs as [|[k d] tfs IH]; intros r evs Hnd Hfresh; simpl.
  - now rewrite !app_nil_r.
  - inversion Hnd as [|? ? Hnin Hnd']; subst.
    rewrite dict_set_fresh by (apply dict_get_None_iff; apply Hfresh; simpl; auto).
    rewrite IH; [simpl; now rewrite <- !app_assoc|exact Hnd'|].
    intros d' Hd'. rewrite map_app, in_app_iff. simpl. intros [Hin|[<-|[]]].
    + apply (Hfresh d'); simpl; auto.
    + contradiction.
Qed.

Lemma scan_cells_trace pair_name tfs (r : row) evs :
  snd (fold_left (scan_cell pair_name) tfs (r, evs))
  = evs ++ map (fun '(k, _) => EvFetch pair_name k) tfs.
Proof.
  revert r evs. induction tfs as [|[k d] tfs IH]; intros r evs; simpl.
  - now rewrite app_nil_r.
  - rewrite IH. now rewrite <- app_assoc.
Qed.

Lemma scan_pair_trace tfs total st ip :
  trace (scan_pair tfs total st ip) = trace st ++ pair_events tfs total ip.
Proof.
  destruct ip as [i p]. unfold scan_pair.
  pose proof (scan_cells_trace p tfs [("Devises"%string, VStr p)]
                (trace st ++ [EvStatus (status_line p i total)])) as E.
  destruct (fold_left _ _ _) as [r evs]. simpl in *. subst evs.
  now rewrite <- !app_assoc.
Qed.

Lemma scan_pair_results tfs total st ip :
  NoDup (map snd tfs) -> ~ In "Devises"%string (map snd tfs) ->
  results (scan_pair tfs total st ip) = results st ++ [expected_row tfs (snd ip)].
Proof.
  intros Hnd Hdev. destruct ip as [i p]. unfold scan_pair.
  rewrite scan_cells_fold; [reflexivity|exact Hnd|].
  intros d Hd [<-|[]]. contradiction.
Qed.

Lemma scan_fold_trace tfs total ips st :
  trace (fold_left (scan_pair tfs total) ips st) = trace st ++ concat (map (pair_events tfs total) ips).
Proof.
  revert st. induction ips as [|ip ips IH]; intros st; simpl; [now rewrite app_nil_r|].
  rewrite IH, scan_pair_trace. now rewrite <- app_assoc.
Qed.

Lemma scan_fold_results tfs total ips st :
  NoDup (map snd tfs) -> ~ In "Devises"%string (map snd tfs) ->
  results (fold_left (scan_pair tfs total) ips st)
  = results st ++ map (fun ip => expected_row tfs (snd ip)) ips.
Proof.
  intros Hnd Hdev. revert st. induction ips as [|ip ips IH]; intros st; simpl; [now rewrite app_nil_r|].
  rewrite IH, scan_pair_results by assumption. now rewrite <- app_assoc.
Qed.

Lemma map_snd_enumerate {A} (xs : list A) : map snd (enumerate xs) = xs.
Proof.
  unfold enumerate. generalize 0%nat. induction xs as [|x r IH]; intros n; simpl; [reflexivity|].
  now rewrite IH.
Qed.

Lemma map_snd_combine {A B} (l1 : list A) (l2 : list B) :
  length l1 = length l2 -> map snd (combine l1 l2) = l2.
Proof.
  revert l2. induction l1 as [|a r IH]; intros [|b l2] Hl; simpl in *; try discriminate; auto.
  rewrite IH; auto.
Qed.

(** ** Theorems *)

Lemma scan_results_eq (pairs keys display : list string) :
  length keys = length display -> NoDup display -> ~ In "Devises"%string display ->
  results (scan pairs keys display) = map (expected_row (combine keys display)) pairs.
Proof.
  intros Hl Hnd Hdev. unfold scan. simpl.
  rewrite scan_fold_results by (rewrite map_snd_combine; assumption).
  simpl. rewrite <- (map_snd_enumerate pairs) at 2. now rewrite map_map.
Qed.

(** C7: the grid has one row per configured pair, in the configured
    order; each row is ['Devises'] followed by one cell per timeframe,
    in the configured order, and the cell of timeframe [k] is the RSI
    (period 10) of that pair's own fetch for [k]. *)
Theorem scan_results (pairs keys display : list string) :
  length keys = length display -> NoDup display -> ~ In "Devises"%string display ->
  results (scan pairs keys display) = map (expected_row (combine keys display)) pairs.
Proof. intros; apply scan_results_eq; assumption. Qed.

Lemma scan_trace_eq (pairs keys display : list string) :
  trace (scan pairs keys display)
  = concat (map (pair_events (combine keys display) (length pairs)) (enumerate pairs))
    ++ [EvProgressEmpty; EvStatusEmpty].
Proof. unfold scan. simpl. now rewrite scan_fold_trace. Qed.

(** C10: a cell of the grid is NaN exactly when its own fetch failed: a
    frame that [fetch_forex_data] returns has at least 15 rows, enough
    for [calculate_rsi] with period 10 (even with NaN prices in it). *)
Theorem cell_NaN_iff_fetch_failed (pair_name tf : string) :
  calculate_rsi (fetch_forex_data pair_name tf) 10 = NaN <-> fetch_forex_data pair_name tf = None.
Proof.
  rewrite calculate_rsi_NaN_cases. destruct (fetch_forex_data pair_name tf) as [d|] eqn:E; [|tauto].
  apply fetch_forex_data_Some_iff in E as (? & ? & _ & _ & Hlen). unfold min_rows in Hlen.
  split; [lia|discriminate].
Qed.

(** C8: the effects of a scan, in order: for each pair in turn its
    status line, one fetch per timeframe in the configured order, and
    its progress value; then the bar and the status line are cleared. *)
Theorem scan_trace (pairs keys display : list string) :
  trace (scan pairs keys display)
  = concat (map (pair_events (combine keys display) (length pairs)) (enumerate pairs))
    ++ [EvProgressEmpty; EvStatusEmpty].
Proof. intros; apply scan_trace_eq; assumption. Qed.
End Scan.

(** ** The progress bar *)

Definition progress_values (tr : list event) : list Q :=
  flat_map (fun e => match e with EvProgress q => [q] | _ => [] end) tr.

Lemma progress_values_app l1 l2 : progress_values (l1 ++ l2) = progress_values l1 ++ progress_values l2.
Proof. apply flat_map_app. Qed.

Lemma progress_values_fetches pair_name (tfs : list (string * string)) :
  progress_values (map (fun '(k, _) => EvFetch pair_name k) tfs) = [].
Proof. induction tfs as [|[k d] r IH]; simpl; auto. Qed.

Lemma progress_values_pairs tfs total ips :
  progress_values (concat (map (pair_events tfs total) ips))
  = map (fun ip => progress_fraction (fst ip) total) ips.
Proof.
  induction ips as [|[i p] r IH]; simpl; [reflexivity|].
  rewrite progress_values_app, IH. simpl.
  rewrite progress_values_app, progress_values_fetches. reflexivity.
Qed.

Lemma map_fst_enumerate {A} (xs : list A) : map fst (enumerate xs) = seq 0 (length xs).
Proof.
  unfold enumerate. generalize 0%nat. induction xs as [|x r IH]; intros n; simpl; [reflexivity|].
  now rewrite IH.
Qed.

Lemma progress_fraction_lt i j total :
  (0 < total)%nat -> (i < j)%nat -> progress_fraction i total < progress_fraction j total.
Proof.
  intros Ht Hij. unfold progress_fraction, Qdiv.
  pose proof (inject_nat_pos total Ht).
  apply Qmult_lt_r; [now apply Qinv_lt_0_compat|]. apply inject_nat_lt. lia.
Qed.

Lemma progress_sorted total a m :
  (0 < total)%nat -> Sorted Qlt (map (fun i => progress_fraction i total) (seq a m)).
Proof.
  intros Ht. revert a. induction m as [|m IH]; intros a; simpl; constructor; [apply IH|].
  destruct m; simpl; constructor. apply progress_fraction_lt; lia.
Qed.

Section Progress.
Context `{YahooFinance}.

Lemma scan_progress (pairs keys display : list string) :
  progress_values (trace (scan pairs keys display))
  = map (fun i => progress_fraction i (length pairs)) (seq 0 (length pairs)).
Proof.
  rewrite scan_trace_eq, progress_values_app, progress_values_pairs. simpl.
  rewrite app_nil_r, <- map_fst_enumerate, map_map. reflexivity.
Qed.

(** C13: over a scan of at least one pair, the progress bar receives
    strictly increasing values, one per pair, the last of which is 1. *)
Theorem scan_progress_monotone (pairs keys display : list string) :
  pairs <> [] ->
  Sorted Qlt (progress_values (trace (scan pairs keys display)))
  /\ length (progress_values (trace (scan pairs keys display))) = length pairs
  /\ opt_rel Qeq (iloc_last (progress_values (trace (scan pairs keys display)))) (Some 1).
Proof.
  intros Hne. rewrite scan_progress.
  assert (Hn : (0 < length pairs)%nat) by (destruct pairs; [contradiction|simpl; lia]).
  split; [now apply progress_sorted|]. rewrite length_map, length_seq. split; [reflexivity|].
  destruct (length pairs) as [|n] eqn:E; [lia|].
  rewrite seq_S, map_app. cbn [map]. rewrite iloc_last_snoc. simpl. unfold progress_fraction.
  replace (n + 1)%nat with (S n) by lia.
  pose proof (inject_nat_pos (S n) ltac:(lia)).
  field. lra.
Qed.
End Progress.

(** ** A concrete feed: three pairs, two timeframes, one failing call *)

Definition fixture15 : frame :=
  map flat_bar [10; 11; 10#2; 12; 11; 13; 12; 14; 13; 15; 12; 11; 13; 14; 12].

(** Every call succeeds with [fixture15] except GBP/USD on the 4-hour
    interval, which raises. *)
Definition demo_feed : YahooFinance :=
  {| history symbol period interval :=
       if (String.eqb symbol "GBPUSD=X" && String.eqb interval "4h")%bool then None
       else Some fixture15 |}.

Definition demo_pairs : list string := ["EUR/USD"; "GBP/USD"; "USD/JPY"]%string.
Definition demo_tfs : list string := ["H1"; "H4"]%string.

Lemma scan_results_witness :
  results (@scan demo_feed demo_pairs demo_tfs demo_tfs)
  = map (@expected_row demo_feed (combine demo_tfs demo_tfs)) demo_pairs.
Proof.
  apply scan_results; [reflexivity| |]; unfold demo_tfs;
    repeat constructor; simpl; intuition discriminate.
Defined.

Lemma scan_progress_monotone_witness :
  Sorted Qlt (progress_values (trace (@scan demo_feed demo_pairs demo_tfs demo_tfs)))
  /\ length (progress_values (trace (@scan demo_feed demo_pairs demo_tfs demo_tfs))) = length demo_pairs
  /\ opt_rel Qeq (iloc_last (progress_values (trace (@scan demo_feed demo_pairs demo_tfs demo_tfs)))) (Some 1).
Proof. apply scan_progress_monotone. discriminate. Defined.

