(* ===== verification/Stats.v ===== *)
(** * Stats.v: the signal statistics under the table (src/apprsi.py, lines 193-208)

    For each displayed timeframe, the page collects [row.get(tf, nan)] of
    every row, keeps the values that are not NaN and, when there are
    some, shows the number of oversold values ([x <= 20]), of overbought
    values ([x >= 80]) and their sum; otherwise ["N/A"] / ["No data"].
    A comparison of a string with [20] raises [TypeError], which nothing
    catches: [tf_stats] returns [None] then.

    The theorems show that the counts are those of the cells the table
    colours oversold and overbought, that they never overlap, and that
    on the grid of a scan no [TypeError] can occur. *)

From Stdlib Require Import String Arith QArith Lqa Lia List Bool.
From S2P Require Import Prelude Pandas RsiEngine PyNum Classify YahooProvider Screener.
Import ListNotations.

(** ** The code *)

(** [row.get(tf_display_name, np.nan)] *)
Definition row_get (tf : string) (r : row) : value :=
  match dict_get tf r with Some v => v | None => VFloat NaN end.

(** [pd.notna(val)]: only a NaN float is missing. *)
Definition notna (v : value) : bool :=
  match v with VFloat None => false | _ => true end.

(** [sum(1 for x in vals if test(x))], [None] when a string meets the
    comparison. *)
Fixpoint count_if (test : Q -> bool) (vals : list value) : option nat :=
  match vals with
  | [] => Some 0%nat
  | VStr _ :: _ => None
  | VFloat f :: r =>
      match count_if test r with
      | None => None
      | Some n => Some (match f with Some x => if test x then S n else n | None => n end)
      end
  end.

(** The counts of one timeframe: [Some None] is the ["N/A"] branch. *)
Definition tf_stats (results : list row) (tf : string) : option (option (nat * nat * nat)) :=
  let rsi_values_for_tf := map (row_get tf) results in
  let valid_rsi_values := filter notna rsi_values_for_tf in
  match valid_rsi_values with
  | [] => Some None
  | _ =>
      match count_if (fun x => Qle_bool x 20) valid_rsi_values,
            count_if (fun x => Qle_bool 80 x) valid_rsi_values with
      | Some oversold_count, Some overbought_count =>
          Some (Some (oversold_count, overbought_count, (oversold_count + overbought_count)%nat))
      | _, _ => None
      end
  end.

(** [st.metric(label=..., value=..., delta=...)] *)
Record metric := mkMetric { label : string; metric_value : string; delta : string }.

Definition metric_of (tf : string) (s : option (nat * nat * nat)) : metric :=
  match s with
  | Some (os, ob, total) =>
      mkMetric ("Signals " ++ tf) (string_of_nat total)
               ("🔴 " ++ string_of_nat os ++ " | 🟢 " ++ string_of_nat ob)
  | None => mkMetric ("Signals " ++ tf) "N/A" "No data"
  end.

(** The loop over the columns, [None] if a [TypeError] escapes. *)
Fixpoint signal_statistics (results : list row) (tfs : list string) : option (list metric) :=
  match tfs with
  | [] => Some []
  | tf :: r =>
      match tf_stats results tf, signal_statistics results r with
      | Some s, Some ms => Some (metric_of tf s :: ms)
      | _, _ => None
      end
  end.

(** ** The specification: counts of coloured cells *)

Definition float_of (v : value) : pyfloat := match v with VFloat f => f | VStr _ => NaN end.

Definition count_class (cls : string) (vs : list pyfloat) : nat :=
  length (filter (fun v => String.eqb (get_rsi_class v) cls) vs).

(** ** Lemmas *)

Lemma count_if_floats (test : Q -> bool) (fs : list pyfloat) :
  count_if test (map VFloat fs)
  = Some (length (filter (fun v => match v with Some x => test x | None => false end) fs)).
Proof.
  induction fs as [|[x|] r IH]; simpl; [reflexivity| |]; rewrite IH; [|reflexivity].
  now destruct (test x).
Qed.

Definition is_nan (v : pyfloat) : bool := match v with None => true | Some _ => false end.

Lemma filter_notna_floats (fs : list pyfloat) :
  filter notna (map VFloat fs) = map VFloat (filter (fun v => negb (is_nan v)) fs).
Proof. induction fs as [|[x|] r IH]; simpl; congruence. Qed.

(** The two comparisons of the statistics agree with the classes of the
    table, value by value. *)
Lemma oversold_test_class (v : pyfloat) :
  (match v with Some x => Qle_bool x 20 | None => false end)
  = String.eqb (get_rsi_class v) oversold_cell.
Proof.
  destruct v as [x|]; [|reflexivity]. simpl.
  destruct (Qle_bool x 20); [reflexivity|]. now destruct (Qle_bool 80 x).
Qed.

Lemma overbought_test_class (v : pyfloat) :
  (match v with Some x => Qle_bool 80 x | None => false end)
  = String.eqb (get_rsi_class v) overbought_cell.
Proof.
  destruct v as [x|]; [|reflexivity]. simpl.
  qcase (Qle_bool x 20); [|now destruct (Qle_bool 80 x)].
  replace (Qle_bool 80 x) with false by (symmetry; apply Bool.not_true_iff_false; rewrite Qle_bool_iff; lra).
  reflexivity.
Qed.

Lemma count_class_valid (test : Q -> bool) (cls : string) (fs : list pyfloat) :
  (forall v, match v with Some x => test x | None => false end = String.eqb (get_rsi_class v) cls) ->
  String.eqb (get_rsi_class NaN) cls = false ->
  length (filter (fun v => match v with Some x => test x | None => false end)
                 (filter (fun v => negb (is_nan v)) fs)) = count_class cls fs.
Proof.
  intros Ht Hn. unfold count_class. induction fs as [|v r IH]; simpl; [reflexivity|].
  rewrite <- Ht. destruct v as [x|]; simpl; [destruct (test x); simpl; congruence|].
  rewrite <- Ht in Hn. exact IH.
Qed.

Lemma filter_valid_nil (fs : list pyfloat) :
  filter (fun v => negb (is_nan v)) fs = [] <-> forallb is_nan fs = true.
Proof.
  induction fs as [|[x|] r IH]; simpl; [tauto|split; discriminate|exact IH].
Qed.

Lemma tf_stats_eq_counts (results : list row) (tf : string) :
  (forall r, In r results -> exists f, row_get tf r = VFloat f) ->
  tf_stats results tf =
  let vs := map (fun r => float_of (row_get tf r)) results in
  Some (if forallb is_nan vs then None
        else Some (count_class oversold_cell vs, count_class overbought_cell vs,
                   (count_class oversold_cell vs + count_class overbought_cell vs)%nat)).
Proof.
  intros Hf. cbv zeta. unfold tf_stats.
  assert (Hm : map (row_get tf) results = map VFloat (map (fun r => float_of (row_get tf r)) results)).
  { rewrite map_map. apply map_ext_in. intros r Hr. now destruct (Hf r Hr) as [f ->]. }
  rewrite Hm, filter_notna_floats.
  set (vs := map (fun r => float_of (row_get tf r)) results).
  destruct (forallb is_nan vs) eqn:E.
  - apply filter_valid_nil in E. now rewrite E.
  - destruct (filter (fun v => negb (is_nan v)) vs) eqn:Ev.
    + apply filter_valid_nil in Ev. congruence.
    + rewrite <- Ev, !count_if_floats.
      rewrite (count_class_valid _ oversold_cell), (count_class_valid _ overbought_cell);
        auto using oversold_test_class, overbought_test_class.
      now rewrite Ev.
Qed.

(** C14: when every row holds a float for [tf], the statistics of [tf]
    are ["N/A"] exactly when all its values are NaN, and otherwise count
    exactly the cells the table colours oversold and overbought, with
    their sum as the total. *)
Theorem tf_stats_counts (results : list row) (tf : string) :
  (forall r, In r results -> exists f, row_get tf r = VFloat f) ->
  tf_stats results tf =
  let vs := map (fun r => float_of (row_get tf r)) results in
  Some (if forallb is_nan vs then None
        else Some (count_class oversold_cell vs, count_class overbought_cell vs,
                   (count_class oversold_cell vs + count_class overbought_cell vs)%nat)).
Proof. intros; apply tf_stats_eq_counts; assumption. Qed.

(** ** The statistics of a scan's grid *)

Lemma row_get_expected `{YahooFinance} (tfs : list (string * string)) (p d : string) :
  In d (map snd tfs) -> d <> "Devises"%string ->
  exists f, row_get d (expected_row tfs p) = VFloat f.
Proof.
  intros Hin Hd. unfold row_get, expected_row. simpl.
  replace (String.eqb d "Devises") with false by (symmetry; now apply String.eqb_neq).
  induction tfs as [|[k d'] r IH]; simpl in *; [contradiction|].
  destruct (String.eqb d d') eqn:E; [eauto|].
  apply String.eqb_neq in E. destruct Hin as [->|Hin]; [contradiction|auto].
Qed.

Lemma label_metric_of tf s : label (metric_of tf s) = ("Signals " ++ tf)%string.
Proof. now destruct s as [[[? ?] ?]|]. Qed.

Lemma signal_statistics_floats (results : list row) (tfs : list string) :
  (forall tf, In tf tfs -> forall r, In r results -> exists f, row_get tf r = VFloat f) ->
  exists ms, signal_statistics results tfs = Some ms
             /\ map label ms = map (fun tf => "Signals " ++ tf)%string tfs.
Proof.
  induction tfs as [|tf r IH]; intros Hall; simpl; [eauto|].
  rewrite (tf_stats_eq_counts _ tf (Hall tf (or_introl eq_refl))).
  destruct IH as (ms & -> & Hms); [intros x Hx; apply Hall; simpl; auto|].
  eexists. split; [reflexivity|]. simpl. now rewrite Hms, label_metric_of.
Qed.

Section ScanStats.
Context `{YahooFinance}.

(** C15: on the grid of a scan, the statistics of every displayed
    timeframe are computed without a [TypeError]: one metric per
    timeframe, in order, labelled ["Signals <tf>"]. *)
Theorem scan_statistics_defined (pairs keys display : list string) :
  length keys = length display -> NoDup display -> ~ In "Devises"%string display ->
  exists ms, signal_statistics (results (scan pairs keys display)) display = Some ms
             /\ map label ms = map (fun tf => "Signals " ++ tf)%string display.
Proof.
  intros Hl Hnd Hdev. rewrite scan_results_eq by assumption.
  assert (Hall : forall tf, In tf display ->
            forall r, In r (map (expected_row (combine keys display)) pairs) ->
            exists f, row_get tf r = VFloat f).
  { intros tf Htf r Hr. apply in_map_iff in Hr as (p & <- & _).
    apply row_get_expected; [now rewrite map_snd_combine|intros ->; contradiction]. }
  exact (signal_statistics_floats _ _ Hall).
Qed.
End ScanStats.

Lemma scan_statistics_defined_witness :
  exists ms, signal_statistics (results (@scan demo_feed demo_pairs demo_tfs demo_tfs)) demo_tfs = Some ms
             /\ map label ms = map (fun tf => "Signals " ++ tf)%string demo_tfs.
Proof.
  apply scan_statistics_defined; [reflexivity| |]; unfold demo_tfs;
    repeat constructor; simpl; intuition discriminate.
Defined.

Lemma tf_stats_counts_witness :
  tf_stats (results (@scan demo_feed demo_pairs demo_tfs demo_tfs)) "H4" =
  let vs := map (fun r => float_of (row_get "H4" r)) (results (@scan demo_feed demo_pairs demo_tfs demo_tfs)) in
  Some (if forallb is_nan vs then None
        else Some (count_class oversold_cell vs, count_class overbought_cell vs,
                   (count_class oversold_cell vs + count_class overbought_cell vs)%nat)).
Proof.
  apply tf_stats_counts. intros r Hr. vm_compute in Hr.
  repeat destruct Hr as [<-|Hr]; [eexists; reflexivity ..|contradiction].
Defined.
