(* ===== verification/AvData.v ===== *)
(** * AvData.v: the data AlphaVantage sends (src/app.py, lines 48-79)

    [json] is a decoded JSON value, [null] as [None]; [json_load] is
    [response.json()]: every object becomes a Python dict built from its
    members in order, so its keys are distinct.  [truthy] is Python's truth
    value and [py_get] is [dict.get(k)] (missing is [None]), which
    together model [data.get("Error Message") or data.get("Information")
    or data.get("Note")].

    [parse_datetime fmt] parses one index string exactly in one of the
    two formats AlphaVantage uses, ["%Y-%m-%d %H:%M:%S"] and
    ["%Y-%m-%d"], with the calendar checks pandas makes (month, day of
    month with leap years, hour, minute, second); [guess_datetime_format]
    finds the format of a string, as pandas 2 does with the first string
    of the index.  Timestamps compare chronologically, which [dt_key]
    encodes as one integer; [dt_key_inj] shows that distinct valid
    timestamps get distinct keys, and [parse_datetime_inv] that a string
    parsed in a format is the [strftime] text of its timestamp, so one
    format gives one text per instant. *)

From Stdlib Require Import String Ascii Arith ZArith QArith Lia List Bool.
From S2P Require Import Prelude PyNum.
Import ListNotations.
#[local] Open Scope Z_scope.

(** ** JSON values *)

Inductive json :=
| JNull
| JBool (b : bool)
| JNum (q : Q)
| JStr (s : string)
| JArr (items : list json)
| JObj (fields : list (string * json)).

(** Python's [bool(v)]. *)
Definition truthy (v : json) : bool :=
  match v with
  | JNull => false
  | JBool b => b
  | JNum q => negb (Qeq_bool q 0)
  | JStr s => negb (String.eqb s "")
  | JArr l => match l with [] => false | _ => true end
  | JObj f => match f with [] => false | _ => true end
  end.

(** [a or b] *)
Definition py_or (a b : json) : json := if truthy a then a else b.

(** [d.get(k)] *)
Definition py_get (k : string) (d : pydict json) : json :=
  match dict_get k d with Some v => v | None => JNull end.

(** [response.json()]: JSON text decoded into Python values, every
    object a [dict] built from its members in order, so a repeated key
    keeps its first place and its last value. *)
Fixpoint json_load (j : json) : json :=
  match j with
  | JArr items => JArr (map json_load items)
  | JObj fields => JObj (dict_of_pairs (map (fun kv => (fst kv, json_load (snd kv))) fields))
  | _ => j
  end.

(** ** Timestamps *)

Record datetime := mkDatetime {
  year : Z; month : Z; day : Z; hour : Z; minute : Z; second : Z }.

Definition is_leap (y : Z) : bool :=
  (y mod 4 =? 0) && (negb (y mod 100 =? 0) || (y mod 400 =? 0)).

Definition days_in_month (y m : Z) : Z :=
  if (m =? 2) then (if is_leap y then 29 else 28)
  else if (m =? 4) || (m =? 6) || (m =? 9) || (m =? 11) then 30 else 31.

Definition valid_datetime (d : datetime) : bool :=
  (1 <=? month d) && (month d <=? 12) && (1 <=? day d) && (day d <=? days_in_month (year d) (month d))
  && (0 <=? hour d) && (hour d <? 24) && (0 <=? minute d) && (minute d <? 60)
  && (0 <=? second d) && (second d <? 60).

(** Exactly [n] digits. *)
Fixpoint take_fixed (n : nat) (l : list ascii) : option (list nat * list ascii) :=
  match n with
  | O => Some ([], l)
  | S k =>
      match l with
      | c :: r =>
          match digit_value c, take_fixed k r with
          | Some d, Some (ds, rest) => Some (d :: ds, rest)
          | _, _ => None
          end
      | [] => None
      end
  end.

Definition field (n : nat) (l : list ascii) : option (Z * list ascii) :=
  match take_fixed n l with Some (ds, rest) => Some (digits_to_Z ds, rest) | None => None end.

Definition expect (c : ascii) (l : list ascii) : option (list ascii) :=
  match l with c' :: r => if Ascii.eqb c c' then Some r else None | [] => None end.

(** The time part [" %H:%M:%S"]. *)
Definition parse_hms (l : list ascii) : option (Z * Z * Z) :=
  match expect " " l with
  | None => None
  | Some l1 =>
      match field 2 l1 with
      | Some (h, l2) =>
          match expect ":" l2 with
          | Some l3 =>
              match field 2 l3 with
              | Some (mi, l4) =>
                  match expect ":" l4 with
                  | Some l5 =>
                      match field 2 l5 with
                      | Some (s, []) => Some (h, mi, s)
                      | _ => None
                      end
                  | None => None
                  end
              | None => None
              end
          | None => None
          end
      | None => None
      end
  end.

(** The two formats pandas' [guess_datetime_format] finds in
    AlphaVantage's index: ["%Y-%m-%d"] and ["%Y-%m-%d %H:%M:%S"]. *)
Inductive dt_format := FmtDate | FmtDateTime.

(** What follows the date in a format. *)
Definition parse_clock (fmt : dt_format) (l : list ascii) : option (Z * Z * Z) :=
  match fmt with
  | FmtDate => match l with [] => Some (0, 0, 0) | _ => None end
  | FmtDateTime => parse_hms l
  end.

(** One index string parsed exactly in format [fmt] ([array_strptime]
    with [exact=True]); [None] is the [ValueError] it raises. *)
Definition parse_datetime (fmt : dt_format) (s : string) : option datetime :=
  let l := list_ascii_of_string s in
  match field 4 l with
  | Some (y, l1) =>
      match expect "-" l1 with
      | Some l2 =>
          match field 2 l2 with
          | Some (m, l3) =>
              match expect "-" l3 with
              | Some l4 =>
                  match field 2 l4 with
                  | Some (d, l5) =>
                      match parse_clock fmt l5 with
                      | Some (h, mi, sec) =>
                          let dt := mkDatetime y m d h mi sec in
                          if valid_datetime dt then Some dt else None
                      | None => None
                      end
                  | None => None
                  end
              | None => None
              end
          | None => None
          end
      | None => None
      end
  | None => None
  end.

(** [guess_datetime_format] on the first index string. *)
Definition guess_datetime_format (s : string) : option dt_format :=
  match parse_datetime FmtDateTime s with
  | Some _ => Some FmtDateTime
  | None => match parse_datetime FmtDate s with Some _ => Some FmtDate | None => None end
  end.

(** Chronological order as one integer (mixed radix on the fields). *)
Definition dt_key (d : datetime) : Z :=
  (((((year d * 12 + (month d - 1)) * 31 + (day d - 1)) * 24 + hour d) * 60 + minute d) * 60)
  + second d.

Lemma days_in_month_le (y m : Z) : days_in_month y m <= 31.
Proof.
  unfold days_in_month. destruct (m =? 2); [destruct (is_leap y)|destruct (_ || _)%bool]; lia.
Qed.

Lemma valid_datetime_bounds (d : datetime) :
  valid_datetime d = true ->
  1 <= month d <= 12 /\ 1 <= day d <= 31 /\ 0 <= hour d < 24 /\ 0 <= minute d < 60
  /\ 0 <= second d < 60.
Proof.
  unfold valid_datetime. intros H. pose proof (days_in_month_le (year d) (month d)).
  repeat rewrite andb_true_iff in H. rewrite ?Z.leb_le, ?Z.ltb_lt in H. lia.
Qed.

(** Distinct valid timestamps have distinct keys. *)
Lemma dt_key_inj (a b : datetime) :
  valid_datetime a = true -> valid_datetime b = true -> dt_key a = dt_key b -> a = b.
Proof.
  intros Ha Hb Hk. apply valid_datetime_bounds in Ha, Hb. unfold dt_key in Hk.
  destruct a, b; simpl in *.
  assert (second0 = second1) by lia. assert (minute0 = minute1) by lia.
  assert (hour0 = hour1) by lia. assert (day0 = day1) by lia.
  assert (month0 = month1) by lia. assert (year0 = year1) by lia. now subst.
Qed.

(** ** Printing a timestamp back

    [strftime fmt d] is the text of [d] in format [fmt]; every string
    [parse_datetime fmt] accepts is the text of what it returns, so two
    strings of one format that name the same instant are the same
    string. *)

(** [v] in [n] zero-padded decimal digits ([%04d], [%02d]). *)
Fixpoint pad (n : nat) (v : Z) : list ascii :=
  match n with
  | O => []
  | S k => pad k (v / 10) ++ [ascii_of_nat (48 + Z.to_nat (v mod 10))]
  end.

Definition clock_text (fmt : dt_format) (h mi s : Z) : list ascii :=
  match fmt with
  | FmtDate => []
  | FmtDateTime => " "%char :: pad 2 h ++ ":"%char :: pad 2 mi ++ ":"%char :: pad 2 s
  end.

Definition strftime (fmt : dt_format) (d : datetime) : list ascii :=
  pad 4 (year d) ++ "-"%char :: pad 2 (month d) ++ "-"%char :: pad 2 (day d)
  ++ clock_text fmt (hour d) (minute d) (second d).

Lemma digit_value_inv (c : ascii) (d : nat) :
  digit_value c = Some d -> c = ascii_of_nat (48 + d) /\ (d < 10)%nat.
Proof.
  unfold digit_value. destruct (_ && _)%bool eqn:E; [|discriminate]. intros [= <-].
  apply andb_prop in E as [E1 E2]. apply Nat.leb_le in E1, E2. split; [|lia].
  replace (48 + (nat_of_ascii c - 48))%nat with (nat_of_ascii c) by lia.
  symmetry. apply ascii_nat_embedding.
Qed.

Lemma take_fixed_inv (n : nat) (l : list ascii) (ds : list nat) (rest : list ascii) :
  take_fixed n l = Some (ds, rest) ->
  l = map (fun d => ascii_of_nat (48 + d)) ds ++ rest /\ length ds = n /\ Forall (fun d => d < 10)%nat ds.
Proof.
  revert l ds. induction n as [|n IH]; intros l ds H; cbn in H; [injection H as <- <-; auto|].
  destruct l as [|c r]; [discriminate|].
  destruct (digit_value c) as [d|] eqn:Ec; [|discriminate].
  destruct (take_fixed n r) as [[ds' rest']|] eqn:Et; [|discriminate]. injection H as <- <-.
  apply digit_value_inv in Ec as [-> Hd]. destruct (IH _ _ Et) as (-> & <- & Hf). cbn. auto.
Qed.

Lemma digits_to_Z_nonneg (ds : list nat) : 0 <= digits_to_Z ds.
Proof.
  unfold digits_to_Z. cut (forall acc, 0 <= acc -> 0 <= fold_left (fun a d => a * 10 + Z.of_nat d) ds acc);
    [intros H; apply H; lia|].
  induction ds as [|d r IH]; intros acc Hacc; cbn; [exact Hacc|apply IH; lia].
Qed.

Lemma pad_digits (ds : list nat) :
  Forall (fun d => d < 10)%nat ds ->
  map (fun d => ascii_of_nat (48 + d)) ds = pad (length ds) (digits_to_Z ds).
Proof.
  induction ds as [|d ds IH] using rev_ind; intros Hf; [reflexivity|].
  apply Forall_app in Hf as [Hf Hd]. inversion Hd as [|? ? Hd' _]; subst.
  rewrite map_app, length_app, Nat.add_1_r, digits_to_Z_app. cbn [pad length].
  pose proof (digits_to_Z_nonneg ds) as Hn.
  change (digits_to_Z [d]) with (0 * 10 + Z.of_nat d). cbn [Z.of_nat length Z.pow_pos Pos.iter].
  rewrite (IH Hf). f_equal; [f_equal; rewrite Z.div_add_l by lia; rewrite Z.div_small; lia|].
  rewrite Z.add_comm, Z.mod_add, Z.mod_small by lia.
  replace (0 * 10 + Z.of_nat d) with (Z.of_nat d) by lia. now rewrite Nat2Z.id.
Qed.

Lemma field_inv (n : nat) (l : list ascii) (v : Z) (rest : list ascii) :
  field n l = Some (v, rest) -> l = pad n v ++ rest.
Proof.
  unfold field. destruct (take_fixed n l) as [[ds r]|] eqn:E; [|discriminate]. intros [= <- <-].
  destruct (take_fixed_inv _ _ _ _ E) as (-> & <- & Hf). now rewrite pad_digits.
Qed.

Lemma expect_inv (c : ascii) (l r : list ascii) : expect c l = Some r -> l = c :: r.
Proof.
  destruct l as [|c' l]; cbn; [discriminate|].
  destruct (Ascii.eqb c c') eqn:E; [|discriminate]. intros [= <-]. apply Ascii.eqb_eq in E. now subst.
Qed.

(** Peeling the fields and separators of a successful parse. *)
Ltac parse_inv :=
  repeat match goal with
  | H : match field ?n ?l with _ => _ end = Some _ |- _ =>
      let E := fresh "E" in
      destruct (field n l) as [[? ?]|] eqn:E; [apply field_inv in E; subst l|discriminate H]
  | H : match expect ?c ?l with _ => _ end = Some _ |- _ =>
      let E := fresh "E" in
      destruct (expect c l) eqn:E; [apply expect_inv in E; subst l|discriminate H]
  end.

Lemma parse_clock_inv (fmt : dt_format) (l : list ascii) (h mi s : Z) :
  parse_clock fmt l = Some (h, mi, s) -> l = clock_text fmt h mi s.
Proof.
  destruct fmt; cbn.
  - destruct l; [reflexivity|discriminate].
  - unfold parse_hms. intros H. parse_inv.
    match type of H with match ?r with _ => _ end = _ => destruct r; [|discriminate H] end.
    injection H as <- <- <-. now rewrite app_nil_r.
Qed.

(** Every string [parse_datetime fmt] accepts is the text of the valid
    timestamp it returns. *)
Lemma parse_datetime_inv (fmt : dt_format) (s : string) (d : datetime) :
  parse_datetime fmt s = Some d -> list_ascii_of_string s = strftime fmt d /\ valid_datetime d = true.
Proof.
  unfold parse_datetime. remember (list_ascii_of_string s) as l eqn:El. intros H. parse_inv.
  destruct (parse_clock fmt _) as [[[h mi] sec]|] eqn:Ec; [|discriminate H].
  destruct (valid_datetime _) eqn:Ev; [|discriminate H]. injection H as <-.
  apply parse_clock_inv in Ec. subst. split; [|exact Ev].
  unfold strftime. cbn [year month day hour minute second]. assumption.
Qed.

(** Two strings of one format naming one instant are one string. *)
Lemma parse_datetime_inj (fmt : dt_format) (s1 s2 : string) (d : datetime) :
  parse_datetime fmt s1 = Some d -> parse_datetime fmt s2 = Some d -> s1 = s2.
Proof.
  intros H1 H2. apply parse_datetime_inv in H1 as [H1 _], H2 as [H2 _].
  rewrite <- (string_of_list_ascii_of_string s1), <- (string_of_list_ascii_of_string s2). congruence.
Qed.
