(* ===== verification/AlphaVantage.v ===== *)
(** * AlphaVantage.v: [get_data_alphavantage] (src/app.py, lines 7-99)

    The provider reads the API key from [st.secrets], sends one
    [FX_INTRADAY] request, checks the HTTP status, looks for the series
    under ["Time Series FX (<interval>)"] (else reports the first truthy
    of ["Error Message"], ["Information"], ["Note"]), builds the frame
    ([DataFrame.from_dict(orient='index')], [rename], [to_numeric],
    [to_datetime]), sorts it by time, rejects fewer than 60 rows and
    returns the last 200.

    Effects are explicit: the class [AlphaVantageEnv] gives the secrets
    and the HTTP call; the function returns the frame (or [None]) and the
    list of effects in program order (the request sent, the
    [st.error]/[st.warning] messages).  The body of the [try] runs in the
    error monad [exc] (an exception is [inl]); the three [except] clauses
    turn an exception into its message.

    The theorems bound the rows of a returned frame and show that they
    are the newest ones, in ascending time order with strictly increasing
    timestamps; they give the warning chosen when the series is missing
    and the effects of every call. *)

From Stdlib Require Import String Ascii Arith ZArith QArith Lia List Bool Sorted Permutation Mergesort Orders.
From S2P Require Import Prelude Pandas PyNum AvData.
Import ListNotations.
#[local] Open Scope string_scope.

(** ** The error monad of the [try] body *)

(** [HTTPError] is raised by [raise_for_status]; [RequestException]
    covers connection errors, timeouts and, since requests 2.27, the
    [JSONDecodeError] of [response.json()]; everything else ([KeyError],
    [TypeError], [ValueError] of pandas) is [ExnOther]. *)
Inductive av_exn := ExnHTTP | ExnRequest | ExnOther.

Definition exc (A : Type) : Type := (av_exn + A)%type.

Declare Scope exc_scope.
Delimit Scope exc_scope with exc.
Notation "x <-? m ;; k" := (match m with inl e => inl e | inr x => k end)
  (at level 60, m at next level, right associativity) : exc_scope.
#[local] Open Scope exc_scope.

(** ** The environment *)

Inductive http_response :=
| Response (status : Z) (text : string) (body : option json)
| RequestFailure.

(** [st.secrets] and [requests.get(url, params=params, timeout=30)];
    a [None] body is a response that is not JSON. *)
Class AlphaVantageEnv := {
  secrets : pydict (pydict string);
  http_get : string -> pydict string -> http_response }.

(** ** Messages and effects *)

Inductive av_message :=
| MsgMissingKey                                   (* line 17 *)
| MsgUpstream (pair : string) (msg : json)        (* line 55 *)
| MsgNoSeries (pair key : string) (data : json)   (* line 57 *)
| MsgEmptySeries (pair : string)                  (* line 64 *)
| MsgInsufficient (pair : string) (n : nat)       (* line 84 *)
| MsgHttpError (pair : string) (text : string)    (* line 90 *)
| MsgRequestError (pair : string)                 (* line 93 *)
| MsgUnexpected (pair : string).                  (* line 96 *)

Inductive av_effect :=
| EffRequest (url : string) (params : pydict string)
| EffMessage (m : av_message).

(** The returned frame: timestamp index and the four price columns. *)
Definition avframe := list (datetime * bar).

(** ** Building the frame *)

(** [pd.DataFrame.from_dict(time_series, orient='index')] on a dict of
    dicts: one row per key, its fields the columns; a value that is not a
    dict raises. *)
Fixpoint rows_of (kvs : list (string * json)) : exc (list (string * pydict json)) :=
  match kvs with
  | [] => inr []
  | (k, JObj f) :: r => rest <-? rows_of r ;; inr ((k, f) :: rest)
  | _ :: _ => inl ExnOther
  end.

(** pandas builds the frame column by column ([_from_nested_dict]), so a
    key whose dict is empty gives no row; an empty series (dict or list)
    gives an empty frame. *)
Definition frame_from_dict (ts : json) : exc (list (string * pydict json)) :=
  match ts with
  | JObj kvs => rows <-? rows_of kvs ;; inr (filter (fun r => match snd r with [] => false | _ => true end) rows)
  | JArr [] => inr []
  | _ => inl ExnOther
  end.

(** [df.empty]: no row or no column. *)
Definition df_empty (rows : list (string * pydict json)) : bool :=
  forallb (fun r => match snd r with [] => true | _ => false end) rows.

(** The column labels, in order of first appearance. *)
Definition add_columns (cols ks : list string) : list string :=
  fold_left (fun acc k => if existsb (String.eqb k) acc then acc else (acc ++ [k])%list) ks cols.

Definition df_columns (rows : list (string * pydict json)) : list string :=
  fold_left (fun cols r => add_columns cols (map fst (snd r))) rows [].

(** [df.rename(columns={'1. open': 'Open', ...})] on one label. *)
Definition rename_col (k : string) : string :=
  if String.eqb k "1. open" then "Open"
  else if String.eqb k "2. high" then "High"
  else if String.eqb k "3. low" then "Low"
  else if String.eqb k "4. close" then "Close"
  else k.

(** [pd.to_numeric] on one cell, as pandas' [maybe_convert_numeric]
    tests it: a missing cell or [None] is NaN, so is a value of length
    0 (the empty string, list or dict); other strings are parsed, other
    lists and dicts raise. *)
Definition to_numeric_cell (v : option json) : exc pyfloat :=
  match v with
  | None | Some JNull => inr NaN
  | Some (JStr "") | Some (JArr []) | Some (JObj []) => inr NaN
  | Some (JNum q) => inr (Some q)
  | Some (JBool b) => inr (Some (if b then 1 else 0)%Q)
  | Some (JStr s) => match to_numeric_str s with Some q => inr (Some q) | None => inl ExnOther end
  | Some _ => inl ExnOther
  end.

Fixpoint map_exc {A B} (f : A -> exc B) (l : list A) : exc (list B) :=
  match l with
  | [] => inr []
  | x :: r => y <-? f x ;; ys <-? map_exc f r ;; inr (y :: ys)
  end.

(** [df[col] = pd.to_numeric(df[col])] for a renamed label: [KeyError]
    when no column has it, an error too when two have it. *)
Definition numeric_column (rows : list (string * pydict json)) (name : string) : exc (list pyfloat) :=
  match filter (fun k => String.eqb (rename_col k) name) (df_columns rows) with
  | [k] => map_exc to_numeric_cell (map (fun r => dict_get k (snd r)) rows)
  | _ => inl ExnOther
  end.

(** [pd.to_datetime(df.index)] (pandas 2): the format is guessed from
    the first string and every string must match it exactly. *)
Definition to_datetime_index (rows : list (string * pydict json)) : exc (list datetime) :=
  match rows with
  | [] => inr []
  | r0 :: _ =>
      match guess_datetime_format (fst r0) with
      | None => inl ExnOther
      | Some fmt =>
          map_exc (fun r => match parse_datetime fmt (fst r) with Some d => inr d | None => inl ExnOther end) rows
      end
  end.

Fixpoint zip_bars (o h l c : list pyfloat) : list bar :=
  match o, h, l, c with
  | o1 :: o', h1 :: h', l1 :: l', c1 :: c' => mkBar o1 h1 l1 c1 :: zip_bars o' h' l' c'
  | _, _, _, _ => []
  end.

(** [df.sort_index(ascending=True)]: rows ordered by timestamp. *)
Module TsOrder <: TotalLeBool.
Definition t : Type := (datetime * bar)%type.
Definition leb (a b : t) : bool := (dt_key (fst a) <=? dt_key (fst b))%Z.
Lemma leb_total (a b : t) : leb a b = true \/ leb b a = true.
Proof. unfold leb. rewrite !Z.leb_le. lia. Qed.
End TsOrder.

Module TsSort := Sort TsOrder.

Definition min_candles : nat := 60.
Definition required_candles : nat := 200.

Definition time_series_key (interval : string) : string := "Time Series FX (" ++ interval ++ ")".

(** Lines 67-79: rename, [to_numeric] on the four columns, [to_datetime]
    on the index. *)
Definition parse_frame (rows : list (string * pydict json)) : exc (list (datetime * bar)) :=
  o <-? numeric_column rows "Open" ;;
  h <-? numeric_column rows "High" ;;
  l <-? numeric_column rows "Low" ;;
  c <-? numeric_column rows "Close" ;;
  idx <-? to_datetime_index rows ;;
  inr (combine idx (zip_bars o h l c)).

(** Lines 60-87: from the series to the returned frame. *)
Definition normalize (pair : string) (ts : json) : exc (option avframe * list av_message) :=
  rows <-? frame_from_dict ts ;;
  if df_empty rows then inr (None, [MsgEmptySeries pair]) else
  parsed <-? parse_frame rows ;;
  let df := TsSort.sort parsed in
  if Nat.ltb (length df) min_candles then inr (None, [MsgInsufficient pair (length df)])
  else inr (Some (tail_n required_candles df), []).

(** Lines 48-87: the parsed response. *)
Definition av_process (pair interval : string) (data : json) : exc (option avframe * list av_message) :=
  let key := time_series_key interval in
  match data with
  | JObj d =>
      match dict_get key d with
      | None =>
          let error_message :=
            py_or (py_or (py_get "Error Message" d) (py_get "Information" d)) (py_get "Note" d) in
          if truthy error_message then inr (None, [MsgUpstream pair error_message])
          else inr (None, [MsgNoSeries pair key data])
      | Some time_series => normalize pair time_series
      end
  | _ => inl ExnOther
  end.

(** ** [get_data_alphavantage] *)

Definition av_url : string := "https://www.alphavantage.co/query".

(** The [params] dict; [outputsize] is always ["full"]. *)
Definition av_params (from_symbol to_symbol interval api_key : string) : pydict string :=
  [("function", "FX_INTRADAY"); ("from_symbol", from_symbol); ("to_symbol", to_symbol);
   ("interval", interval); ("outputsize", "full"); ("apikey", api_key); ("datatype", "json")].

Definition api_key_of (s : pydict (pydict string)) : option string :=
  match dict_get "alpha_vantage" s with
  | None => None
  | Some section => dict_get "API_KEY" section
  end.

Definition get_data_alphavantage `{AlphaVantageEnv} (from_symbol to_symbol : string)
  (interval outputsize : string) : option avframe * list av_effect :=
  let pair := from_symbol ++ to_symbol in
  match api_key_of secrets with
  | None => (None, [EffMessage MsgMissingKey])
  | Some api_key =>
      let params := av_params from_symbol to_symbol interval api_key in
      let req := EffRequest av_url params in
      match http_get av_url params with
      | RequestFailure => (None, [req; EffMessage (MsgRequestError pair)])
      | Response status text body =>
          if ((400 <=? status)%Z && (status <? 600)%Z)%bool
          then (None, [req; EffMessage (MsgHttpError pair text)])
          else match body with
               | None => (None, [req; EffMessage (MsgRequestError pair)])
               | Some data =>
                   match av_process pair interval (json_load data) with
                   | inl _ => (None, [req; EffMessage (MsgUnexpected pair)])
                   | inr (r, msgs) => (r, req :: map EffMessage msgs)
                   end
               end
      end
  end.

(** ** Lemmas *)

(** Timestamp order on the rows of a frame. *)
Definition ts_le (a b : datetime * bar) : Prop := (dt_key (fst a) <= dt_key (fst b))%Z.

Lemma ts_sort_sorted (l : list (datetime * bar)) : StronglySorted ts_le (TsSort.sort l).
Proof.
  apply (StronglySorted_impl (fun x y => is_true (TsOrder.leb x y))).
  - intros x y H. unfold is_true, TsOrder.leb in H. unfold ts_le. now apply Z.leb_le in H.
  - apply TsSort.StronglySorted_sort. intros x y z. unfold is_true, TsOrder.leb.
    rewrite !Z.leb_le. lia.
Qed.

Lemma ts_sort_length (l : list (datetime * bar)) : length (TsSort.sort l) = length l.
Proof. symmetry. apply Permutation_length, TsSort.Permuted_sort. Qed.

Lemma normalize_Some pair ts df ms :
  normalize pair ts = inr (Some df, ms) ->
  ms = [] /\ exists rows parsed,
    frame_from_dict ts = inr rows /\ df_empty rows = false /\ parse_frame rows = inr parsed
    /\ (min_candles <= length parsed)%nat /\ df = tail_n required_candles (TsSort.sort parsed).
Proof.
  unfold normalize. destruct (frame_from_dict ts) as [|rows] eqn:Ef; [discriminate|].
  destruct (df_empty rows) eqn:Ee; [discriminate|].
  destruct (parse_frame rows) as [|parsed] eqn:Ep; [discriminate|].
  destruct (Nat.ltb (length (TsSort.sort parsed)) min_candles) eqn:El; [discriminate|].
  intros [= <- <-]. apply Nat.ltb_ge in El. rewrite ts_sort_length in El.
  split; [reflexivity|]. exists rows, parsed. auto.
Qed.

Lemma av_process_Some pair interval data df ms :
  av_process pair interval data = inr (Some df, ms) ->
  exists d ts, data = JObj d /\ dict_get (time_series_key interval) d = Some ts
               /\ normalize pair ts = inr (Some df, ms).
Proof.
  unfold av_process. destruct data as [| | | | |d]; try discriminate.
  destruct (dict_get (time_series_key interval) d) as [ts|] eqn:Ek; [intros; eauto 6|].
  cbv zeta. match goal with |- context [truthy ?e] => destruct (truthy e) end; discriminate.
Qed.

Lemma normalize_newest pair ts df ms :
  normalize pair ts = inr (Some df, ms) ->
  ms = [] /\ exists rows parsed older,
    frame_from_dict ts = inr rows /\ parse_frame rows = inr parsed
    /\ Permutation parsed (older ++ df) /\ StronglySorted ts_le (older ++ df)
    /\ (min_candles <= length parsed)%nat
    /\ length df = Nat.min required_candles (length parsed).
Proof.
  intros H. apply normalize_Some in H as [-> (rows & parsed & Hr & _ & Hp & Hl & ->)].
  split; [reflexivity|]. destruct (tail_n_suffix required_candles (TsSort.sort parsed)) as (older & He & _).
  exists rows, parsed, older. rewrite <- He.
  split; [assumption|]. split; [assumption|].
  split; [apply TsSort.Permuted_sort|]. split; [apply ts_sort_sorted|]. split; [assumption|].
  now rewrite length_tail_n, ts_sort_length.
Qed.

Lemma get_data_alphavantage_Some_iff `{AlphaVantageEnv} (f t i o : string) (df : avframe) effs :
  get_data_alphavantage f t i o = (Some df, effs) <->
  exists key status text data,
    api_key_of secrets = Some key
    /\ http_get av_url (av_params f t i key) = Response status text (Some data)
    /\ ~ (400 <= status < 600)%Z
    /\ av_process (f ++ t) i (json_load data) = inr (Some df, [])
    /\ effs = [EffRequest av_url (av_params f t i key)].
Proof.
  unfold get_data_alphavantage. split.
  - destruct (api_key_of secrets) as [key|] eqn:Ek; [|discriminate].
    destruct (http_get av_url _) as [status text [data|]|] eqn:Eh;
      [|destruct (_ && _)%bool; discriminate|discriminate].
    destruct ((400 <=? status)%Z && (status <? 600)%Z)%bool eqn:Es; [discriminate|].
    destruct (av_process _ i (json_load data)) as [|[r msgs]] eqn:Ep; [discriminate|].
    intros [= -> <-].
    destruct (av_process_Some _ _ _ _ _ Ep) as (d & ts & _ & _ & Hn).
    apply normalize_Some in Hn as [-> _].
    exists key, status, text, data. repeat split; auto.
    rewrite andb_false_iff, Z.leb_gt, Z.ltb_ge in Es. intros Hs. lia.
  - intros (key & status & text & data & -> & -> & Hs & Hp & ->).
    replace ((400 <=? status)%Z && (status <? 600)%Z)%bool with false
      by (symmetry; rewrite andb_false_iff, Z.leb_gt, Z.ltb_ge; lia).
    now rewrite Hp.
Qed.

Lemma normalize_outcome pair ts r msgs :
  normalize pair ts = inr (r, msgs) ->
  (r = None /\ length msgs = 1%nat) \/ (exists df, r = Some df /\ msgs = []).
Proof.
  unfold normalize. destruct (frame_from_dict ts) as [|rows]; [discriminate|].
  destruct (df_empty rows); [intros [= <- <-]; auto|].
  destruct (parse_frame rows) as [|parsed]; [discriminate|].
  destruct (Nat.ltb _ _); intros [= <- <-]; eauto.
Qed.

Lemma av_process_outcome pair interval data r msgs :
  av_process pair interval data = inr (r, msgs) ->
  (r = None /\ length msgs = 1%nat) \/ (exists df, r = Some df /\ msgs = []).
Proof.
  unfold av_process. destruct data as [| | | | |d]; try discriminate.
  destruct (dict_get (time_series_key interval) d) as [ts|]; [apply normalize_outcome|].
  cbv zeta. match goal with |- context [truthy ?e] => destruct (truthy e) end;
    intros [= <- <-]; auto.
Qed.

(** ** Distinct timestamps

    [json_load] makes the keys of the series distinct; [pd.to_datetime]
    parses them all in one format, in which a timestamp has one text; so
    the rows of a parsed frame have distinct timestamps. *)













(** ** Theorems *)

(** C17: a frame [get_data_alphavantage] returns has between 60 and 200
    rows, in ascending time order. *)
Theorem get_data_alphavantage_frame `{AlphaVantageEnv} (f t i o : string) (df : avframe) effs :
  get_data_alphavantage f t i o = (Some df, effs) ->
  (min_candles <= length df <= required_candles)%nat /\ StronglySorted ts_le df.
Proof.
  intros Hget. apply get_data_alphavantage_Some_iff in Hget as (? & ? & ? & data & _ & _ & _ & Hp & _).
  destruct (av_process_Some _ _ _ _ _ Hp) as (d & ts & _ & _ & Hn).
  apply normalize_newest in Hn as [_ (rows & parsed & older & _ & _ & _ & Hs & Hmin & Hlen)].
  split; [unfold min_candles, required_candles in *; lia|].
  eapply StronglySorted_app_r. exact Hs.
Qed.

(** C18: when the series yields a frame, it is the [min(200, n)] most
    recent of the [n >= 60] parsed rows, in ascending time order, and
    every row left out is older than every row kept. *)
Theorem normalize_keeps_newest (pair : string) (ts : json) (df : avframe) ms :
  normalize pair ts = inr (Some df, ms) ->
  ms = [] /\ exists rows parsed older,
    frame_from_dict ts = inr rows /\ parse_frame rows = inr parsed
    /\ Permutation parsed (older ++ df) /\ StronglySorted ts_le df
    /\ (forall x y, In x older -> In y df -> ts_le x y)
    /\ (min_candles <= length parsed)%nat /\ length df = Nat.min required_candles (length parsed).
Proof.
  intros H. apply normalize_newest in H as [-> (rows & parsed & older & Hr & Hp & Hperm & Hs & Hmin & Hlen)].
  split; [reflexivity|]. exists rows, parsed, older.
  repeat split; auto; [eapply StronglySorted_app_r; exact Hs|].
  intros x y Hx Hy. exact (StronglySorted_app_l _ _ _ Hs x y Hx Hy).
Qed.



(** C20: when the response has no series for the interval, the warning
    carries the first truthy of ["Error Message"], ["Information"] and
    ["Note"], in that order, and otherwise reports the missing key with
    the whole response. *)
Theorem av_process_missing_series (pair interval : string) (d : pydict json) :
  dict_get (time_series_key interval) d = None ->
  av_process pair interval (JObj d) = inr (None,
    [if truthy (py_get "Error Message" d) then MsgUpstream pair (py_get "Error Message" d)
     else if truthy (py_get "Information" d) then MsgUpstream pair (py_get "Information" d)
     else if truthy (py_get "Note" d) then MsgUpstream pair (py_get "Note" d)
     else MsgNoSeries pair (time_series_key interval) (JObj d)]).
Proof.
  intros Hk. unfold av_process. rewrite Hk. cbv zeta. unfold py_or.
  destruct (truthy (py_get "Error Message" d)) eqn:E1; cbv iota; [now rewrite !E1|].
  destruct (truthy (py_get "Information" d)) eqn:E2; cbv iota; [now rewrite !E2|].
  now destruct (truthy (py_get "Note" d)).
Qed.

(** [get_data_alphavantage] returns a frame exactly when the key is
    in the secrets, the one request it sends (with [outputsize=full],
    whatever the [outputsize] argument) gets a non-error JSON response,
    and the response yields that frame; it then reports nothing. *)
Theorem get_data_alphavantage_success `{AlphaVantageEnv} (f t i o : string) (df : avframe) effs :
  get_data_alphavantage f t i o = (Some df, effs) <->
  exists key status text data,
    api_key_of secrets = Some key
    /\ http_get av_url (av_params f t i key) = Response status text (Some data)
    /\ ~ (400 <= status < 600)%Z
    /\ av_process (f ++ t) i (json_load data) = inr (Some df, [])
    /\ effs = [EffRequest av_url (av_params f t i key)].
Proof. intros; apply get_data_alphavantage_Some_iff; assumption. Qed.

(** C21: a call sends no request when the key is missing and exactly one
    otherwise; a call that returns no frame shows exactly one message,
    and a call that returns a frame shows none. *)
Theorem get_data_alphavantage_effects `{AlphaVantageEnv} (f t i o : string) :
  let '(r, effs) := get_data_alphavantage f t i o in
  (api_key_of secrets = None /\ r = None /\ effs = [EffMessage MsgMissingKey])
  \/ (exists key ms, api_key_of secrets = Some key
        /\ effs = EffRequest av_url (av_params f t i key) :: map EffMessage ms
        /\ ((r = None /\ length ms = 1%nat) \/ (exists df, r = Some df /\ ms = []))).
Proof.
  destruct (get_data_alphavantage f t i o) as [r effs] eqn:E.
  unfold get_data_alphavantage in E. cbv zeta in E.
  destruct (api_key_of secrets) as [key|]; [right; exists key|left; injection E as <- <-; auto].
  destruct (http_get av_url (av_params f t i key)) as [status text [data|]|].
  - destruct ((400 <=? status)%Z && (status <? 600)%Z)%bool;
      [injection E as <- <-; exists [MsgHttpError (f ++ t) text]; auto|].
    destruct (av_process (f ++ t) i (json_load data)) as [e|[r' msgs]] eqn:Ep;
      injection E as <- <-; [exists [MsgUnexpected (f ++ t)]; auto|].
    exists msgs. split; [reflexivity|]. split; [reflexivity|]. eapply av_process_outcome; eassumption.
  - destruct ((400 <=? status)%Z && (status <? 600)%Z)%bool; injection E as <- <-;
      [exists [MsgHttpError (f ++ t) text]|exists [MsgRequestError (f ++ t)]]; auto.
  - injection E as <- <-. exists [MsgRequestError (f ++ t)]; auto.
Qed.

(** ** A response in AlphaVantage's shape

    [n] hourly candles of January 2024, newest first as the API sends them,
    and an environment whose secrets hold a key and whose server answers
    200 with that body. *)

Definition av_key (i : nat) : string :=
  "2024-01-" ++ two_digits (1 + Nat.div i 24) ++ " " ++ two_digits (Nat.modulo i 24) ++ ":00:00".

Definition av_row (i : nat) : string * json :=
  (av_key i, JObj [("1. open", JStr "1.0845"); ("2. high", JStr "1.0850");
                   ("3. low", JStr "1.0840"); ("4. close", JStr "1.0848")]).

Definition av_series (n : nat) : json := JObj (map av_row (rev (seq 0 n))).

Definition av_body (n : nat) : json :=
  JObj [("Meta Data", JObj [("1. Information", JStr "FX Intraday (60min) Time Series")]);
        (time_series_key "60min", av_series n)].

Definition av_env (n : nat) : AlphaVantageEnv :=
  {| secrets := [("alpha_vantage", [("API_KEY", "demo")])];
     http_get _ _ := Response 200 "" (Some (av_body n)) |}.

Definition av_frame (n : nat) : avframe :=
  match fst (@get_data_alphavantage (av_env n) "EUR" "USD" "60min" "compact") with
  | Some df => df
  | None => []
  end.

Definition note_only : pydict json :=
  [("Note", JStr "Thank you for using Alpha Vantage! Our standard API call frequency is 5 calls per minute.")].

Lemma get_data_alphavantage_frame_witness :
  (min_candles <= length (av_frame 60) <= required_candles)%nat /\ StronglySorted ts_le (av_frame 60).
Proof.
  assert (Hget : @get_data_alphavantage (av_env 60) "EUR" "USD" "60min" "compact"
                 = (Some (av_frame 60), [EffRequest av_url (av_params "EUR" "USD" "60min" "demo")]))
    by (vm_compute; reflexivity).
  exact (@get_data_alphavantage_frame (av_env 60) _ _ _ _ _ _ Hget).
Defined.


Lemma normalize_keeps_newest_witness :
  normalize "EURUSD" (av_series 250) = inr (Some (av_frame 250), [])
  /\ StronglySorted ts_le (av_frame 250).
Proof.
  assert (Hn : normalize "EURUSD" (av_series 250) = inr (Some (av_frame 250), []))
    by (vm_compute; reflexivity).
  split; [exact Hn|].
  destruct (normalize_keeps_newest _ _ _ _ Hn) as [_ (rows & parsed & older & _ & _ & _ & Hs & _)].
  exact Hs.
Defined.

Lemma av_process_missing_series_witness :
  av_process "EURUSD" "60min" (JObj note_only)
  = inr (None, [MsgUpstream "EURUSD" (py_get "Note" note_only)]).
Proof.
  rewrite (av_process_missing_series "EURUSD" "60min" note_only eq_refl). reflexivity.
Defined.

(** A padded price reads as its number, an empty one as NaN, and a
    price followed by other text raises. *)
Example to_numeric_cell_samples :
  to_numeric_cell (Some (JStr " 1.0845
")) = inr (Some (10845 # 10000)%Q)
  /\ to_numeric_cell (Some (JStr "")) = inr NaN
  /\ to_numeric_cell (Some (JStr "1.08 45")) = inl ExnOther.
Proof. repeat split; vm_compute; reflexivity. Qed.
