(* ===== verification/Render.v ===== *)
(** * Render.v: the HTML result table (src/apprsi.py, lines 171-191)

    After the scan, the page builds one HTML string: a header row with
    ["Devises"] and the displayed timeframes, then one [<tr>] per result
    row: the pair label ([str(row.get("Devises", ...)).strip()], with a
    fallback when it is missing or blank) and one cell per timeframe whose
    class is [get_rsi_class] and whose text is [format_rsi] of
    [row.get(tf, np.nan)].  The string is built by appending, as the code
    does, and a string in a timeframe column makes [get_rsi_class] raise
    [TypeError] ([None] here).  Python's [str] of a float is the section
    variable [str_float]: the theorems hold whatever it prints.

    The theorems give the table of a scan (every cell shows the RSI of its
    own fetch, in its column, with its class), the exact condition under
    which rendering raises, and that a pair label is never empty and never
    starts or ends with white space. *)

From Stdlib Require Import String Ascii Arith QArith Lia List Bool DecimalString.
From S2P Require Import Prelude Pandas RsiEngine PyNum Classify YahooProvider Screener Stats.
Import ListNotations.
#[local] Open Scope string_scope.

(** ** [str.strip] on byte strings *)

(** [str.isspace] on one character: tab to carriage return, the four
    separators 28-31, and space. *)
Definition is_space (c : ascii) : bool :=
  let n := nat_of_ascii c in ((9 <=? n) && (n <=? 13))%nat || ((28 <=? n) && (n <=? 32))%nat.

Fixpoint drop_space (l : list ascii) : list ascii :=
  match l with
  | c :: r => if is_space c then drop_space r else l
  | [] => []
  end.

(** [s.strip()] *)
Definition strip (s : string) : string :=
  string_of_list_ascii (rev (drop_space (rev (drop_space (list_ascii_of_string s))))).

(** ** The table *)

(** The double quote of the HTML attributes. *)
Definition dq : string := String (ascii_of_nat 34) EmptyString.

(** [f'<td class="{css_class}">{formatted_val}</td>'] *)
Definition td (css_class formatted_val : string) : string :=
  "<td class=" ++ dq ++ css_class ++ dq ++ ">" ++ formatted_val ++ "</td>".

(** [f'<tr><td class="devises-cell">{devises_text}</td>'] *)
Definition devises_td (devises_text : string) : string :=
  "<tr><td class=" ++ dq ++ "devises-cell" ++ dq ++ ">" ++ devises_text ++ "</td>".

Section Render.
Variable str_float : pyfloat -> string.

(** [str(v)] *)
Definition py_str (v : value) : string :=
  match v with VStr s => s | VFloat f => str_float f end.

(** Lines 178-180. *)
Definition devises_text (row_idx : nat) (row : row) : string :=
  let v := match dict_get "Devises" row with
           | Some v => v
           | None => VStr ("DEVISE_MANQUANTE_LIGNE_" ++ string_of_nat row_idx)
           end in
  let t := strip (py_str v) in
  if String.eqb t "" then "DEVISE_VIDE_LIGNE_" ++ string_of_nat row_idx else t.

(** Lines 185-188, one cell: [get_rsi_class] of a string raises. *)
Definition render_cell (html : string) (row : row) (tf_display_name : string) : option string :=
  match row_get tf_display_name row with
  | VStr _ => None
  | VFloat rsi_val => Some (html ++ td (get_rsi_class rsi_val) (format_rsi rsi_val))
  end.

Fixpoint render_cells (row : row) (tfs : list string) (html : string) : option string :=
  match tfs with
  | [] => Some html
  | tf :: r =>
      match render_cell html row tf with
      | Some h => render_cells row r h
      | None => None
      end
  end.

(** Lines 178-189, one row. *)
Definition render_row (tfs : list string) (html : string) (ir : nat * row) : option string :=
  let '(row_idx, row) := ir in
  let html := html ++ devises_td (devises_text row_idx row) in
  match render_cells row tfs html with
  | Some h => Some (h ++ "</tr>")
  | None => None
  end.

Fixpoint render_rows (tfs : list string) (irs : list (nat * row)) (html : string) : option string :=
  match irs with
  | [] => Some html
  | ir :: r =>
      match render_row tfs html ir with
      | Some h => render_rows tfs r h
      | None => None
      end
  end.

(** Lines 172-190. *)
Definition render_table (results : list row) (tfs : list string) : option string :=
  let html := "<table class=" ++ dq ++ "rsi-table" ++ dq ++ ">" in
  let html := html ++ "<thead><tr><th>Devises</th>" in
  let html := fold_left (fun h tf => h ++ "<th>" ++ tf ++ "</th>") tfs html in
  let html := html ++ "</tr></thead><tbody>" in
  match render_rows tfs (enumerate results) html with
  | Some h => Some (h ++ "</tbody></table>")
  | None => None
  end.

End Render.

(** ** The specification of the table *)

(** [''.join(l)] *)
Definition cat (l : list string) : string := fold_right String.append "" l.

Definition table_head (tfs : list string) : string :=
  "<table class=" ++ dq ++ "rsi-table" ++ dq ++ ">" ++ "<thead><tr><th>Devises</th>"
  ++ cat (map (fun tf => "<th>" ++ tf ++ "</th>") tfs) ++ "</tr></thead><tbody>".

(** The cells of a row whose value under [tf] is [g tf]. *)
Definition cells_of (g : string -> pyfloat) (tfs : list string) : string :=
  cat (map (fun tf => td (get_rsi_class (g tf)) (format_rsi (g tf))) tfs).

(** ** Lemmas on [strip] *)

(** No white space at the front. *)
Definition lead_ok (l : list ascii) : bool :=
  match l with c :: _ => negb (is_space c) | [] => true end.

Lemma drop_space_lead (l : list ascii) : lead_ok (drop_space l) = true.
Proof.
  induction l as [|c r IH]; simpl; [reflexivity|].
  destruct (is_space c) eqn:E; simpl; [assumption|]. now rewrite E.
Qed.

Lemma drop_space_id (l : list ascii) : lead_ok l = true -> drop_space l = l.
Proof. destruct l as [|c r]; simpl; [reflexivity|]. now destruct (is_space c). Qed.

Lemma drop_space_suffix (l : list ascii) : exists pre, l = (pre ++ drop_space l)%list.
Proof.
  induction l as [|c r [pre IH]]; simpl; [exists []; reflexivity|].
  destruct (is_space c); [exists (c :: pre); simpl; congruence|exists []; reflexivity].
Qed.

Lemma lead_ok_app (a b : list ascii) : lead_ok (a ++ b)%list = true -> lead_ok a = true.
Proof. now destruct a. Qed.

Lemma strip_list (s : string) :
  list_ascii_of_string (strip s) = rev (drop_space (rev (drop_space (list_ascii_of_string s)))).
Proof. unfold strip. apply list_ascii_of_string_of_list_ascii. Qed.

(** A stripped string starts and ends with a non-space. *)
Lemma strip_ends (s : string) :
  lead_ok (list_ascii_of_string (strip s)) = true
  /\ lead_ok (rev (list_ascii_of_string (strip s))) = true.
Proof.
  rewrite strip_list, rev_involutive. split; [|apply drop_space_lead].
  set (m := drop_space (list_ascii_of_string s)).
  destruct (drop_space_suffix (rev m)) as [pre Hpre].
  apply (lead_ok_app _ (rev pre)). rewrite <- rev_app_distr, <- Hpre, rev_involutive.
  apply drop_space_lead.
Qed.

Lemma strip_id (s : string) :
  lead_ok (list_ascii_of_string s) = true -> lead_ok (rev (list_ascii_of_string s)) = true ->
  strip s = s.
Proof.
  intros H1 H2. unfold strip. rewrite (drop_space_id _ H1), (drop_space_id _ H2), rev_involutive.
  apply string_of_list_ascii_of_string.
Qed.

Lemma strip_idem (s : string) : strip (strip s) = strip s.
Proof. destruct (strip_ends s). now apply strip_id. Qed.

(** ** Lemmas on the table *)

Lemma fold_append_cat {A} (f : A -> string) (l : list A) (h : string) :
  fold_left (fun acc x => acc ++ f x) l h = h ++ cat (map f l).
Proof.
  revert h. induction l as [|x r IH]; intros h; simpl; [now rewrite string_app_nil_r|].
  now rewrite IH, string_app_assoc.
Qed.

Lemma render_cells_floats (r : row) (g : string -> pyfloat) (tfs : list string) (html : string) :
  (forall tf, In tf tfs -> row_get tf r = VFloat (g tf)) ->
  render_cells r tfs html = Some (html ++ cells_of g tfs).
Proof.
  unfold cells_of. revert html. induction tfs as [|tf rest IH]; intros html Hg; simpl.
  - now rewrite string_app_nil_r.
  - unfold render_cell. rewrite (Hg tf (or_introl eq_refl)), IH by (intros; apply Hg; simpl; auto).
    now rewrite string_app_assoc.
Qed.

Lemma render_cells_None_iff (r : row) (tfs : list string) (html : string) :
  render_cells r tfs html = None <-> exists tf s, In tf tfs /\ row_get tf r = VStr s.
Proof.
  revert html. induction tfs as [|tf rest IH]; intros html; simpl.
  - split; [discriminate|intros (? & ? & [] & _)].
  - unfold render_cell. destruct (row_get tf r) as [s|f] eqn:E.
    + split; [intros _; eauto|reflexivity].
    + rewrite IH. split; intros (tf' & s & Hin & Hs); [eauto|].
      destruct Hin as [<-|Hin]; [congruence|eauto].
Qed.

Lemma render_row_None_iff str_float (tfs : list string) (html : string) (ir : nat * row) :
  render_row str_float tfs html ir = None <-> exists tf s, In tf tfs /\ row_get tf (snd ir) = VStr s.
Proof.
  destruct ir as [i r]. unfold render_row. cbn [snd].
  rewrite <- (render_cells_None_iff r tfs (html ++ devises_td (devises_text str_float i r))).
  now destruct (render_cells r tfs _).
Qed.

Lemma render_rows_None_iff str_float (tfs : list string) (irs : list (nat * row)) (html : string) :
  render_rows str_float tfs irs html = None
  <-> exists ir tf s, In ir irs /\ In tf tfs /\ row_get tf (snd ir) = VStr s.
Proof.
  revert html. induction irs as [|ir rest IH]; intros html; simpl.
  - split; [discriminate|intros (? & ? & ? & [] & _)].
  - destruct (render_row str_float tfs html ir) as [h|] eqn:E.
    + rewrite IH. split; intros (ir' & tf & s & Hin & Htf & Hs); [eauto 7|].
      destruct Hin as [<-|Hin]; [|eauto 7].
      assert (render_row str_float tfs html ir = None) by (apply render_row_None_iff; eauto).
      congruence.
    + apply render_row_None_iff in E as (tf & s & Htf & Hs). split; [intros _; eauto 7|reflexivity].
Qed.

Lemma render_table_None_iff str_float (results : list row) (tfs : list string) :
  render_table str_float results tfs = None
  <-> exists r tf s, In r results /\ In tf tfs /\ row_get tf r = VStr s.
Proof.
  unfold render_table. cbv zeta.
  match goal with |- context [render_rows ?f ?t ?irs ?h] =>
    transitivity (render_rows f t irs h = None); [now destruct (render_rows f t irs h)|] end.
  rewrite render_rows_None_iff.
  split; intros (x & tf & s & Hx & Htf & Hs).
  - exists (snd x), tf, s. split; [|auto]. rewrite <- (map_snd_enumerate results). now apply in_map.
  - rewrite <- (map_snd_enumerate results) in Hx. apply in_map_iff in Hx as (ir & <- & Hir). eauto 7.
Qed.

(** A pair label that needs no stripping. *)
Definition clean_label (p : string) : Prop := strip p = p /\ p <> "".

Lemma devises_text_clean str_float (i : nat) (r : row) (p : string) :
  dict_get "Devises" r = Some (VStr p) -> clean_label p -> devises_text str_float i r = p.
Proof.
  intros Hd [Hs Hne]. unfold devises_text. rewrite Hd. cbn [py_str]. rewrite Hs.
  destruct (String.eqb p "") eqn:E; [now apply String.eqb_eq in E|reflexivity].
Qed.

Section ScanTable.
Context `{YahooFinance}.
Variable str_float : pyfloat -> string.

(** The cell of pair [p] for fetch key [k]. *)
Definition rsi_cell (p k : string) : string :=
  let v := calculate_rsi (fetch_forex_data p k) 10 in td (get_rsi_class v) (format_rsi v).

(** The [<tr>] of pair [p]. *)
Definition scan_row_html (tfs : list (string * string)) (p : string) : string :=
  devises_td p ++ cat (map (fun '(k, _) => rsi_cell p k) tfs) ++ "</tr>".

Lemma expected_row_get (tfs : list (string * string)) (p k d : string) :
  NoDup (map snd tfs) -> ~ In "Devises" (map snd tfs) -> In (k, d) tfs ->
  row_get d (expected_row tfs p) = VFloat (calculate_rsi (fetch_forex_data p k) 10).
Proof.
  intros Hnd Hdev Hin. unfold row_get. rewrite (dict_get_In_NoDup _ (VFloat (calculate_rsi (fetch_forex_data p k) 10))).
  - reflexivity.
  - unfold expected_row. cbn [map fst]. rewrite map_map.
    replace (map (fun x => fst (let '(k0, d0) := x in (d0, _))) tfs) with (map snd tfs)
      by (apply map_ext; now intros [? ?]).
    now constructor.
  - right. apply (in_map (fun '(k0, d0) => (d0, VFloat (calculate_rsi (fetch_forex_data p k0) 10))) _ _ Hin).
Qed.

Lemma render_row_expected (tfs : list (string * string)) (i : nat) (p html : string) :
  NoDup (map snd tfs) -> ~ In "Devises" (map snd tfs) -> clean_label p ->
  render_row str_float (map snd tfs) html (i, expected_row tfs p) = Some (html ++ scan_row_html tfs p).
Proof.
  intros Hnd Hdev Hp. unfold render_row.
  rewrite (devises_text_clean _ _ _ p) by (assumption || reflexivity).
  rewrite (render_cells_floats _ (fun d => float_of (row_get d (expected_row tfs p)))).
  - unfold cells_of, scan_row_html. rewrite map_map, !string_app_assoc.
    erewrite map_ext_in; [reflexivity|].
    intros [k d] Hin. unfold rsi_cell. cbn [snd]. now rewrite (expected_row_get tfs p k d).
  - intros d Hd. apply in_map_iff in Hd as ([k d'] & <- & Hin).
    cbn [snd]. now rewrite (expected_row_get tfs p k d').
Qed.

Lemma render_rows_expected (tfs : list (string * string)) (pairs : list string) (n : nat) (html : string) :
  NoDup (map snd tfs) -> ~ In "Devises" (map snd tfs) -> Forall clean_label pairs ->
  render_rows str_float (map snd tfs) (combine (seq n (length pairs)) (map (expected_row tfs) pairs)) html
  = Some (html ++ cat (map (scan_row_html tfs) pairs)).
Proof.
  intros Hnd Hdev Hp. revert n html.
  induction Hp as [|p ps Hp Hps IH]; intros n html; cbn [length seq map combine render_rows cat].
  - now rewrite string_app_nil_r.
  - rewrite render_row_expected, IH by assumption. now rewrite string_app_assoc.
Qed.

Lemma render_scan_table_eq (pairs keys display : list string) :
  length keys = length display -> NoDup display -> ~ In "Devises" display -> Forall clean_label pairs ->
  render_table str_float (results (scan pairs keys display)) display
  = Some (table_head display ++ cat (map (scan_row_html (combine keys display)) pairs) ++ "</tbody></table>").
Proof.
  intros Hl Hnd Hdev Hp. rewrite scan_results_eq by assumption.
  unfold render_table, enumerate. cbv zeta. rewrite fold_append_cat, length_map.
  pose proof (map_snd_combine keys display Hl) as Hs.
  rewrite <- Hs at 1. rewrite render_rows_expected by (rewrite ?Hs; assumption).
  unfold table_head. now rewrite !string_app_assoc.
Qed.

End ScanTable.

(** ** Pair labels *)

Lemma string_of_uint_no_space (d : Decimal.uint) :
  forallb (fun c => negb (is_space c)) (list_ascii_of_string (NilEmpty.string_of_uint d)) = true.
Proof. induction d; cbn; auto. Qed.

(** A string that ends in a non-empty run of non-spaces ends in a
    non-space. *)
Lemma lead_ok_rev_app (l1 l2 : list ascii) :
  l2 <> [] -> forallb (fun c => negb (is_space c)) l2 = true -> lead_ok (rev (l1 ++ l2)%list) = true.
Proof.
  intros Hne Hall. rewrite rev_app_distr. destruct (rev l2) as [|c r] eqn:E.
  - apply (f_equal (@rev _)) in E. rewrite rev_involutive in E. contradiction.
  - cbn. rewrite forallb_forall in Hall. apply Hall, in_rev. rewrite E. now left.
Qed.

Lemma fallback_label_clean (prefix : string) (n : nat) :
  lead_ok (list_ascii_of_string prefix) = true -> prefix <> "" -> clean_label (prefix ++ string_of_nat n).
Proof.
  intros Hl Hne. split; [|destruct prefix; [contradiction|discriminate]].
  apply strip_id; rewrite list_ascii_app.
  - destruct prefix; [contradiction|exact Hl].
  - apply lead_ok_rev_app; [|apply string_of_uint_no_space].
    unfold string_of_nat. pose proof (to_uint_not_nil n). destruct (Nat.to_uint n); easy.
Qed.

Lemma devises_text_clean_label str_float (i : nat) (r : row) : clean_label (devises_text str_float i r).
Proof.
  unfold devises_text. cbv zeta.
  match goal with |- context [String.eqb (strip ?t) ""] => destruct (String.eqb (strip t) "") eqn:E end.
  - apply fallback_label_clean; [reflexivity|discriminate].
  - split; [apply strip_idem|now apply String.eqb_neq].
Qed.

(** ** Theorems *)

Section RenderTheorems.
Context `{YahooFinance}.
Variable str_float : pyfloat -> string.

(** C22: the HTML table of a scan is the header row, then for each pair
    in the configured order its label and, for each timeframe in the
    configured order, a cell whose class is [get_rsi_class] and whose
    text is [format_rsi] of the RSI of that pair's own fetch. *)
Theorem render_scan_table (pairs keys display : list string) :
  length keys = length display -> NoDup display -> ~ In "Devises" display -> Forall clean_label pairs ->
  render_table str_float (results (scan pairs keys display)) display
  = Some (table_head display ++ cat (map (scan_row_html (combine keys display)) pairs) ++ "</tbody></table>").
Proof. intros; apply render_scan_table_eq; assumption. Qed.

(** C23: rendering raises ([get_rsi_class] compares a string with 20)
    exactly when some row holds a string under a displayed timeframe. *)
Theorem render_table_raises (results : list row) (tfs : list string) :
  render_table str_float results tfs = None
  <-> exists r tf s, In r results /\ In tf tfs /\ row_get tf r = VStr s.
Proof. apply render_table_None_iff. Qed.

(** C24: the label of every row is non-empty and has no white space
    at either end: a missing ['Devises'] or a blank one falls back to
    ["DEVISE_MANQUANTE_LIGNE_<i>"] or ["DEVISE_VIDE_LIGNE_<i>"]. *)
Theorem devises_label_clean (i : nat) (r : row) :
  devises_text str_float i r <> "" /\ strip (devises_text str_float i r) = devises_text str_float i r.
Proof. destruct (devises_text_clean_label str_float i r) as [Hs Hne]. now split. Qed.

End RenderTheorems.

Lemma render_scan_table_witness :
  render_table (fun _ => "nan") (results (@scan demo_feed demo_pairs demo_tfs demo_tfs)) demo_tfs
  = Some (table_head demo_tfs
          ++ cat (map (@scan_row_html demo_feed (combine demo_tfs demo_tfs)) demo_pairs)
          ++ "</tbody></table>").
Proof.
  apply (@render_scan_table demo_feed); [reflexivity| | |]; unfold demo_tfs, demo_pairs.
  - repeat constructor; simpl; intuition discriminate.
  - simpl; intuition discriminate.
  - repeat constructor; try discriminate; vm_compute; reflexivity.
Defined.
