(* ===== verification/Stylesheet.v ===== *)
(** * Stylesheet.v: the page's stylesheet (src/apprsi.py, lines 17-96)

    The page opens with one [st.markdown] of a [<style>] element.
    [css_text] is that literal, byte for byte (French comments
    included).  To say what it styles, the stylesheet is read the way a
    browser reads it: comments removed, then a sequence of rules
    [selector { property: value; ... }] ([css_rules]); the classes a rule
    applies to are the [.name] parts of its selector.  [html_classes]
    reads the [class="..."] attributes of an HTML string.

    The lemmas give the laws by which the classes of a concatenation
    compose ([html_classes_app], [classes_law]): a fixed fragment whose
    attributes close inside it contributes its own classes, and a text
    without [=] contributes none; Page.v uses them to read the classes
    of everything the page shows. *)

From Stdlib Require Import String Ascii Arith List Bool.
From S2P Require Import Prelude PyNum Classify Render.
Import ListNotations.
#[local] Open Scope string_scope.

(** A line break. *)
Definition nl : string := String (ascii_of_nat 10) EmptyString.

(** Lines 18-96: the text of the [<style>] markdown. *)
Definition css_text : string :=
  nl
  ++ "<style>" ++ nl
  ++ "    .main > div { padding-top: 2rem; }" ++ nl
  ++ "    /* Thème sombre de Streamlit semble avoir un fond ~#0E1117 */" ++ nl
  ++ "    /* Et un texte principal ~#FAFAFA (blanc cassé) */" ++ nl
  ++ "" ++ nl
  ++ "    .screener-header { " ++ nl
  ++ "        font-size: 24px; " ++ nl
  ++ "        font-weight: bold; " ++ nl
  ++ "        color: #FAFAFA; /* Texte blanc cassé pour le titre principal */" ++ nl
  ++ "        margin-bottom: 10px; " ++ nl
  ++ "    }" ++ nl
  ++ "    .update-info { " ++ nl
  ++ "        background-color: #262730; /* Fond un peu plus clair que le fond principal */" ++ nl
  ++ "        padding: 8px 15px; " ++ nl
  ++ "        border-radius: 5px; " ++ nl
  ++ "        margin-bottom: 15px; " ++ nl
  ++ "        font-size: 14px; " ++ nl
  ++ "        color: #A5A7AB; /* Texte gris clair pour l'info de màj */" ++ nl
  ++ "    }" ++ nl
  ++ "    .legend-container { " ++ nl
  ++ "        display: flex; " ++ nl
  ++ "        justify-content: center; " ++ nl
  ++ "        gap: 40px; " ++ nl
  ++ "        margin: 20px 0; " ++ nl
  ++ "        padding: 10px; " ++ nl
  ++ "        color: #FAFAFA; /* Texte de la légende en blanc cassé */" ++ nl
  ++ "    }" ++ nl
  ++ "    .legend-item { display: flex; align-items: center; gap: 8px; font-size: 14px; }" ++ nl
  ++ "    .legend-dot { width: 12px; height: 12px; border-radius: 50%; }" ++ nl
  ++ "    .oversold-dot { background-color: #dc3545; }" ++ nl
  ++ "    .overbought-dot { background-color: #28a745; }" ++ nl
  ++ "" ++ nl
  ++ "    .rsi-table { " ++ nl
  ++ "        width: 100%; " ++ nl
  ++ "        border-collapse: collapse; " ++ nl
  ++ "        margin: 20px 0; " ++ nl
  ++ "        font-size: 13px; " ++ nl
  ++ "        border: 1px solid #3D3F4B; /* Bordure de table un peu plus visible */" ++ nl
  ++ "    }" ++ nl
  ++ "    .rsi-table th { " ++ nl
  ++ "        background-color: #3D3F4B; /* Fond gris foncé pour les entêtes */" ++ nl
  ++ "        color: #FAFAFA !important; /* Texte blanc cassé pour les entêtes */" ++ nl
  ++ "        padding: 12px 8px; " ++ nl
  ++ "        text-align: center; " ++ nl
  ++ "        font-weight: bold; " ++ nl
  ++ "        border: 1px solid #262730; /* Bordure d'entête */" ++ nl
  ++ "    }" ++ nl
  ++ "    .rsi-table td { " ++ nl
  ++ "        padding: 10px 8px; " ++ nl
  ++ "        text-align: center; " ++ nl
  ++ "        border: 1px solid #262730; /* Bordure de cellule */" ++ nl
  ++ "        color: #D1D2D6 !important; /* MODIFICATION: Couleur de texte gris clair pour les chiffres RSI */" ++ nl
  ++ "        /* background-color: #0E1117; /* Fond par défaut des cellules (si nécessaire) */" ++ nl
  ++ "    }" ++ nl
  ++ "    " ++ nl
  ++ "    .devises-cell { " ++ nl
  ++ "        font-weight: bold !important;" ++ nl
  ++ "        color: #E0E0E0 !important; /* MODIFICATION: Texte gris très clair pour les devises */" ++ nl
  ++ "        /* background-color: #1A1C23; /* Option: un fond légèrement différent pour cette colonne */" ++ nl
  ++ "    }" ++ nl
  ++ "    " ++ nl
  ++ "    .oversold-cell { background-color: #B00020 !important; color: #FFFFFF !important; font-weight: bold; } /* Rouge plus adapté au thème sombre */" ++ nl
  ++ "    .overbought-cell { background-color: #00796B !important; color: #FFFFFF !important; font-weight: bold; } /* Vert plus adapté au thème sombre */" ++ nl
  ++ "    " ++ nl
  ++ "    .neutral-cell { " ++ nl
  ++ "        /* Laisser la couleur par défaut de .rsi-table td, qui est maintenant #D1D2D6 */" ++ nl
  ++ "        /* Ou si on veut un fond spécifique pour neutre: background-color: #262730; */" ++ nl
  ++ "    }" ++ nl
  ++ "    .stats-container { " ++ nl
  ++ "        margin-top: 30px; " ++ nl
  ++ "        color: #FAFAFA; /* Texte des stats en blanc cassé */" ++ nl
  ++ "    }" ++ nl
  ++ "    /* Ajustement pour les titres de section */" ++ nl
  ++ "    h3 {" ++ nl
  ++ "        color: #FAFAFA !important; /* Assurer la visibilité des sous-titres comme " ++ dq ++ "RSI Analysis Results" ++ dq ++ " */" ++ nl
  ++ "    }" ++ nl
  ++ "</style>" ++ nl.

(** ** Reading CSS *)

Definition ascii_eqb (a b : ascii) : bool := Ascii.eqb a b.

(** [/* ... */] comments removed ([in_comment] is the mode). *)
Fixpoint strip_comments (in_comment : bool) (l : list ascii) : list ascii :=
  match l with
  | [] => []
  | c1 :: r =>
      if in_comment then
        match r with
        | c2 :: r' => if ascii_eqb c1 "*" && ascii_eqb c2 "/" then strip_comments false r'
                      else strip_comments true r
        | [] => []
        end
      else
        match r with
        | c2 :: r' => if ascii_eqb c1 "/" && ascii_eqb c2 "*" then strip_comments true r'
                      else c1 :: strip_comments false r
        | [] => [c1]
        end
  end.

(** The text between [<style>] and [</style>]. *)
Fixpoint after_prefix (p l : list ascii) : option (list ascii) :=
  match p, l with
  | [], _ => Some l
  | a :: p', b :: l' => if ascii_eqb a b then after_prefix p' l' else None
  | _, [] => None
  end.

Fixpoint drop_to (p l : list ascii) : list ascii :=
  match after_prefix p l with
  | Some rest => rest
  | None => match l with [] => [] | _ :: l' => drop_to p l' end
  end.

Fixpoint take_to (p l : list ascii) : list ascii :=
  match after_prefix p l with
  | Some _ => []
  | None => match l with [] => [] | c :: l' => c :: take_to p l' end
  end.

Definition style_body (s : string) : list ascii :=
  take_to (list_ascii_of_string "</style>") (drop_to (list_ascii_of_string "<style>") (list_ascii_of_string s)).

(** Rules as (selector, block) pairs: [block] is [None] outside braces. *)
Fixpoint split_rules (sel : list ascii) (block : option (list ascii)) (l : list ascii)
  : list (list ascii * list ascii) :=
  match l with
  | [] => []
  | c :: r =>
      match block with
      | None => if ascii_eqb c "{" then split_rules sel (Some []) r else split_rules (sel ++ [c])%list None r
      | Some b => if ascii_eqb c "}" then (sel, b) :: split_rules [] None r
                  else split_rules sel (Some (b ++ [c])%list) r
      end
  end.

(** Splitting at a separator. *)
Fixpoint split_on (sep : ascii) (acc : list ascii) (l : list ascii) : list (list ascii) :=
  match l with
  | [] => [acc]
  | c :: r => if ascii_eqb c sep then acc :: split_on sep [] r else split_on sep (acc ++ [c])%list r
  end.

Definition trim (l : list ascii) : string := strip (string_of_list_ascii l).

(** [property: value], split at the first colon. *)
Definition declaration (l : list ascii) : option (string * string) :=
  match split_on ":" [] l with
  | prop :: vals =>
      let p := trim prop in
      if String.eqb p "" then None
      else Some (p, trim (match vals with
                          | [] => []
                          | v :: vs => (v ++ flat_map (fun x => ":"%char :: x) vs)%list
                          end))
  | [] => None
  end.

Record css_rule := mkRule { selector : string; decls : list (string * string) }.

Definition css_rules (s : string) : list css_rule :=
  map (fun '(sel, b) => mkRule (trim sel) (flat_map (fun d => match declaration d with Some x => [x] | None => [] end)
                                               (split_on ";" [] b)))
      (split_rules [] None (strip_comments false (style_body s))).

(** The classes a selector names: its [.name] parts. *)
Definition is_name_char (c : ascii) : bool :=
  let n := nat_of_ascii c in
  ((48 <=? n) && (n <=? 57))%nat || ((65 <=? n) && (n <=? 90))%nat || ((97 <=? n) && (n <=? 122))%nat
  || ascii_eqb c "-" || ascii_eqb c "_".

Fixpoint selector_classes (cur : option (list ascii)) (l : list ascii) : list string :=
  match l with
  | [] => match cur with Some n => [string_of_list_ascii n] | None => [] end
  | c :: r =>
      match cur with
      | Some n => if is_name_char c then selector_classes (Some (n ++ [c])%list) r
                  else string_of_list_ascii n :: selector_classes (if ascii_eqb c "." then Some [] else None) r
      | None => selector_classes (if ascii_eqb c "." then Some [] else None) r
      end
  end.

Definition rule_classes (r : css_rule) : list string :=
  selector_classes None (list_ascii_of_string (selector r)).

Definition styled_classes (s : string) : list string := flat_map rule_classes (css_rules s).

(** ** Reading [class="..."] attributes *)

Fixpoint html_classes_l (l : list ascii) : list string :=
  match l with
  | [] => []
  | _ :: r =>
      match after_prefix (list_ascii_of_string ("class=" ++ dq)) l with
      | Some rest =>
          (map trim (split_on " " [] (take_to (list_ascii_of_string dq) rest)) ++ html_classes_l r)%list
      | None => html_classes_l r
      end
  end.

Definition html_classes (s : string) : list string := html_classes_l (list_ascii_of_string s).

(** ** How the classes of a concatenation compose

    The opening [class=] and its quote is looked for at every position.
    When every such opening of [a] has its closing quote in [a], and the
    last character of [a] or the first of [b] cannot be part of the
    opening, the classes of
    [a ++ b] are those of [a] followed by those of [b].  A text without
    [=] has no class.  [classes_law s cs] says that [s] contributes the
    classes [cs] whatever follows it. *)

Definition class_pat : list ascii := list_ascii_of_string ("class=" ++ dq).

(** Every attribute opening of [l] has its closing quote in [l]. *)
Fixpoint attrs_closed (l : list ascii) : bool :=
  match l with
  | [] => true
  | _ :: r =>
      match after_prefix class_pat l with
      | Some rest => existsb (ascii_eqb (ascii_of_nat 34)) rest
      | None => true
      end && attrs_closed r
  end.

(** No occurrence of [p] begins in [l] and ends in [b]. *)
Definition sep (p l b : list ascii) : Prop :=
  (forall l' x, l = (l' ++ [x])%list -> ~ In x p) \/ (forall y b', b = y :: b' -> ~ In y p).

Definition not_in_pat (c : ascii) : bool := negb (existsb (ascii_eqb c) class_pat).

Definition ends_clear (s : string) : bool :=
  match rev (list_ascii_of_string s) with [] => true | c :: _ => not_in_pat c end.

Definition starts_clear (s : string) : bool :=
  match list_ascii_of_string s with [] => false | c :: _ => not_in_pat c end.

Definition classes_law (s : string) (cs : list string) : Prop :=
  forall rest, html_classes_l (list_ascii_of_string s ++ rest)%list = (cs ++ html_classes_l rest)%list.

(** ** Lemmas *)

Lemma html_classes_l_cons (c : ascii) (l : list ascii) :
  html_classes_l (c :: l)
  = match after_prefix class_pat (c :: l) with
    | Some rest => (map trim (split_on " " [] (take_to [ascii_of_nat 34] rest)) ++ html_classes_l l)%list
    | None => html_classes_l l
    end.
Proof. reflexivity. Qed.

Lemma not_in_pat_spec (c : ascii) : not_in_pat c = true -> ~ In c class_pat.
Proof.
  unfold not_in_pat. rewrite negb_true_iff. intros H Hin.
  assert (existsb (ascii_eqb c) class_pat = true) by (apply existsb_exists; exists c; split; [exact Hin|apply Ascii.eqb_refl]).
  congruence.
Qed.

Lemma after_prefix_Some_eq (p l r : list ascii) : after_prefix p l = Some r -> l = (p ++ r)%list.
Proof.
  revert l. induction p as [|a p IH]; intros [|c l] H; cbn in H; try discriminate; try (now injection H as <-).
  destruct (ascii_eqb a c) eqn:E; [|discriminate]. apply Ascii.eqb_eq in E. subst. cbn. f_equal. auto.
Qed.

Lemma after_prefix_app_Some (p l r b : list ascii) :
  after_prefix p l = Some r -> after_prefix p (l ++ b)%list = Some (r ++ b)%list.
Proof.
  revert l. induction p as [|a p IH]; intros [|c l] H; cbn in *; try discriminate; try (now injection H as <-).
  destruct (ascii_eqb a c); [now apply IH|discriminate].
Qed.

Lemma after_prefix_app_None (p l b : list ascii) :
  l <> [] -> after_prefix p l = None -> sep p l b -> after_prefix p (l ++ b)%list = None.
Proof.
  revert l. induction p as [|a p IH]; intros [|c l] Hl H Hs; cbn in *; try discriminate; [contradiction|].
  destruct (ascii_eqb a c) eqn:E; [|reflexivity]. apply Ascii.eqb_eq in E. subst c.
  destruct l as [|c' l].
  - destruct Hs as [Hs|Hs]; [elim (Hs [] a eq_refl); now left|].
    destruct p as [|a' p]; [discriminate H|]. destruct b as [|y b]; [reflexivity|]. cbn.
    destruct (ascii_eqb a' y) eqn:E'; [|reflexivity]. apply Ascii.eqb_eq in E'. subst y.
    elim (Hs a' b eq_refl). right. now left.
  - apply IH; [discriminate|exact H|]. destruct Hs as [Hs|Hs]; [left|right].
    + intros l' x E Hx. apply (Hs (a :: l') x); [now rewrite E|now right].
    + intros y b' E Hy. apply (Hs y b' E). now right.
Qed.

Lemma take_to_app (d : ascii) (l b : list ascii) : In d l -> take_to [d] (l ++ b)%list = take_to [d] l.
Proof.
  induction l as [|c l IH]; intros H; [contradiction|]. cbn.
  destruct (ascii_eqb d c) eqn:E; [reflexivity|]. f_equal. apply IH.
  destruct H as [->|H]; [unfold ascii_eqb in E; now rewrite Ascii.eqb_refl in E|exact H].
Qed.

Lemma html_classes_app (a b : list ascii) :
  attrs_closed a = true -> sep class_pat a b -> html_classes_l (a ++ b)%list = (html_classes_l a ++ html_classes_l b)%list.
Proof.
  induction a as [|c a IH]; intros Hc Hs; [reflexivity|].
  cbn [attrs_closed] in Hc. apply andb_prop in Hc as [Hc1 Hc2].
  assert (Hs' : sep class_pat a b).
  { destruct Hs as [Hs|Hs]; [left; intros l' x E; apply (Hs (c :: l') x); now rewrite E|now right]. }
  change ((c :: a) ++ b)%list with (c :: (a ++ b))%list. rewrite !html_classes_l_cons, IH by assumption.
  change (c :: (a ++ b))%list with ((c :: a) ++ b)%list.
  destruct (after_prefix class_pat (c :: a)) as [rest|] eqn:E.
  - rewrite (after_prefix_app_Some _ _ _ b E).
    assert (Hd : In (ascii_of_nat 34) rest).
    { apply existsb_exists in Hc1 as (x & Hx & Ex). apply Ascii.eqb_eq in Ex. now subst x. }
    rewrite (take_to_app _ _ _ Hd). apply List.app_assoc.
  - rewrite (after_prefix_app_None _ (c :: a) b ltac:(discriminate) E Hs). reflexivity.
Qed.

(** A text without [=] has no attribute opening in it. *)
Lemma no_eq_classes (t : list ascii) :
  ~ In "="%char t -> html_classes_l t = [] /\ attrs_closed t = true.
Proof.
  induction t as [|c t IH]; intros Hn; [split; reflexivity|].
  destruct IH as [H1 H2]; [intros H; apply Hn; now right|].
  rewrite html_classes_l_cons. cbn [attrs_closed]. rewrite H1, H2.
  destruct (after_prefix class_pat (c :: t)) as [rest|] eqn:E; [|split; reflexivity].
  exfalso. apply after_prefix_Some_eq in E. apply Hn. rewrite E. apply in_or_app. left.
  cbn. do 5 right. now left.
Qed.

Lemma law_classes (s : string) (cs : list string) : classes_law s cs -> html_classes s = cs.
Proof. intros H. unfold html_classes. rewrite <- (app_nil_r (list_ascii_of_string s)), H. apply app_nil_r. Qed.

Lemma law_fixed (s : string) (cs : list string) :
  attrs_closed (list_ascii_of_string s) = true -> ends_clear s = true -> html_classes s = cs -> classes_law s cs.
Proof.
  intros Hc He <- rest. apply html_classes_app; [exact Hc|]. left. intros l' x E.
  unfold ends_clear in He. rewrite E, rev_app_distr in He. now apply not_in_pat_spec.
Qed.

Lemma law_text (t s : string) (cs : list string) :
  ~ In "="%char (list_ascii_of_string t) -> classes_law s cs -> starts_clear s = true -> classes_law (t ++ s) cs.
Proof.
  intros Ht Hs Hst rest. rewrite list_ascii_app, <- app_assoc. destruct (no_eq_classes _ Ht) as [H1 H2].
  rewrite html_classes_app; [now rewrite H1, Hs|exact H2|]. right. intros y b' E.
  unfold starts_clear in Hst. destruct (list_ascii_of_string s) as [|c l]; [discriminate Hst|].
  injection E as -> _. now apply not_in_pat_spec.
Qed.

Lemma law_app (s1 s2 : string) (c1 c2 : list string) :
  classes_law s1 c1 -> classes_law s2 c2 -> classes_law (s1 ++ s2) (c1 ++ c2)%list.
Proof. intros H1 H2 rest. rewrite list_ascii_app, <- app_assoc, H1, H2. apply app_assoc. Qed.

Lemma law_cat {A} (f : A -> string) (g : A -> list string) (l : list A) :
  (forall x, In x l -> classes_law (f x) (g x)) -> classes_law (cat (map f l)) (flat_map g l).
Proof.
  unfold cat. induction l as [|x l IH]; intros H; cbn [map fold_right flat_map]; [intros rest; reflexivity|].
  apply law_app; [apply H; now left|apply IH; intros y Hy; apply H; now right].
Qed.

