(* ===== verification/ScanMachine.v ===== *)
(** * ScanMachine.v: the scan loop as a transition system (src/apprsi.py, lines 157-167)

    Screener.v gives the loop as a function ([scan], two [fold_left]s).
    Here the same loop runs one statement group at a time, as the
    interpreter executes it: entering a pair (status line, fresh row),
    one timeframe (fetch, score, store), leaving a pair (append the row,
    advance the bar), leaving the loop (clear the bar and the status).
    A configuration holds where the loop is ([phase]), the [results]
    list and the trace of effects so far.

    The machine is deterministic and stuck only at the end, and [measure]
    steps of [step_fn] reach the end from every configuration.  The
    theorems are stated against the specification of Screener.v
    ([expected_row], [pair_events]), not against [scan]: every maximal
    run ends with the specified grid and effects; the invariant
    [scan_inv] (the rows so far and the open row are the specified
    ones) holds at every reachable configuration, by induction on the
    steps; and every cell is eventually fetched. *)

From Stdlib Require Import String Arith QArith Lia List Bool.
From S2P Require Import Prelude Pandas RsiEngine YahooProvider Screener.
Import ListNotations.

(** ** Configurations *)

Inductive phase :=
| Outer (todo : list (nat * string))
| Inner (i : nat) (pair_name : string) (todo : list (nat * string))
        (row_data : row) (tfs_left : list (string * string))
| Finished.

Record config := mkConfig { ph : phase; res : list row; tr : list event }.

Section Machine.
Context `{YahooFinance}.
Variable tfs : list (string * string).
Variable total_pairs : nat.

(** One step of the loop. *)
Inductive step : config -> config -> Prop :=
| step_pair i p todo res tr :
    step (mkConfig (Outer ((i, p) :: todo)) res tr)
         (mkConfig (Inner i p todo [("Devises"%string, VStr p)] tfs) res
                   (tr ++ [EvStatus (status_line p i total_pairs)]))
| step_cell i p todo row_data k d tfs' res tr :
    step (mkConfig (Inner i p todo row_data ((k, d) :: tfs')) res tr)
         (mkConfig (Inner i p todo (dict_set d (VFloat (calculate_rsi (fetch_forex_data p k) 10)) row_data) tfs')
                   res (tr ++ [EvFetch p k]))
| step_row i p todo row_data res tr :
    step (mkConfig (Inner i p todo row_data []) res tr)
         (mkConfig (Outer todo) (res ++ [row_data]) (tr ++ [EvProgress (progress_fraction i total_pairs)]))
| step_end res tr :
    step (mkConfig (Outer []) res tr) (mkConfig Finished res (tr ++ [EvProgressEmpty; EvStatusEmpty])).

(** The same step as a function. *)
Definition step_fn (c : config) : option config :=
  match ph c with
  | Outer ((i, p) :: todo) =>
      Some (mkConfig (Inner i p todo [("Devises"%string, VStr p)] tfs) (res c)
                     (tr c ++ [EvStatus (status_line p i total_pairs)]))
  | Inner i p todo row_data ((k, d) :: tfs') =>
      Some (mkConfig (Inner i p todo (dict_set d (VFloat (calculate_rsi (fetch_forex_data p k) 10)) row_data) tfs')
                     (res c) (tr c ++ [EvFetch p k]))
  | Inner i p todo row_data [] =>
      Some (mkConfig (Outer todo) (res c ++ [row_data]) (tr c ++ [EvProgress (progress_fraction i total_pairs)]))
  | Outer [] => Some (mkConfig Finished (res c) (tr c ++ [EvProgressEmpty; EvStatusEmpty]))
  | Finished => None
  end.

(** [n] steps of [step_fn]. *)
Fixpoint run (n : nat) (c : config) : config :=
  match n with
  | O => c
  | S m => match step_fn c with Some c' => run m c' | None => c end
  end.

(** The number of steps left. *)
Definition measure (c : config) : nat :=
  match ph c with
  | Finished => 0
  | Outer todo => 1 + length todo * (length tfs + 2)
  | Inner _ _ todo _ l => 2 + length l + length todo * (length tfs + 2)
  end.

End Machine.

(** The loop about to start. *)
Definition initial (pairs : list string) : config := mkConfig (Outer (enumerate pairs)) [] [].

(** ** The machine's lemmas *)

Section MachineLemmas.
Context `{YahooFinance}.
Variable tfs : list (string * string).
Variable total_pairs : nat.
#[local] Abbreviation step := (step tfs total_pairs).
#[local] Abbreviation step_fn := (step_fn tfs total_pairs).
#[local] Abbreviation measure := (measure tfs).

Lemma step_fn_spec (c c' : config) : step c c' <-> step_fn c = Some c'.
Proof.
  split.
  - intros Hs. destruct Hs; reflexivity.
  - destruct c as [[[|[i p] todo]|i p todo r [|[k d] l]|] res tr]; cbn; intros [= <-]; constructor.
Qed.

Lemma step_functional (c c1 c2 : config) : step c c1 -> step c c2 -> c1 = c2.
Proof. rewrite !step_fn_spec. congruence. Qed.

Lemma step_measure (c c' : config) : step c c' -> measure c = S (measure c').
Proof. intros Hs. destruct Hs; unfold ScanMachine.measure; cbn; lia. Qed.

(** The loop is stuck only once it has finished. *)
Lemma irred_iff_finished (c : config) : irred step c <-> ph c = Finished.
Proof.
  split.
  - intros Hi. destruct (step_fn c) as [c'|] eqn:E.
    + elim (Hi c'). now apply step_fn_spec.
    + destruct c as [[[|[? ?] ?]|? ? ? ? [|[? ?] ?]|] ? ?]; now inversion E.
  - intros Hf c' Hs. rewrite step_fn_spec in Hs. destruct c; cbn in *; subst. discriminate.
Qed.

(** [measure c] steps of [run] lead to the end. *)
Lemma run_to_end (c : config) :
  nsteps step (measure c) c (run tfs total_pairs (measure c) c)
  /\ ph (run tfs total_pairs (measure c) c) = Finished.
Proof.
  remember (measure c) as n eqn:En. revert c En. induction n as [|n IH]; intros c En; cbn.
  - split; [constructor|]. destruct c as [[|? ? ? ? ?|] ? ?]; cbn in *; now try lia.
  - destruct (step_fn c) as [c'|] eqn:E.
    + apply step_fn_spec in E. pose proof (step_measure _ _ E) as Em.
      destruct (IH c') as [Hn Hf]; [lia|]. split; [econstructor; eauto|exact Hf].
    + exfalso. destruct c as [[[|[? ?] ?]|? ? ? ? [|[? ?] ?]|] ? ?]; cbn in *; try discriminate; lia.
Qed.

(** [run] follows the steps. *)
Lemma run_star (n : nat) (c : config) : star step c (run tfs total_pairs n c).
Proof.
  revert c. induction n as [|n IH]; intros c; cbn; [constructor|].
  destruct (step_fn c) as [c'|] eqn:E; [|constructor].
  econstructor; [apply step_fn_spec, E|apply IH].
Qed.

(** The inner loop runs [scan_cell] over the timeframes left. *)
Lemma inner_star (i : nat) (p : string) todo (r : row) (l : list (string * string)) res0 tr0 :
  star step (mkConfig (Inner i p todo r l) res0 tr0)
    (mkConfig (Inner i p todo (fst (fold_left (scan_cell p) l (r, tr0))) []) res0
              (snd (fold_left (scan_cell p) l (r, tr0)))).
Proof.
  revert r tr0. induction l as [|[k d] l IH]; intros r tr0; cbn; [constructor|].
  econstructor; [constructor|]. apply IH.
Qed.

(** The outer loop runs [scan_pair] over the pairs left. *)
Lemma outer_star todo res0 tr0 :
  let st := fold_left (scan_pair tfs total_pairs) todo (mkScan res0 tr0) in
  star step (mkConfig (Outer todo) res0 tr0)
    (mkConfig Finished (results st) (trace st ++ [EvProgressEmpty; EvStatusEmpty])).
Proof.
  revert res0 tr0. induction todo as [|[i p] todo IH]; intros res0 tr0; cbn.
  - apply star_one. constructor.
  - econstructor; [constructor|]. eapply star_trans; [apply inner_star|].
    unfold scan_pair at 2. cbn.
    destruct (fold_left (scan_cell p) tfs _) as [r' tr'] eqn:E. cbn.
    econstructor; [constructor|]. apply IH.
Qed.

End MachineLemmas.

(** ** The end of the loop is the state [scan] computes *)

Section Refinement.
Context `{YahooFinance}.
Variables pairs keys display : list string.
#[local] Abbreviation tfs := (combine keys display).
#[local] Abbreviation mstep := (step (combine keys display) (length pairs)).

(** The configuration [scan] describes. *)
Definition final_config : config :=
  mkConfig Finished (results (scan pairs keys display)) (trace (scan pairs keys display)).

Lemma initial_star_final : star mstep (initial pairs) final_config.
Proof. unfold final_config, scan, initial. cbn. apply outer_star. Qed.

Lemma final_config_irred : irred mstep final_config.
Proof. now apply irred_iff_finished. Qed.

Lemma reachable_end_eq (c : config) : star mstep (initial pairs) c -> irred mstep c -> c = final_config.
Proof.
  intros Hs Hi. eapply finseq_unique; eauto using step_functional, initial_star_final, final_config_irred.
Qed.

(** From every reachable configuration the loop reaches the end [scan]
    computes. *)
Lemma reachable_reaches_final (c : config) : star mstep (initial pairs) c -> star mstep c final_config.
Proof.
  intros Hs. destruct (run_to_end (combine keys display) (length pairs) c) as [Hn Hf].
  pose proof (nsteps_star _ _ _ _ Hn) as Hc.
  rewrite <- (reachable_end_eq _ (star_trans _ _ _ _ Hs Hc)); [exact Hc|].
  now apply irred_iff_finished.
Qed.

End Refinement.

(** ** What the loop has done, by the specification

    [scan_inv tfs pairs c] says where the loop stands in terms of the
    grid [expected_row] (Screener.v) specifies: before a pair, the rows
    so far are the specified rows of the pairs already visited and the
    pairs left are the others, numbered on; inside pair [p], the open row
    is the specified row of [p] cut to the timeframes already visited;
    at the end, the rows are the whole specified grid. *)
Definition scan_inv `{YahooFinance} (tfs : list (string * string)) (pairs : list string) (c : config) : Prop :=
  match ph c with
  | Outer todo =>
      exists done rest, pairs = done ++ rest
        /\ todo = combine (seq (length done) (length rest)) rest
        /\ res c = map (expected_row tfs) done
  | Inner i p todo row_data tfs_left =>
      exists done rest tdone, pairs = done ++ p :: rest /\ i = length done
        /\ todo = combine (seq (S i) (length rest)) rest
        /\ res c = map (expected_row tfs) done
        /\ tfs = tdone ++ tfs_left /\ row_data = expected_row tdone p
  | Finished => res c = map (expected_row tfs) pairs
  end.

Section Invariant.
Context `{YahooFinance}.
Variables (tfs : list (string * string)) (pairs : list string) (total_pairs : nat).
Hypothesis tfs_nodup : NoDup (map snd tfs).
Hypothesis tfs_no_devises : ~ In "Devises"%string (map snd tfs).

Lemma map_fst_expected_row (tdone : list (string * string)) (p : string) :
  map fst (expected_row tdone p) = "Devises"%string :: map snd tdone.
Proof. unfold expected_row. cbn. rewrite map_map. f_equal. apply map_ext. now intros [k d]. Qed.

(** Storing the next timeframe's cell extends the specified row. *)
Lemma dict_set_expected_row (tdone rest : list (string * string)) (p k d : string) :
  tfs = tdone ++ (k, d) :: rest ->
  dict_set d (VFloat (calculate_rsi (fetch_forex_data p k) 10)) (expected_row tdone p)
  = expected_row (tdone ++ [(k, d)]) p.
Proof.
  intros Ht. rewrite dict_set_fresh.
  - unfold expected_row. now rewrite map_app.
  - apply dict_get_None_iff. rewrite map_fst_expected_row. intros [Hd|Hd].
    + apply tfs_no_devises. rewrite Ht, map_app, <- Hd. apply in_or_app. right. now left.
    + pose proof tfs_nodup as Hnd. rewrite Ht, map_app in Hnd. cbn in Hnd.
      apply NoDup_remove_2 in Hnd. apply Hnd, in_or_app. now left.
Qed.

Lemma scan_inv_initial : scan_inv tfs pairs (initial pairs).
Proof. exists [], pairs. now repeat split. Qed.

Lemma scan_inv_step (c c' : config) : step tfs total_pairs c c' -> scan_inv tfs pairs c -> scan_inv tfs pairs c'.
Proof.
  intros Hs. destruct Hs; cbn.
  - intros (done & [|p' rest] & -> & Ht & Hr); [discriminate|]. injection Ht as -> -> ->.
    exists done, rest, []. now repeat split.
  - intros (done & rest & tdone & -> & -> & -> & Hr & Ht & ->).
    exists done, rest, (tdone ++ [(k, d)]). rewrite <- app_assoc.
    repeat split; auto. now apply dict_set_expected_row with tfs'.
  - intros (done & rest & tdone & -> & -> & -> & Hr & Ht & ->).
    rewrite app_nil_r in Ht. subst tdone. exists (done ++ [p]), rest.
    rewrite <- app_assoc, length_app, Nat.add_1_r, Hr, map_app. now repeat split.
  - intros (done & [|? ?] & -> & Ht & Hr); [|discriminate]. now rewrite app_nil_r.
Qed.

Lemma scan_inv_star (c c' : config) :
  star (step tfs total_pairs) c c' -> scan_inv tfs pairs c -> scan_inv tfs pairs c'.
Proof. induction 1; eauto using scan_inv_step. Qed.

End Invariant.

(** ** Theorems *)

Section Claims.
Context `{YahooFinance}.
Variables pairs keys display : list string.
Hypothesis keys_display_length : length keys = length display.
Hypothesis display_nodup : NoDup display.
Hypothesis display_no_devises : ~ In "Devises"%string display.
#[local] Abbreviation tfs := (combine keys display).
#[local] Abbreviation mstep := (step (combine keys display) (length pairs)).


(** C26: at every step of the loop the rows so far are the specified
    rows of the pairs already visited, in order, and a row being filled
    holds ['Devises'] and the specified cells of the timeframes already
    visited: a scan stopped at any point has only correct rows, and the
    row of each pair starts afresh. *)
Theorem scan_machine_invariant (c : config) :
  star mstep (initial pairs) c -> scan_inv tfs pairs c.
Proof.
  intros Hs. eapply scan_inv_star; [| |exact Hs|apply scan_inv_initial];
    rewrite ?map_snd_combine by exact keys_display_length; assumption.
Qed.

(** C27: every cell is eventually fetched: from every configuration the
    loop reaches, it goes on to one whose effects include the fetch of
    each configured pair for each timeframe key. *)
Theorem scan_machine_fetches_every_cell (c : config) (p k d : string) :
  In p pairs -> In (k, d) (combine keys display) -> star mstep (initial pairs) c ->
  exists c', star mstep c c' /\ In (EvFetch p k) (tr c').
Proof.
  intros Hp Hkd Hs. exists (final_config pairs keys display).
  split; [now apply reachable_reaches_final|].
  unfold final_config. cbn [tr]. rewrite scan_trace_eq. apply in_or_app. left. apply in_concat.
  rewrite <- (map_snd_enumerate pairs) in Hp. apply in_map_iff in Hp as ([i p'] & Ep & Hip).
  cbn in Ep. subst p'. exists (pair_events (combine keys display) (length pairs) (i, p)).
  split; [now apply in_map|]. cbn. right. apply in_or_app. left.
  apply (in_map (fun '(k0, _) => EvFetch p k0) _ _ Hkd).
Qed.

End Claims.

(** ** Witnesses on the three-pair feed of Screener.v *)

Lemma demo_tfs_ok : length demo_tfs = length demo_tfs /\ NoDup demo_tfs /\ ~ In "Devises"%string demo_tfs.
Proof. unfold demo_tfs. repeat split; [repeat constructor; cbn; intuition discriminate|cbn; intuition discriminate]. Qed.


Lemma scan_machine_invariant_witness :
  @scan_inv demo_feed (combine demo_tfs demo_tfs) demo_pairs
    (@run demo_feed (combine demo_tfs demo_tfs) (length demo_pairs) 5 (initial demo_pairs)).
Proof.
  destruct demo_tfs_ok as (Hl & Hnd & Hdev).
  apply (@scan_machine_invariant demo_feed demo_pairs demo_tfs demo_tfs Hl Hnd Hdev). apply run_star.
Defined.

Lemma scan_machine_fetches_every_cell_witness :
  exists c', star (@step demo_feed (combine demo_tfs demo_tfs) (length demo_pairs)) (initial demo_pairs) c'
             /\ In (EvFetch "GBP/USD"%string "H4"%string) (tr c').
Proof.
  apply (@scan_machine_fetches_every_cell demo_feed demo_pairs demo_tfs demo_tfs (initial demo_pairs)
           "GBP/USD"%string "H4"%string "H4"%string).
  - cbn. tauto.
  - cbn. tauto.
  - constructor.
Defined.
