(* ===== verification/Page.v ===== *)
(** * Page.v: the page script as a whole (src/apprsi.py, lines 10-216)

    apprsi.py is a module-level Streamlit script: it configures the page,
    shows a header and a legend, runs the scan loop (Screener.v), renders
    the table (Render.v), shows the statistics in one column per
    timeframe (Stats.v) and ends with a success message, a guide and a
    footer.  [run_page] strings these together in the script's order as a
    writer of [ui] effects with exceptions ([script]): an uncaught
    [TypeError] ([get_rsi_class] or a comparison in the statistics) or
    [IndexError] ([stat_cols[i]]) stops the script after the effects
    already shown.  The clock ([datetime.now()]) is an argument; the
    stylesheet is the markdown [css_text] of Stylesheet.v.

    The theorems show that for every answer of the network the script
    runs to its end and shows exactly the expected sequence of effects,
    that the table appears only after the last fetch, and that every
    class the HTML it shows uses, the class of every computed cell
    included, has a rule in the stylesheet. *)

From Stdlib Require Import String Ascii Arith QArith Lia List Bool.
From S2P Require Import Prelude Pandas RsiEngine PyNum Classify YahooProvider Screener Stats Render Stylesheet.
Import ListNotations.
#[local] Open Scope string_scope.

(** ** Effects and the script monad *)

Inductive py_exn := ExcTypeError | ExcIndexError.

Inductive ui :=
| UiPageConfig (page_title page_icon layout sidebar : string)
| UiMarkdown (body : string)
| UiProgressBar (value : Q)
| UiPlaceholder
| UiScan (e : event)
| UiColumns (n : nat)
| UiMetric (column : nat) (m : metric)
| UiSuccess (body : string)
| UiExpander (label : string) (contents : list ui)
| UiException (e : py_exn).

(** What the script has shown, and how it ended. *)
Definition script (A : Type) : Type := (list ui * (py_exn + A))%type.

Definition ret {A} (a : A) : script A := ([], inr a).

Definition emit (u : ui) : script unit := ([u], inr tt).

(** An uncaught exception: Streamlit shows it and the script stops. *)
Definition raise {A} (e : py_exn) : script A := ([UiException e], inl e).

Definition bind {A B} (m : script A) (k : A -> script B) : script B :=
  match m with
  | (out, inl e) => (out, inl e)
  | (out, inr a) => let '(out', r) := k a in ((out ++ out')%list, r)
  end.

Declare Scope script_scope.
Notation "m ;; k" := (bind m (fun _ => k)) (at level 61, right associativity) : script_scope.
#[local] Open Scope script_scope.

Fixpoint emit_all (us : list ui) : script unit :=
  match us with [] => ret tt | u :: r => emit u ;; emit_all r end.

(** ** The texts of the page *)

(** [class="name"] *)
Definition html_class (name : string) : string := "class=" ++ dq ++ name ++ dq.

(** Lines 10-15. *)
Definition page_config : ui := UiPageConfig "RSI Forex Screener" "📊" "wide" "collapsed".

(** Line 140. *)
Definition header_html : string := "<h1 " ++ html_class "screener-header" ++ ">📊 Screener Analysis</h1>".

(** Line 142. *)
Definition update_info (current_time : string) : string :=
  "<div " ++ html_class "update-info" ++ ">🔄 Analysis updated. Last update: " ++ current_time ++ "</div>".

(** Lines 143-146. *)
Definition legend_html : string :=
  "<div " ++ html_class "legend-container" ++ ">" ++ nl
  ++ "    <div " ++ html_class "legend-item" ++ "><div " ++ html_class "legend-dot oversold-dot"
  ++ "></div><span>Oversold (RSI ≤ 20)</span></div>" ++ nl
  ++ "    <div " ++ html_class "legend-item" ++ "><div " ++ html_class "legend-dot overbought-dot"
  ++ "></div><span>Overbought (RSI ≥ 80)</span></div>" ++ nl
  ++ "</div>".

(** Line 171. *)
Definition results_heading : string := "### 📈 RSI Analysis Results".

(** Lines 193-194 and 207. *)
Definition stats_open : string := "<div " ++ html_class "stats-container" ++ ">".
Definition stats_heading : string := "### 📊 Signal Statistics".
Definition stats_close : string := "</div>".

(** Line 208. *)
Definition success_text (n : nat) : string := "✅ Analysis complete! " ++ string_of_nat n ++ " pairs analyzed.".

(** Lines 210-214. *)
Definition guide_label : string := "ℹ️ User Guide".
Definition guide_text : string :=
  " " ++ nl ++ "    ## RSI Configuration " ++ nl ++ "    ... " ++ nl ++ "    ".

(** Line 216. *)
Definition footer_rule : string := "---".
Definition footer_text : string := "*Developed with Streamlit | Data from Yahoo Finance | RSI OHLC4 Period 10*".

(** ** The script *)

(** Lines 197-206: one metric per timeframe, in the column of its index;
    the counts are computed before [stat_cols[i]] is looked up. *)
Fixpoint stats_loop (results : list row) (stat_cols : list nat) (its : list (nat * string)) : script unit :=
  match its with
  | [] => ret tt
  | (i, tf_display_name) :: r =>
      match tf_stats results tf_display_name with
      | None => raise ExcTypeError
      | Some s =>
          match nth_error stat_cols i with
          | None => raise ExcIndexError
          | Some col => emit (UiMetric col (metric_of tf_display_name s)) ;; stats_loop results stat_cols r
          end
      end
  end.

Section Script.
Context `{YahooFinance}.
Variable str_float : pyfloat -> string.
Variable current_time : string.

(** Lines 10-216. *)
Definition run_page : script unit :=
  emit page_config ;;
  emit (UiMarkdown css_text) ;;
  emit (UiMarkdown header_html) ;;
  emit (UiMarkdown (update_info current_time)) ;;
  emit (UiMarkdown legend_html) ;;
  emit (UiProgressBar 0) ;;
  emit UiPlaceholder ;;
  let st := scan forex_pairs timeframes_fetch_keys timeframes_display in
  emit_all (map UiScan (trace st)) ;;
  emit (UiMarkdown results_heading) ;;
  match render_table str_float (results st) timeframes_display with
  | None => raise ExcTypeError
  | Some html_table => emit (UiMarkdown html_table)
  end ;;
  emit (UiMarkdown stats_open) ;;
  emit (UiMarkdown stats_heading) ;;
  let num_timeframes := length timeframes_display in
  emit (UiColumns num_timeframes) ;;
  stats_loop (results st) (seq 0 num_timeframes) (enumerate timeframes_display) ;;
  emit (UiMarkdown stats_close) ;;
  emit (UiSuccess (success_text (length forex_pairs))) ;;
  emit (UiExpander guide_label [UiMarkdown guide_text]) ;;
  emit (UiMarkdown footer_rule) ;;
  emit (UiMarkdown footer_text).

End Script.

(** ** The specification of the page *)

(** The counts the statistics show for [tf], ["N/A"] as [None]. *)
Definition tf_counts (results : list row) (tf : string) : option (nat * nat * nat) :=
  let vs := map (fun r => float_of (row_get tf r)) results in
  if forallb is_nan vs then None
  else Some (count_class oversold_cell vs, count_class overbought_cell vs,
             (count_class oversold_cell vs + count_class overbought_cell vs)%nat).

(** ** Lemmas on scripts *)

Lemma emit_bind {A} (u : ui) (m : script A) : (emit u ;; m) = (u :: fst m, snd m).
Proof. now destruct m. Qed.

Lemma emit_all_ok (us : list ui) : emit_all us = (us, inr tt).
Proof. induction us as [|u r IH]; [reflexivity|]. cbn [emit_all]. now rewrite emit_bind, IH. Qed.

(** The statistics loop, when every count is defined and every index is
    a column. *)
Lemma stats_loop_ok (results : list row) (cols : list nat) (its : list (nat * string)) :
  (forall i tf, In (i, tf) its -> tf_stats results tf = Some (tf_counts results tf) /\ i < length cols)%nat ->
  stats_loop results cols its
  = (map (fun '(i, tf) => UiMetric (nth i cols 0%nat) (metric_of tf (tf_counts results tf))) its, inr tt).
Proof.
  induction its as [|[i tf] r IH]; intros Hok; [reflexivity|]. cbn [stats_loop].
  destruct (Hok i tf (or_introl eq_refl)) as [-> Hi].
  rewrite (nth_error_nth' cols 0%nat Hi), emit_bind, IH by (intros; apply Hok; right; assumption).
  reflexivity.
Qed.

Lemma In_enumerate {A} (xs : list A) (i : nat) (x : A) : In (i, x) (enumerate xs) -> (i < length xs)%nat.
Proof. unfold enumerate. intros Hin. apply in_combine_l, in_seq in Hin. lia. Qed.

(** ** The page of a scan *)

Definition page_head (current_time : string) : list ui :=
  [page_config; UiMarkdown css_text; UiMarkdown header_html; UiMarkdown (update_info current_time);
   UiMarkdown legend_html; UiProgressBar 0; UiPlaceholder].

Definition page_tail : list ui :=
  [UiMarkdown stats_close; UiSuccess (success_text (length forex_pairs));
   UiExpander guide_label [UiMarkdown guide_text]; UiMarkdown footer_rule; UiMarkdown footer_text].

(** What the page shows: the header, the scan's effects, the table of
    Render.v, one metric per timeframe with the counts of Stats.v, and
    the end of the page. *)
Definition page_effects `{YahooFinance} (current_time : string) : list ui :=
  let st := scan forex_pairs timeframes_fetch_keys timeframes_display in
  page_head current_time ++ map UiScan (trace st)
  ++ [UiMarkdown results_heading;
      UiMarkdown (table_head timeframes_display
                  ++ cat (map (scan_row_html (combine timeframes_fetch_keys timeframes_display)) forex_pairs)
                  ++ "</tbody></table>");
      UiMarkdown stats_open; UiMarkdown stats_heading; UiColumns (length timeframes_display)]
  ++ map (fun '(i, tf) => UiMetric i (metric_of tf (tf_counts (results st) tf))) (enumerate timeframes_display)
  ++ page_tail.

Section PageRun.
Context `{YahooFinance}.
Variable str_float : pyfloat -> string.
Variable current_time : string.
#[local] Abbreviation grid := (results (scan forex_pairs timeframes_fetch_keys timeframes_display)).

Lemma display_nodup : NoDup timeframes_display.
Proof. unfold timeframes_display. repeat constructor; cbn; intuition discriminate. Qed.

Lemma display_no_devises : ~ In "Devises" timeframes_display.
Proof. cbn. intuition discriminate. Qed.

Lemma pairs_clean : Forall clean_label forex_pairs.
Proof. unfold forex_pairs. repeat constructor; try discriminate; vm_compute; reflexivity. Qed.

Lemma grid_eq : grid = map (expected_row (combine timeframes_fetch_keys timeframes_display)) forex_pairs.
Proof. apply scan_results_eq; [reflexivity|apply display_nodup|apply display_no_devises]. Qed.

Lemma grid_floats (tf : string) (r : row) :
  In tf timeframes_display -> In r grid -> exists f, row_get tf r = VFloat f.
Proof.
  intros Htf Hr. rewrite grid_eq in Hr. apply in_map_iff in Hr as (p & <- & _).
  apply row_get_expected; [now rewrite map_snd_combine|intros ->; now apply display_no_devises].
Qed.

Lemma page_table :
  render_table str_float grid timeframes_display
  = Some (table_head timeframes_display
          ++ cat (map (scan_row_html (combine timeframes_fetch_keys timeframes_display)) forex_pairs)
          ++ "</tbody></table>").
Proof.
  apply render_scan_table_eq; [reflexivity|apply display_nodup|apply display_no_devises|apply pairs_clean].
Qed.

Lemma page_stats :
  stats_loop grid (seq 0 (length timeframes_display)) (enumerate timeframes_display)
  = (map (fun '(i, tf) => UiMetric i (metric_of tf (tf_counts grid tf))) (enumerate timeframes_display), inr tt).
Proof.
  rewrite stats_loop_ok.
  - f_equal.
  - intros i tf Hin. split.
    + apply tf_stats_eq_counts. intros r Hr. apply grid_floats; [|exact Hr].
      unfold enumerate in Hin. now apply in_combine_r in Hin.
    + rewrite length_seq. exact (In_enumerate _ _ _ Hin).
Qed.

Lemma run_page_eq : run_page str_float current_time = (page_effects current_time, inr tt).
Proof.
  unfold run_page. cbv zeta. rewrite emit_all_ok, page_table, page_stats.
  cbn [bind emit ret fst snd]. unfold page_effects, page_head, page_tail.
  reflexivity.
Qed.

End PageRun.

Lemma no_scan_after_table `{YahooFinance} (e : event) :
  ~ In (UiScan e)
      ([UiMarkdown stats_open; UiMarkdown stats_heading; UiColumns (length timeframes_display)]
       ++ map (fun '(i, tf) => UiMetric i (metric_of tf (tf_counts
                 (results (scan forex_pairs timeframes_fetch_keys timeframes_display)) tf)))
              (enumerate timeframes_display)
       ++ page_tail).
Proof.
  intros Hin. apply in_app_or in Hin as [Hin|Hin].
  - repeat destruct Hin as [Hin|Hin]; try discriminate; contradiction.
  - apply in_app_or in Hin as [Hin|Hin].
    + apply in_map_iff in Hin as ([i tf] & Hm & _). discriminate.
    + unfold page_tail in Hin. repeat destruct Hin as [Hin|Hin]; try discriminate; contradiction.
Qed.

(** ** Theorems *)

Section PageTheorems.
Context `{YahooFinance}.
Variable str_float : pyfloat -> string.
Variable current_time : string.

(** C28: for every answer of the network, the page script runs to its
    end without an exception and shows, in order: the configuration,
    stylesheet, header, clock and legend; the scan's effects; the table
    heading and the table of the grid; the statistics container, its
    heading, four columns and one metric per timeframe with the counts
    of its oversold and overbought cells; the success message with the
    number of pairs; the guide; the footer. *)
Theorem run_page_completes : run_page str_float current_time = (page_effects current_time, inr tt).
Proof. apply run_page_eq. Qed.

(** C29: the table is shown once the grid is complete: every effect of
    the scan (every fetch among them) is shown before the table, and
    nothing of the scan after it. *)
Theorem page_table_after_scan :
  exists pre post html,
    fst (run_page str_float current_time) = (pre ++ UiMarkdown html :: post)%list
    /\ render_table str_float (results (scan forex_pairs timeframes_fetch_keys timeframes_display))
         timeframes_display = Some html
    /\ (forall e, In e (trace (scan forex_pairs timeframes_fetch_keys timeframes_display)) -> In (UiScan e) pre)
    /\ (forall e, ~ In (UiScan e) post).
Proof.
  rewrite run_page_eq, page_table. cbn [fst]. unfold page_effects.
  eexists (page_head current_time ++ map UiScan (trace (scan forex_pairs timeframes_fetch_keys timeframes_display))
           ++ [UiMarkdown results_heading])%list, _, _.
  split; [rewrite <- !app_assoc; reflexivity|]. split; [reflexivity|]. split.
  - intros e He. apply in_or_app. right. apply in_or_app. left. now apply in_map.
  - apply no_scan_after_table.
Qed.

End PageTheorems.

(** ** The page's classes and the stylesheet

    Every class the page's HTML uses has a rule in its stylesheet, for
    every answer of the network: the classes of the fixed HTML are read
    off it, and those of the table are ['rsi-table'], ['devises-cell']
    per pair and the class [get_rsi_class] gives each computed RSI,
    since the texts between the tags (prices, pair names, the clock)
    contain no [=]. *)

(** The HTML bodies of the markdown the page shows, the guide's
    included. *)
Fixpoint ui_html (u : ui) : list string :=
  match u with
  | UiMarkdown h => [h]
  | UiExpander _ us => flat_map ui_html us
  | _ => []
  end.

(** Every class of [h] has a rule. *)
Definition all_styled (h : string) : bool :=
  forallb (fun c => existsb (String.eqb c) (styled_classes css_text)) (html_classes h).

Lemma all_styled_In (h c : string) : all_styled h = true -> In c (html_classes h) -> In c (styled_classes css_text).
Proof. unfold all_styled. rewrite forallb_forall. intros H Hc. apply existsb_eqb_In, H, Hc. Qed.

Lemma get_rsi_class_cases (v : pyfloat) : In (get_rsi_class v) [oversold_cell; overbought_cell; neutral_cell].
Proof. unfold get_rsi_class. destruct v as [x|]; [destruct (Qle_bool x 20); [|destruct (Qle_bool 80 x)]|]; cbn; tauto. Qed.

(** A [<td>] of a class [get_rsi_class] gives, around a text without [=]. *)
Lemma td_law (cls txt : string) :
  In cls [oversold_cell; overbought_cell; neutral_cell] -> no_eq txt -> classes_law (td cls txt) [cls].
Proof.
  intros Hc Ht. unfold td.
  replace ("<td class=" ++ dq ++ cls ++ dq ++ ">" ++ txt ++ "</td>")
    with (("<td class=" ++ dq ++ cls ++ dq ++ ">") ++ (txt ++ "</td>")) by now rewrite !string_app_assoc.
  rewrite <- (app_nil_r [cls]). apply law_app.
  - destruct Hc as [<-|[<-|[<-|[]]]]; apply law_fixed; vm_compute; reflexivity.
  - apply law_text; [exact Ht|apply law_fixed|]; vm_compute; reflexivity.
Qed.

Lemma devises_td_law (p : string) : no_eq p -> classes_law (devises_td p) ["devises-cell"].
Proof.
  intros Hp. unfold devises_td.
  replace ("<tr><td class=" ++ dq ++ "devises-cell" ++ dq ++ ">" ++ p ++ "</td>")
    with (("<tr><td class=" ++ dq ++ "devises-cell" ++ dq ++ ">") ++ (p ++ "</td>")) by now rewrite !string_app_assoc.
  rewrite <- (app_nil_r ["devises-cell"]). apply law_app; [apply law_fixed; vm_compute; reflexivity|].
  apply law_text; [exact Hp|apply law_fixed|]; vm_compute; reflexivity.
Qed.

(** The classes of the table of a scan. *)
Definition row_classes `{YahooFinance} (tfs : list (string * string)) (p : string) : list string :=
  "devises-cell" :: flat_map (fun '(k, _) => [get_rsi_class (calculate_rsi (fetch_forex_data p k) 10)]) tfs.

Lemma scan_row_law `{YahooFinance} (tfs : list (string * string)) (p : string) :
  no_eq p -> classes_law (scan_row_html tfs p) (row_classes tfs p).
Proof.
  intros Hp. unfold scan_row_html, row_classes.
  change ("devises-cell" :: ?l) with (["devises-cell"] ++ l)%list.
  apply law_app; [now apply devises_td_law|]. rewrite <- app_nil_r. apply law_app.
  - apply law_cat. intros [k d] _. apply td_law; [apply get_rsi_class_cases|apply format_rsi_no_eq].
  - apply law_fixed; vm_compute; reflexivity.
Qed.

Lemma update_info_law (current_time : string) :
  no_eq current_time -> classes_law (update_info current_time) ["update-info"].
Proof.
  intros Ht. unfold update_info.
  replace ("<div " ++ html_class "update-info" ++ ">🔄 Analysis updated. Last update: " ++ current_time ++ "</div>")
    with (("<div " ++ html_class "update-info" ++ ">🔄 Analysis updated. Last update: ") ++ (current_time ++ "</div>"))
    by now rewrite !string_app_assoc.
  rewrite <- (app_nil_r ["update-info"]). apply law_app; [apply law_fixed; vm_compute; reflexivity|].
  apply law_text; [exact Ht|apply law_fixed|]; vm_compute; reflexivity.
Qed.

Lemma no_eq_b (s : string) : existsb (Ascii.eqb "="%char) (list_ascii_of_string s) = false -> no_eq s.
Proof.
  intros H Hin. assert (existsb (Ascii.eqb "="%char) (list_ascii_of_string s) = true)
    by (apply existsb_exists; exists "="%char; split; [exact Hin|apply Ascii.eqb_refl]). congruence.
Qed.

Lemma row_classes_cases `{YahooFinance} (tfs : list (string * string)) (p c : string) :
  In c (row_classes tfs p) -> In c ["devises-cell"; oversold_cell; overbought_cell; neutral_cell].
Proof.
  intros [<-|Hc]; [now left|right]. apply in_flat_map in Hc as ([k d] & _ & [<-|[]]).
  apply get_rsi_class_cases.
Qed.

(** The table the page shows. *)
Lemma table_law `{YahooFinance} :
  classes_law (table_head timeframes_display
               ++ cat (map (scan_row_html (combine timeframes_fetch_keys timeframes_display)) forex_pairs)
               ++ "</tbody></table>")
    (["rsi-table"] ++ flat_map (row_classes (combine timeframes_fetch_keys timeframes_display)) forex_pairs ++ [])%list.
Proof.
  apply law_app; [apply law_fixed; vm_compute; reflexivity|]. apply law_app.
  - apply law_cat. intros p Hp. apply scan_row_law, no_eq_b.
    assert (E : forallb (fun p => negb (existsb (Ascii.eqb "="%char) (list_ascii_of_string p))) forex_pairs = true)
      by reflexivity.
    rewrite forallb_forall in E. apply negb_true_iff, E, Hp.
  - apply law_fixed; vm_compute; reflexivity.
Qed.

Lemma flat_map_ui_html_nil {A} (f : A -> ui) (l : list A) :
  (forall a, ui_html (f a) = []) -> flat_map ui_html (map f l) = [].
Proof. intros Hf. induction l as [|a l IH]; [reflexivity|]. cbn. now rewrite Hf, IH. Qed.

(** The HTML of the page, in order. *)
Lemma page_markdowns `{YahooFinance} (current_time : string) :
  flat_map ui_html (page_effects current_time)
  = [css_text; header_html; update_info current_time; legend_html; results_heading;
     table_head timeframes_display
       ++ cat (map (scan_row_html (combine timeframes_fetch_keys timeframes_display)) forex_pairs)
       ++ "</tbody></table>";
     stats_open; stats_heading; stats_close; guide_text; footer_rule; footer_text].
Proof.
  unfold page_effects, page_head, page_tail. rewrite !flat_map_app.
  rewrite (flat_map_ui_html_nil UiScan) by reflexivity.
  rewrite (flat_map_ui_html_nil (fun '(i, tf) => UiMetric i _)) by (intros [i tf]; reflexivity).
  reflexivity.
Qed.

(** C12: for every answer of the network and every clock text without
    [=] (as [strftime] prints it), every class used by the HTML the page
    shows (the header, the update line, the legend, the table with its
    pair cells and the class [get_rsi_class] gives each computed RSI,
    the statistics container) has a rule in the page's stylesheet. *)
Theorem page_classes_styled `{YahooFinance} (str_float : pyfloat -> string) (current_time h c : string) :
  no_eq current_time ->
  In h (flat_map ui_html (fst (run_page str_float current_time))) -> In c (html_classes h) ->
  In c (styled_classes css_text).
Proof.
  intros Ht Hh Hc. rewrite run_page_eq in Hh. cbn [fst] in Hh. rewrite page_markdowns in Hh.
  destruct Hh as [<-|[<-|[<-|[<-|[<-|[<-|[<-|[<-|[<-|[<-|[<-|[<-|[]]]]]]]]]]]]].
  1, 2, 4, 5, 7-12: revert Hc; apply all_styled_In; vm_compute; reflexivity.
  - rewrite (law_classes _ _ (update_info_law _ Ht)) in Hc. destruct Hc as [<-|[]].
    apply existsb_eqb_In. vm_compute. reflexivity.
  - rewrite (law_classes _ _ table_law) in Hc. apply in_app_iff in Hc as [[<-|[]]|Hc].
    + apply existsb_eqb_In. vm_compute. reflexivity.
    + rewrite app_nil_r in Hc. apply in_flat_map in Hc as (p & _ & Hc).
      destruct (row_classes_cases _ _ _ Hc) as [<-|[<-|[<-|[<-|[]]]]]; apply existsb_eqb_In; vm_compute; reflexivity.
Qed.

Lemma page_classes_styled_witness : In "update-info" (styled_classes css_text).
Proof.
  apply (@page_classes_styled demo_feed (fun _ => "") "2024-01-01 00:00:00"
           (update_info "2024-01-01 00:00:00") "update-info").
  - apply no_eq_b. vm_compute. reflexivity.
  - rewrite run_page_eq. cbn [fst]. rewrite page_markdowns. cbn [In]. right. right. left. reflexivity.
  - vm_compute. left. reflexivity.
Defined.
